(** * GLM-OCR converters of the Obsidian plugin: model and properties

    The repository holds three versions of [GLMOCRConverter]:
    - the local JSON converter ([src/converters/glmocrConverter.ts]),
      module [Local];
    - the cloud converter (Zhipu layout_parsing API), module [Cloud];
    - the local converter that sends PDFs as multipart/form-data and
      images as JSON, module [Multipart].

    Each [convert] and [testConnection] is an [async] method whose only
    results are a boolean, the notices and console lines it emits and the
    calls it makes to its collaborators.  They are embedded as programs in
    a small writer-and-exception monad [M]: a run yields a completion
    (returned value or thrown error) and the ordered list of events. *)

From Stdlib Require Import List String Ascii Bool ZArith NArith Lia.
From Stdlib.Strings Require Import Byte.
From Stdlib Require Import DecimalString.
Import ListNotations.
Local Open Scope string_scope.

Set Implicit Arguments.
Set Warnings "-register-all".

(* ------------------------------------------------------------------ *)
(** * Strings

    A JavaScript string is modelled as a [string]: a sequence of code
    units, here the code units U+0000..U+00FF.  The source only
    concatenates, measures, slices and compares strings. *)

(** [s.substring(0, n)] *)
Definition substring_to (n : nat) (s : string) : string := String.substring 0 n s.

(** [s.substring(n)] *)
Fixpoint substring_from (n : nat) (s : string) : string :=
  match n, s with
  | O, _ => s
  | S n', String _ s' => substring_from n' s'
  | S _, EmptyString => EmptyString
  end.

(** [strip_prefix p s]: the rest of [s] after its prefix [p]. *)
Fixpoint strip_prefix (p s : string) : option string :=
  match p, s with
  | EmptyString, _ => Some s
  | String a p', String b s' => if Ascii.eqb a b then strip_prefix p' s' else None
  | String _ _, EmptyString => None
  end.

(** Truthiness of a string: every string but the empty one. *)
Definition str_truthy (s : string) : bool :=
  match s with EmptyString => false | String _ _ => true end.

(** [hay] contains [needle] as a contiguous substring. *)
Definition Contains (needle hay : string) : Prop :=
  exists pre post, hay = pre ++ needle ++ post.

(** Number-to-string conversion of an integer, as in [`${response.status}`]. *)
Definition string_of_Z (z : Z) : string :=
  NilEmpty.string_of_int (Z.to_int z).

(* ------------------------------------------------------------------ *)
(** * Base64: [btoa] and the standard decoder (RFC 4648, section 4) *)

Definition b64_table : string :=
  "ABCDEFGHIJKLMNOPQRSTUVWXYZabcdefghijklmnopqrstuvwxyz0123456789+/".

Definition b64_char (n : N) : ascii :=
  match String.get (N.to_nat n) b64_table with
  | Some c => c
  | None => "="%char
  end.

(** Encoding of a list of character codes, three at a time. *)
Fixpoint b64_encode (l : list N) : string :=
  match l with
  | [] => ""
  | [a] =>
      let n := (a * 65536)%N in
      String (b64_char (n / 262144))
        (String (b64_char ((n / 4096) mod 64)) "==")
  | [a; b] =>
      let n := (a * 65536 + b * 256)%N in
      String (b64_char (n / 262144))
        (String (b64_char ((n / 4096) mod 64))
           (String (b64_char ((n / 64) mod 64)) "="))
  | a :: b :: c :: rest =>
      let n := (a * 65536 + b * 256 + c)%N in
      String (b64_char (n / 262144))
        (String (b64_char ((n / 4096) mod 64))
           (String (b64_char ((n / 64) mod 64))
              (String (b64_char (n mod 64)) (b64_encode rest))))
  end.

(** [btoa(binary)]: every code unit of a [string] is below 256, so the
    InvalidCharacterError of [btoa] cannot arise. *)
Definition btoa (binary : string) : string :=
  b64_encode (map N_of_ascii (list_ascii_of_string binary)).

Fixpoint b64_find (c : ascii) (tbl : string) (i : N) : option N :=
  match tbl with
  | EmptyString => None
  | String d tbl' => if Ascii.eqb c d then Some i else b64_find c tbl' (N.succ i)
  end.

Definition b64_index (c : ascii) : option N := b64_find c b64_table 0%N.

Definition byte_of_N (n : N) : byte :=
  match Byte.of_N n with Some b => b | None => x00 end.

(** The standard decoder: groups of four characters, with [=] padding
    allowed in the last group only. *)
Fixpoint b64_decode (l : list ascii) : option (list byte) :=
  match l with
  | [] => Some []
  | c1 :: c2 :: c3 :: c4 :: rest =>
      match b64_index c1, b64_index c2 with
      | Some s1, Some s2 =>
          if Ascii.eqb c4 "="%char then
            match rest with
            | [] =>
                if Ascii.eqb c3 "="%char then
                  let n := ((s1 * 64 + s2) * 4096)%N in
                  Some [byte_of_N (n / 65536)]
                else
                  match b64_index c3 with
                  | Some s3 =>
                      let n := (((s1 * 64 + s2) * 64 + s3) * 64)%N in
                      Some [byte_of_N (n / 65536); byte_of_N ((n / 256) mod 256)]
                  | None => None
                  end
            | _ :: _ => None
            end
          else
            match b64_index c3, b64_index c4, b64_decode rest with
            | Some s3, Some s4, Some bs =>
                let n := (((s1 * 64 + s2) * 64 + s3) * 64 + s4)%N in
                Some (byte_of_N (n / 65536) :: byte_of_N ((n / 256) mod 256)
                        :: byte_of_N (n mod 256) :: bs)
            | _, _, _ => None
            end
      | _, _ => None
      end
  | _ => None
  end.

(** Standard base64 decoding of a string into bytes. *)
Definition base64_decode (s : string) : option (list byte) :=
  b64_decode (list_ascii_of_string s).

(* ------------------------------------------------------------------ *)
(** * Helpers shared by the three converters

    [arrayBufferToBase64] and [getMimeType] are the same, line for line,
    in the three source files. *)

(** [String.fromCharCode(bytes[i])] *)
Definition fromCharCode (b : byte) : string := String (ascii_of_byte b) "".

(** <<
    const bytes = new Uint8Array(buffer);
    let binary = '';
    for (let i = 0; i < bytes.byteLength; i++) binary += String.fromCharCode(bytes[i]);
    return btoa(binary);
    >> *)
Definition arrayBufferToBase64 (buffer : list byte) : string :=
  let binary := fold_left (fun binary b => binary ++ fromCharCode b) buffer "" in
  btoa binary.

(** [s.toLowerCase()] on the code units U+0000..U+00FF: the letters A-Z
    and the Latin-1 capitals U+00C0..U+00DE (without the sign U+00D7). *)
Definition lower_char (c : ascii) : ascii :=
  let n := N_of_ascii c in
  if ((65 <=? n) && (n <=? 90))%N then ascii_of_N (n + 32)
  else if ((192 <=? n) && (n <=? 222) && negb (n =? 215))%N then ascii_of_N (n + 32)
  else c.

Fixpoint toLowerCase (s : string) : string :=
  match s with
  | EmptyString => EmptyString
  | String c s' => String (lower_char c) (toLowerCase s')
  end.

(** [s.split('.').pop()]: the text after the last dot, the whole string
    when there is none.  [acc] is the segment read so far. *)
Fixpoint split_dot_pop (s acc : string) : string :=
  match s with
  | EmptyString => acc
  | String c s' =>
      if Ascii.eqb c "."%char then split_dot_pop s' ""
      else split_dot_pop s' (acc ++ String c "")
  end.

(** [filename.toLowerCase().split('.').pop()] *)
Definition file_extension (filename : string) : string :=
  split_dot_pop (toLowerCase filename) "".

(** The [mimeTypes] table. *)
Definition mimeTypes : list (string * string) :=
  [ ("pdf", "application/pdf");
    ("png", "image/png");
    ("jpg", "image/jpeg");
    ("jpeg", "image/jpeg");
    ("gif", "image/gif");
    ("bmp", "image/bmp");
    ("webp", "image/webp");
    ("tiff", "image/tiff");
    ("tif", "image/tiff") ].

Fixpoint assoc (k : string) (l : list (string * string)) : option string :=
  match l with
  | [] => None
  | (k', v) :: l' => if String.eqb k k' then Some v else assoc k l'
  end.

(** [mimeTypes[ext || ''] || 'application/octet-stream'], as the text
    later spliced into the data URI.  [mimeTypes] is an object literal, so
    the two lower-case names it inherits from [Object.prototype] are
    found as well; they print as the engine prints a function and an
    object. *)
Definition getMimeType (filename : string) : string :=
  let ext := file_extension filename in
  match assoc ext mimeTypes with
  | Some m => m
  | None =>
      if String.eqb ext "constructor" then "function Object() { [native code] }"
      else if String.eqb ext "__proto__" then "[object Object]"
      else "application/octet-stream"
  end.

(* ------------------------------------------------------------------ *)
(** * JavaScript values and the platform *)

(** An [Error] object, as far as the source reads it. *)
Record Error := { message : string; stack : string }.

(** How an awaited call or an expression completes. *)
Inductive Completion (A : Type) : Type :=
| Normal (a : A)
| Throw (e : Error).
Arguments Normal {A} a.
Arguments Throw {A} e.

(** Values: what [JSON.parse] builds, and [undefined] for a missing
    property.  Objects keep their members in text order. *)
Inductive js (num : Type) : Type :=
| JUndefined
| JNull
| JBool (b : bool)
| JNumber (n : num)
| JString (s : string)
| JArray (items : list (js num))
| JObject (members : list (string * js num)).
Arguments JUndefined {num}.
Arguments JNull {num}.
Arguments JBool {num} b.
Arguments JNumber {num} n.
Arguments JString {num} s.
Arguments JArray {num} items.
Arguments JObject {num} members.

(** The JavaScript engine: numbers are doubles, which the source only
    compares with [0], prints and writes as literals; [JSON.parse] either
    builds a value or throws a SyntaxError. *)
Class Platform : Type := {
  number : Type;
  number_is_zero : number -> bool;
  number_to_string : number -> string;
  number_of_Z : Z -> number;
  JSON_parse : string -> Completion (js number);
  JSON_stringify : js number -> string;
  TypeError_read : js number -> string -> Error;
  TypeError_convert : Error;
  RangeError_offset : Error
}.

Section Values.
Context {P : Platform}.

Definition value : Type := js number.

(** ToBoolean.  [JSON.parse] never builds NaN, so a number is falsy
    exactly when it is zero. *)
Definition truthy (v : value) : bool :=
  match v with
  | JUndefined | JNull => false
  | JBool b => b
  | JNumber n => negb (number_is_zero n)
  | JString s => str_truthy s
  | JArray _ | JObject _ => true
  end.

(** [a || b] *)
Definition js_or (a b : value) : value := if truthy a then a else b.

(** The member an object holds under [k]: the last one in text order, as
    [JSON.parse] keeps it. *)
Fixpoint member (k : string) (members : list (string * value)) : option value :=
  match members with
  | [] => None
  | (k', v) :: rest =>
      match member k rest with
      | Some found => Some found
      | None => if String.eqb k k' then Some v else None
      end
  end.

(** ToString, as a template literal applies it.  An object answers
    through its [toString]: the one of [Object.prototype], unless the
    object has a member of that name.  [JSON.parse] builds no function,
    so such a member cannot be called, [valueOf] gives back the object
    itself, and the conversion throws a TypeError.  An array joins the
    texts of its items, and throws when one of them does. *)
Fixpoint to_string (v : value) : Completion string :=
  match v with
  | JUndefined => Normal "undefined"
  | JNull => Normal "null"
  | JBool true => Normal "true"
  | JBool false => Normal "false"
  | JNumber n => Normal (number_to_string n)
  | JString s => Normal s
  | JArray items =>
      (fix join (l : list value) : Completion string :=
         match l with
         | [] => Normal ""
         | x :: rest =>
             let sx := match x with
                       | JUndefined | JNull => Normal ""
                       | _ => to_string x
                       end in
             match sx with
             | Throw e => Throw e
             | Normal sx =>
                 match rest with
                 | [] => Normal sx
                 | _ :: _ =>
                     match join rest with
                     | Throw e => Throw e
                     | Normal joined => Normal (sx ++ "," ++ joined)
                     end
                 end
             end
         end) items
  | JObject members =>
      match member "toString" members with
      | Some _ => Throw TypeError_convert
      | None => Normal "[object Object]"
      end
  end.

(** [v.k] for the property names the source reads ([code], [msg],
    [data], [md_result], [choices], [message], [content], [error]): none
    of them is defined on a built-in prototype, so only an object's own
    member can answer; reading from [null] or [undefined] throws. *)
Definition get (v : value) (k : string) : Completion value :=
  match v with
  | JUndefined | JNull => Throw (TypeError_read v k)
  | JObject members =>
      match member k members with
      | Some x => Normal x
      | None => Normal JUndefined
      end
  | _ => Normal JUndefined
  end.

(** [v?.k] *)
Definition get_opt (v : value) (k : string) : value :=
  match get v k with
  | Normal x => x
  | Throw _ => JUndefined
  end.

(** [v?.[0]]: the first element of an array, the first code unit of a
    string, the member ["0"] of an object. *)
Definition index0_opt (v : value) : value :=
  match v with
  | JArray (x :: _) => x
  | JString (String c _) => JString (String c "")
  | JObject members =>
      match member "0" members with
      | Some x => x
      | None => JUndefined
      end
  | _ => JUndefined
  end.

End Values.

(* ------------------------------------------------------------------ *)
(** * The host application: files, settings, requests, events *)

Record TFile := { path : string; name : string }.

(** The fields of [MarkerSettings] the converters read. *)
Record MarkerSettings := {
  glmocrEndpoint : option string;
  glmocrApiKey : option string;
  movePDFtoFolder : bool;
  deleteOriginal : bool
}.

(** [setting || fallback] for an optional string setting. *)
Definition or_default (setting : option string) (fallback : string) : string :=
  match setting with
  | Some s => if str_truthy s then s else fallback
  | None => fallback
  end.

Inductive Method := GET | POST.

Inductive Body :=
| BodyText (s : string)
| BodyBytes (b : list byte).

Record RequestUrlParam := {
  url : string;
  method : Method;
  throw : bool;
  headers : list (string * string);
  body : option Body
}.

Record Response := { status : Z; text : string }.

Section Host.
Context {P : Platform}.

Record Metadata := { model : string; source_file : string }.

(** [ConversionResult]; [images] is always the empty object. *)
Record ConversionResult := {
  success : bool;
  markdown : value;
  metadata : Metadata
}.

Inductive LogArg :=
| LStr (s : string)
| LVal (v : value)
| LErr (e : Error).

(** What a run does that can be seen from outside, in order. *)
Inductive Event :=
| EPrepareConversion (file : TFile)
| ENotice (msg : string) (timeout : option Z)
| EConsoleError (args : list LogArg)
| EConsoleWarn (args : list LogArg)
| EReadBinary (file : TFile)
| ERequestUrl (req : RequestUrlParam) (result : Completion Response)
| EProcessConversionResult (cr : ConversionResult) (folderPath : string) (file : TFile)
| ERename (file : TFile) (newPath : string)
| EDeleteOriginalFile (file : TFile).

(** The collaborators of one call: the base class, the vault, the
    network and the random source.  Each awaited call either completes
    or throws. *)
Record World := {
  prepareConversion : MarkerSettings -> TFile -> Completion (option string);
  isFileSystemAdapter : bool;
  readBinary : TFile -> Completion (list byte);
  requestUrl : RequestUrlParam -> Completion Response;
  processConversionResult : ConversionResult -> string -> TFile -> Completion unit;
  rename : TFile -> string -> Completion unit;
  deleteOriginalFile : TFile -> Completion unit;
  random_base36 : string
}.

(** ** The monad of runs *)

Definition M (A : Type) : Type := (Completion A * list Event)%type.

Definition ret {A} (a : A) : M A := (Normal a, []).

Definition bind {A B} (m : M A) (k : A -> M B) : M B :=
  match m with
  | (Normal a, t1) => let (r, t2) := k a in (r, (t1 ++ t2)%list)
  | (Throw e, t1) => (Throw e, t1)
  end.

(** [try { body } catch (e) { handler }] *)
Definition try_catch {A} (body : M A) (handler : Error -> M A) : M A :=
  match body with
  | (Normal a, t1) => (Normal a, t1)
  | (Throw e, t1) => let (r, t2) := handler e in (r, (t1 ++ t2)%list)
  end.

(** An expression that may throw. *)
Definition eval {A} (c : Completion A) : M A := (c, []).

(** An awaited call of a collaborator. *)
Definition call {A} (ev : Event) (c : Completion A) : M A := (c, [ev]).

(** [await requestUrl(req)]: the event keeps the request and how the
    transport completed it. *)
Definition request (w : World) (req : RequestUrlParam) : M Response :=
  (requestUrl w req, [ERequestUrl req (requestUrl w req)]).

Definition emit (ev : Event) : M unit := (Normal tt, [ev]).

Definition Notice (msg : string) : M unit := emit (ENotice msg None).
Definition Notice_for (msg : string) (timeout : Z) : M unit := emit (ENotice msg (Some timeout)).
Definition console_error (args : list LogArg) : M unit := emit (EConsoleError args).
Definition console_warn (args : list LogArg) : M unit := emit (EConsoleWarn args).

(** [ConverterSettingDefinition], as the converters fill it in; the
    button action receives the host, not modelled, and the settings. *)
Record ConverterSettingDefinition := {
  setting_id : string;
  setting_name : string;
  description : string;
  setting_type : string;
  placeholder : string;
  defaultValue : string;
  buttonText : string;
  buttonAction : MarkerSettings -> M unit
}.

End Host.

Declare Scope run_scope.
Delimit Scope run_scope with run.
Notation "x <- m ;; k" := (bind m (fun x => k))
  (at level 61, m at next level, right associativity) : run_scope.
Notation "m ;; k" := (bind m (fun _ => k))
  (at level 61, right associativity) : run_scope.
Notation "'try' b 'catch' h" := (try_catch b h)
  (at level 60, b at level 9, h at level 9) : run_scope.

Local Open Scope run_scope.

(** [!silent] for [silent : boolean | undefined] *)
Definition not_silent (silent : option bool) : bool :=
  match silent with
  | Some true => false
  | _ => true
  end.

(** [`HTTP ${response.status}`] *)
Definition http_status (response : Response) : string :=
  "HTTP " ++ string_of_Z (status response).

(** [response.text.substring(0, 500) + (response.text.length > 500 ? '...' : '')] *)
Definition text_excerpt (response : Response) : string :=
  substring_to 500 (text response)
  ++ (if Nat.ltb 500 (String.length (text response)) then "..." else "").

(** [`data:${mimeType};base64,${base64}`] *)
Definition data_uri (mimeType base64 : string) : string :=
  "data:" ++ mimeType ++ ";base64," ++ base64.

(** [response.text?.substring(0, 100) || 'No response'] *)
Definition text_or_no_response (response : Response) : string :=
  let t := substring_to 100 (text response) in
  if str_truthy t then t else "No response".

(** [error.message || fallback] *)
Definition message_or (error : Error) (fallback : string) : string :=
  if str_truthy (message error) then message error else fallback.

(** ** Byte arrays *)

Definition CR : ascii := "013"%char.
Definition LF : ascii := "010"%char.
Definition CRLF : string := String CR (String LF "").
Definition dquote : string := String "034"%char "".

(** UTF-8 of one code unit below U+0100. *)
Definition utf8_char (c : ascii) : list byte :=
  let n := N_of_ascii c in
  if (n <? 128)%N then [byte_of_N n]
  else [byte_of_N (192 + n / 64); byte_of_N (128 + n mod 64)].

(** [new TextEncoder().encode(s)] *)
Definition TextEncoder_encode (s : string) : list byte :=
  flat_map utf8_char (list_ascii_of_string s).

Section ByteArrays.
Context {P : Platform}.

(** [body.set(part, offset)]: overwrites [part.length] bytes from
    [offset]; a RangeError when they do not fit. *)
Definition Uint8Array_set (body part : list byte) (offset : nat) : Completion (list byte) :=
  if Nat.ltb (List.length body) (offset + List.length part) then Throw RangeError_offset
  else Normal (firstn offset body ++ part ++ skipn (offset + List.length part) body)%list.

End ByteArrays.

(* ------------------------------------------------------------------ *)
(** * The local JSON converter ([src/converters/glmocrConverter.ts]) *)

Module Local.
Section Converter.
Context {P : Platform}.
Variable w : World.

(** The chat request: one text item and one image item. *)
Definition chat_body (prompt uri : string) : value :=
  JObject
    [ ("model", JString "mlx-community/GLM-OCR-bf16");
      ("messages",
        JArray
          [ JObject
              [ ("role", JString "user");
                ("content",
                  JArray
                    [ JObject [ ("type", JString "text"); ("text", JString prompt) ];
                      JObject [ ("type", JString "image_url");
                                ("image_url", JObject [ ("url", JString uri) ]) ] ]) ] ]);
      ("max_tokens", JNumber (number_of_Z 4096)) ].

Definition prompt : string :=
  "Extract all text from this image or document. Preserve the structure and format as much as possible.".

Definition requestParams (settings : MarkerSettings) (file : TFile) (fileData : list byte)
  : RequestUrlParam :=
  let base64 := arrayBufferToBase64 fileData in
  let mimeType := getMimeType (name file) in
  let glmocrEndpoint := or_default (glmocrEndpoint settings) "localhost:8080" in
  {| url := "http://" ++ glmocrEndpoint ++ "/chat/completions";
     method := POST;
     throw := false;
     headers := [ ("Content-Type", "application/json") ];
     body := Some (BodyText (JSON_stringify (chat_body prompt (data_uri mimeType base64)))) |}.

(** The branch [response.status !== 200]. *)
Definition on_error_status (response : Response) : M bool :=
  try (
    errorData <- eval (JSON_parse (text response)) ;;
    let errorMsg := JString (http_status response) in
    error <- eval (get errorData "error") ;;
    errorMsg <-
      (if truthy (get_opt error "message") then
         error <- eval (get errorData "error") ;;
         eval (get error "message")
       else
         message <- eval (get errorData "message") ;;
         if truthy message then eval (get errorData "message")
         else ret errorMsg) ;;
    console_error [ LStr "GLM-OCR error response:"; LVal errorData ] ;;
    shown <- eval (to_string errorMsg) ;;
    Notice ("GLM-OCR conversion failed: " ++ shown) ;;
    ret false
  ) catch (fun parseErr =>
    console_error [ LStr ("GLM-OCR error: " ++ http_status response);
                    LStr (text response) ] ;;
    Notice ("GLM-OCR conversion failed: " ++ http_status response ++ " - "
            ++ (if str_truthy (text response)
                then substring_to 100 (text response)
                else "No response details")) ;;
    ret false).

(** The branch taken on status 200. *)
Definition on_ok_status (settings : MarkerSettings) (file : TFile) (folderPath : string)
    (response : Response) : M bool :=
  try (
    responseData <- eval (JSON_parse (text response)) ;;
    choices <- eval (get responseData "choices") ;;
    let ocrText :=
      js_or (get_opt (get_opt (index0_opt choices) "message") "content")
            (JString "No text extracted") in
    let conversionResult :=
      {| success := true;
         markdown := ocrText;
         metadata := {| model := "GLM-OCR (mlx-vlm)"; source_file := name file |} |} in
    call (EProcessConversionResult conversionResult folderPath file)
         (processConversionResult w conversionResult folderPath file) ;;
    Notice "Conversion with GLM-OCR completed" ;;
    (if movePDFtoFolder settings then
       let newFilePath := folderPath ++ name file in
       call (ERename file newFilePath) (rename w file newFilePath)
     else ret tt) ;;
    (if deleteOriginal settings then
       call (EDeleteOriginalFile file) (deleteOriginalFile w file)
     else ret tt) ;;
    ret true
  ) catch (fun parseError =>
    console_error [ LStr "Error parsing GLM-OCR response:"; LErr parseError;
                    LStr "Response text:"; LStr (text_excerpt response) ] ;;
    Notice "Error parsing GLM-OCR response. Check console for details." ;;
    ret false).

(** The outermost [catch (error)]. *)
Definition on_exception (error : Error) : M bool :=
  console_error [ LStr "GLM-OCR conversion error:"; LStr (message error); LStr (stack error) ] ;;
  Notice ("GLM-OCR conversion failed: " ++ message_or error "Network or server error") ;;
  ret false.

Definition convert (settings : MarkerSettings) (file : TFile) : M bool :=
  folderPath <- call (EPrepareConversion file) (prepareConversion w settings file) ;;
  match folderPath with
  | None => ret false
  | Some folderPath =>
    if negb (str_truthy folderPath) then ret false else
    Notice_for "Converting file with GLM-OCR..." 10000 ;;
    try (
      (if isFileSystemAdapter w then ret tt
       else console_warn
              [ LStr "Not using FileSystemAdapter - path may not be correctly resolved" ]) ;;
      fileData <- call (EReadBinary file) (readBinary w file) ;;
      let requestParams := requestParams settings file fileData in
      response <- request w requestParams ;;
      if negb (status response =? 200)%Z then on_error_status response
      else on_ok_status settings file folderPath response
    ) catch on_exception
  end.

Definition models_request (glmocrEndpoint : string) : RequestUrlParam :=
  {| url := "http://" ++ glmocrEndpoint ++ "/models";
     method := GET; throw := false; headers := []; body := None |}.

Definition root_request (glmocrEndpoint : string) : RequestUrlParam :=
  {| url := "http://" ++ glmocrEndpoint ++ "/";
     method := GET; throw := false; headers := []; body := None |}.

Definition testConnection (settings : MarkerSettings) (silent : option bool) : M bool :=
  try (
    let glmocrEndpoint := or_default (glmocrEndpoint settings) "localhost:8080" in
    let requestParams := models_request glmocrEndpoint in
    response <- request w requestParams ;;
    if (status response =? 200)%Z then
      (if not_silent silent then Notice "GLM-OCR connection successful!" else ret tt) ;;
      ret true
    else
      returned <-
        (try (
           let altRequestParams := root_request glmocrEndpoint in
           altResponse <- request w altRequestParams ;;
           if (status altResponse =? 200)%Z then
             (if not_silent silent then Notice "GLM-OCR connection successful!" else ret tt) ;;
             ret true
           else ret false
         ) catch (fun _ => ret false)) ;;
      if (returned : bool) then ret true
      else
        (if not_silent silent
         then Notice ("Error connecting to GLM-OCR: " ++ string_of_Z (status response))
         else ret tt) ;;
        ret false
  ) catch (fun error =>
    (if not_silent silent then Notice "Error connecting to GLM-OCR" else ret tt) ;;
    console_error [ LStr "Error connecting to GLM-OCR:"; LErr error ] ;;
    ret false).

(** <<
    buttonAction: async (app, settings) => { await this.testConnection(settings, false); }
    >> *)
Definition getConverterSettings : list ConverterSettingDefinition :=
  [ {| setting_id := "glmocrEndpoint";
       setting_name := "GLM-OCR Endpoint";
       description := "The endpoint for the GLM-OCR mlx-vlm server (e.g., localhost:8080)";
       setting_type := "text";
       placeholder := "localhost:8080";
       defaultValue := "localhost:8080";
       buttonText := "Test connection";
       buttonAction := fun settings => testConnection settings (Some false) ;; ret tt |} ].

End Converter.
End Local.

(* ------------------------------------------------------------------ *)
(** * The cloud converter *)

Module Cloud.
Section Converter.
Context {P : Platform}.
Variable w : World.

Definition layout_parsing_url : string := "https://open.bigmodel.cn/api/paas/v4/layout_parsing".
Definition models_url : string := "https://open.bigmodel.cn/api/paas/v4/models".

Definition requestParams (apiKey : string) (file : TFile) (fileData : list byte)
  : RequestUrlParam :=
  let base64 := arrayBufferToBase64 fileData in
  let mimeType := getMimeType (name file) in
  let dataUri := data_uri mimeType base64 in
  {| url := layout_parsing_url;
     method := POST;
     throw := false;
     headers := [ ("Authorization", apiKey); ("Content-Type", "application/json") ];
     body := Some (BodyText (JSON_stringify
                     (JObject [ ("model", JString "glm-ocr"); ("file", JString dataUri) ]))) |}.

(** [v !== 0] *)
Definition strict_neq_zero (v : value) : bool :=
  match v with
  | JNumber n => negb (number_is_zero n)
  | _ => true
  end.

(** The branch [response.status !== 200]. *)
Definition on_error_status (response : Response) : M bool :=
  try (
    errorData <- eval (JSON_parse (text response)) ;;
    msg <- eval (get errorData "msg") ;;
    let errorMsg := js_or msg (JString (http_status response)) in
    console_error [ LStr "GLM-OCR error response:"; LVal errorData ] ;;
    shown <- eval (to_string errorMsg) ;;
    Notice ("GLM-OCR conversion failed: " ++ shown) ;;
    ret false
  ) catch (fun parseErr =>
    console_error [ LStr ("GLM-OCR error: " ++ http_status response);
                    LStr (text response) ] ;;
    Notice ("GLM-OCR conversion failed: " ++ http_status response ++ " - "
            ++ (if str_truthy (text response)
                then substring_to 100 (text response)
                else "No response details")) ;;
    ret false).

(** The branch taken on status 200. *)
Definition on_ok_status (settings : MarkerSettings) (file : TFile) (folderPath : string)
    (response : Response) : M bool :=
  try (
    responseData <- eval (JSON_parse (text response)) ;;
    code <- eval (get responseData "code") ;;
    if strict_neq_zero code then
      msg <- eval (get responseData "msg") ;;
      console_error [ LStr "GLM-OCR API error:"; LVal msg ] ;;
      msg <- eval (get responseData "msg") ;;
      shown <- eval (to_string msg) ;;
      Notice ("GLM-OCR conversion failed: " ++ shown) ;;
      ret false
    else
      data <- eval (get responseData "data") ;;
      let ocrText := js_or (get_opt data "md_result") (JString "") in
      if negb (truthy ocrText) then
        console_error [ LStr "GLM-OCR response has no data:"; LVal responseData ] ;;
        Notice "GLM-OCR conversion failed: No text extracted" ;;
        ret false
      else
        let conversionResult :=
          {| success := true;
             markdown := ocrText;
             metadata := {| model := "GLM-OCR (cloud)"; source_file := name file |} |} in
        call (EProcessConversionResult conversionResult folderPath file)
             (processConversionResult w conversionResult folderPath file) ;;
        Notice "Conversion with GLM-OCR completed" ;;
        (if movePDFtoFolder settings then
           let newFilePath := folderPath ++ name file in
           call (ERename file newFilePath) (rename w file newFilePath)
         else ret tt) ;;
        (if deleteOriginal settings then
           call (EDeleteOriginalFile file) (deleteOriginalFile w file)
         else ret tt) ;;
        ret true
  ) catch (fun parseError =>
    console_error [ LStr "Error parsing GLM-OCR response:"; LErr parseError;
                    LStr "Response text:"; LStr (text_excerpt response) ] ;;
    Notice "Error parsing GLM-OCR response. Check console for details." ;;
    ret false).

(** The outermost [catch (error)]. *)
Definition on_exception (error : Error) : M bool :=
  console_error [ LStr "GLM-OCR conversion error:"; LStr (message error); LStr (stack error) ] ;;
  Notice ("GLM-OCR conversion failed: " ++ message_or error "Network or server error") ;;
  ret false.

Definition convert (settings : MarkerSettings) (file : TFile) : M bool :=
  folderPath <- call (EPrepareConversion file) (prepareConversion w settings file) ;;
  match folderPath with
  | None => ret false
  | Some folderPath =>
    if negb (str_truthy folderPath) then ret false else
    let fileExt := file_extension (name file) in
    let isPDF := String.eqb fileExt "pdf" in
    (if isPDF then Notice_for "Converting PDF with GLM-OCR (cloud API)..." 15000
     else Notice_for "Converting image with GLM-OCR (cloud API)..." 10000) ;;
    try (
      match glmocrApiKey settings with
      | None =>
          Notice "Error: GLM-OCR API key not configured. Please set it in plugin settings." ;;
          ret false
      | Some apiKey =>
          if negb (str_truthy apiKey) then
            Notice "Error: GLM-OCR API key not configured. Please set it in plugin settings." ;;
            ret false
          else
            fileData <- call (EReadBinary file) (readBinary w file) ;;
            let requestParams := requestParams apiKey file fileData in
            response <- request w requestParams ;;
            if negb (status response =? 200)%Z then on_error_status response
            else on_ok_status settings file folderPath response
      end
    ) catch on_exception
  end.

Definition models_request (apiKey : string) : RequestUrlParam :=
  {| url := models_url; method := GET; throw := false;
     headers := [ ("Authorization", apiKey) ]; body := None |}.

Definition missing_key (silent : option bool) : M bool :=
  (if not_silent silent then Notice "Error: API key not configured" else ret tt) ;;
  ret false.

Definition testConnection (settings : MarkerSettings) (silent : option bool) : M bool :=
  match glmocrApiKey settings with
  | None => missing_key silent
  | Some apiKey =>
    if negb (str_truthy apiKey) then missing_key silent else
    try (
      let requestParams := models_request apiKey in
      response <- request w requestParams ;;
      if (status response =? 200)%Z then
        (if not_silent silent then Notice "GLM-OCR API key valid!" else ret tt) ;;
        ret true
      else
        let errorMsg := http_status response ++ ": " ++ text_or_no_response response in
        (if not_silent silent then Notice ("API key error: " ++ errorMsg) else ret tt) ;;
        console_error [ LStr "GLM-OCR API error:"; LStr errorMsg ] ;;
        ret false
    ) catch (fun error =>
      let errorMsg := message_or error "Unknown error" in
      (if not_silent silent then Notice ("Connection failed: " ++ errorMsg) else ret tt) ;;
      console_error [ LStr "Error connecting to GLM-OCR:"; LErr error ] ;;
      ret false)
  end.

(** <<
    buttonAction: async (app, settings) => { await this.testConnection(settings, false); }
    >> *)
Definition getConverterSettings : list ConverterSettingDefinition :=
  [ {| setting_id := "glmocrApiKey";
       setting_name := "GLM-OCR API Key";
       description :=
         "Your Zhipu AI API key. Get it from https://open.bigmodel.cn/usercenter/apikeys";
       setting_type := "text";
       placeholder := "Your API key (e.g., your-api-key-here)";
       defaultValue := "";
       buttonText := "Test API Key";
       buttonAction := fun settings => testConnection settings (Some false) ;; ret tt |} ].

End Converter.
End Cloud.

(* ------------------------------------------------------------------ *)
(** * The local converter with multipart upload of PDFs

    Its handling of the response (the two status branches and the outer
    [catch]) is the text of the local JSON converter, reused here. *)

Module Multipart.
Section Converter.
Context {P : Platform}.
Variable w : World.

(** An element of the [parts] array: a string or a [Uint8Array]. *)
Inductive Part :=
| PartText (s : string)
| PartBytes (b : list byte).

Definition pdf_prompt : string :=
  "Extract all text from this document. Preserve the structure, tables, and formatting as much as possible.".

Definition image_prompt : string :=
  "Extract all text from this image. Preserve the structure and format as much as possible.".

(** ['----WebKitFormBoundary' + Math.random().toString(36).substring(2)] *)
Definition make_boundary (random36 : string) : string :=
  "----WebKitFormBoundary" ++ substring_from 2 random36.

Definition file_part_head (boundary filename : string) : string :=
  "--" ++ boundary ++ CRLF
  ++ "Content-Disposition: form-data; name=" ++ dquote ++ "file" ++ dquote
  ++ "; filename=" ++ dquote ++ filename ++ dquote ++ CRLF
  ++ "Content-Type: application/pdf" ++ CRLF ++ CRLF.

Definition prompt_part (boundary : string) : string :=
  "--" ++ boundary ++ CRLF
  ++ "Content-Disposition: form-data; name=" ++ dquote ++ "prompt" ++ dquote ++ CRLF ++ CRLF
  ++ pdf_prompt ++ CRLF.

Definition closing_part (boundary : string) : string :=
  "--" ++ boundary ++ "--" ++ CRLF.

(** The five [parts.push] calls. *)
Definition make_parts (boundary filename : string) (fileData : list byte) : list Part :=
  [ PartText (file_part_head boundary filename);
    PartBytes fileData;
    PartText CRLF;
    PartText (prompt_part boundary);
    PartText (closing_part boundary) ].

(** First loop: strings are encoded, byte arrays kept. *)
Definition encode_parts (parts : list Part) : list (list byte) :=
  fold_left
    (fun bodyParts part =>
       match part with
       | PartText s => bodyParts ++ [TextEncoder_encode s]
       | PartBytes b => bodyParts ++ [b]
       end)%list
    parts [].

(** Second loop: [totalLength += part.length]. *)
Definition total_length (bodyParts : list (list byte)) : nat :=
  fold_left (fun totalLength part => totalLength + List.length part) bodyParts 0.

(** Third loop: [body.set(part, offset); offset += part.length], from a
    zeroed array of [totalLength] bytes. *)
Definition fill_body (bodyParts : list (list byte)) : Completion (list byte) :=
  let totalLength := total_length bodyParts in
  let step (st : Completion (list byte * nat)) (part : list byte) :=
    match st with
    | Normal (body, offset) =>
        match Uint8Array_set body part offset with
        | Normal body' => Normal (body', offset + List.length part)
        | Throw e => Throw e
        end
    | Throw e => Throw e
    end in
  match fold_left step bodyParts (Normal (repeat x00 totalLength, 0)) with
  | Normal (body, _) => Normal body
  | Throw e => Throw e
  end.

Definition multipart_body (boundary filename : string) (fileData : list byte)
  : Completion (list byte) :=
  fill_body (encode_parts (make_parts boundary filename fileData)).

Definition pdf_request (glmocrEndpoint boundary : string) (body : list byte) : RequestUrlParam :=
  {| url := "http://" ++ glmocrEndpoint ++ "/v1/chat/completions";
     method := POST;
     throw := false;
     headers := [ ("Content-Type", "multipart/form-data; boundary=" ++ boundary) ];
     body := Some (BodyBytes body) |}.

Definition image_request (glmocrEndpoint : string) (file : TFile) (fileData : list byte)
  : RequestUrlParam :=
  let base64 := arrayBufferToBase64 fileData in
  let mimeType := getMimeType (name file) in
  {| url := "http://" ++ glmocrEndpoint ++ "/chat/completions";
     method := POST;
     throw := false;
     headers := [ ("Content-Type", "application/json") ];
     body := Some (BodyText (JSON_stringify
                     (Local.chat_body image_prompt (data_uri mimeType base64)))) |}.

(** The request [convert] builds for a file, in either branch. *)
Definition request_of (settings : MarkerSettings) (file : TFile) (fileData : list byte)
  : Completion RequestUrlParam :=
  let glmocrEndpoint := or_default (glmocrEndpoint settings) "localhost:8080" in
  if String.eqb (file_extension (name file)) "pdf" then
    let boundary := make_boundary (random_base36 w) in
    match multipart_body boundary (name file) fileData with
    | Normal body => Normal (pdf_request glmocrEndpoint boundary body)
    | Throw e => Throw e
    end
  else Normal (image_request glmocrEndpoint file fileData).

Definition convert (settings : MarkerSettings) (file : TFile) : M bool :=
  folderPath <- call (EPrepareConversion file) (prepareConversion w settings file) ;;
  match folderPath with
  | None => ret false
  | Some folderPath =>
    if negb (str_truthy folderPath) then ret false else
    let fileExt := file_extension (name file) in
    let isPDF := String.eqb fileExt "pdf" in
    (if isPDF then Notice_for "Converting PDF with GLM-OCR (this may take a while)..." 15000
     else Notice_for "Converting file with GLM-OCR..." 10000) ;;
    try (
      fileData <- call (EReadBinary file) (readBinary w file) ;;
      let glmocrEndpoint := or_default (glmocrEndpoint settings) "localhost:8080" in
      response <-
        (if isPDF then
           let boundary := make_boundary (random_base36 w) in
           body <- eval (multipart_body boundary (name file) fileData) ;;
           let requestParams := pdf_request glmocrEndpoint boundary body in
           request w requestParams
         else
           let requestParams := image_request glmocrEndpoint file fileData in
           request w requestParams) ;;
      if negb (status response =? 200)%Z then Local.on_error_status response
      else Local.on_ok_status w settings file folderPath response
    ) catch Local.on_exception
  end.

Definition testConnection (settings : MarkerSettings) (silent : option bool) : M bool :=
  let glmocrEndpoint := or_default (glmocrEndpoint settings) "localhost:8080" in
  try (
    let requestParams := Local.models_request glmocrEndpoint in
    response <- request w requestParams ;;
    if (status response =? 200)%Z then
      (if not_silent silent then Notice "GLM-OCR connection successful!" else ret tt) ;;
      ret true
    else
      returned <-
        (try (
           let altRequestParams := Local.root_request glmocrEndpoint in
           altResponse <- request w altRequestParams ;;
           if (status altResponse =? 200)%Z then
             (if not_silent silent then Notice "GLM-OCR connection successful!" else ret tt) ;;
             ret true
           else ret false
         ) catch (fun _ => ret false)) ;;
      if (returned : bool) then ret true
      else
        let errorMsg := http_status response ++ ": " ++ text_or_no_response response in
        (if not_silent silent then Notice ("Error: " ++ errorMsg) else ret tt) ;;
        console_error [ LStr "GLM-OCR connection error:"; LStr errorMsg ] ;;
        ret false
  ) catch (fun error =>
    let errorMsg := message_or error "Unknown error" in
    (if not_silent silent then Notice ("Connection failed: " ++ errorMsg) else ret tt) ;;
    console_error [ LStr "Error connecting to GLM-OCR:"; LErr error ] ;;
    ret false).

(** <<
    buttonAction: async (app, settings) => { await this.testConnection(settings, false); }
    >> *)
Definition getConverterSettings : list ConverterSettingDefinition :=
  [ {| setting_id := "glmocrEndpoint";
       setting_name := "GLM-OCR Endpoint";
       description := "The endpoint for the GLM-OCR mlx-vlm server (e.g., localhost:8080)";
       setting_type := "text";
       placeholder := "localhost:8080";
       defaultValue := "localhost:8080";
       buttonText := "Test connection";
       buttonAction := fun settings => testConnection settings (Some false) ;; ret tt |} ].

End Converter.
End Multipart.

(* ------------------------------------------------------------------ *)
(** * The outcome of a run

    The source has no outcome type: a call shows its result by the
    conversion result it hands to [processConversionResult], or by the
    console diagnostic and the notice it writes before returning [false].
    Every return site writes a diagnostic of its own, so the outcome and
    the kind of a failure can be read off the events. *)

Inductive FailureKind :=
| ConfigError
| HttpError
| MalformedResponse
| BackendError
| EmptyResult
| TransportError.

Section Outcome.
Context {P : Platform}.

Inductive OcrOutcome :=
| Success (markdownText : value) (modelLabel : string)
| Failure (kind : FailureKind) (message : string).

Definition failed_prefix : string := "GLM-OCR conversion failed: ".

Definition config_notice : string :=
  "Error: GLM-OCR API key not configured. Please set it in plugin settings.".

Definition is_some {A} (o : option A) : bool :=
  match o with Some _ => true | None => false end.

(** The kind a console diagnostic stands for, by its first argument. *)
Definition diagnostic_kind (label : string) : option FailureKind :=
  if String.eqb label "GLM-OCR error response:" then Some HttpError
  else if is_some (strip_prefix "GLM-OCR error: HTTP " label) then Some HttpError
  else if String.eqb label "GLM-OCR API error:" then Some BackendError
  else if String.eqb label "GLM-OCR response has no data:" then Some EmptyResult
  else if String.eqb label "Error parsing GLM-OCR response:" then Some MalformedResponse
  else if String.eqb label "GLM-OCR conversion error:" then Some TransportError
  else None.

(** The message of a failure notice: its text after the fixed prefix. *)
Definition failure_message (notice : string) : string :=
  match strip_prefix failed_prefix notice with
  | Some msg => msg
  | None => notice
  end.

(** The first notice among the events. *)
Fixpoint first_notice (t : list Event) : string :=
  match t with
  | [] => ""
  | ENotice msg _ :: _ => msg
  | _ :: rest => first_notice rest
  end.

(** The outcome of a run: its first hand-over or failure diagnostic. *)
Fixpoint outcome (t : list Event) : option OcrOutcome :=
  match t with
  | [] => None
  | EProcessConversionResult cr _ _ :: _ =>
      Some (Success (markdown cr) (model (metadata cr)))
  | ENotice msg _ :: rest =>
      if String.eqb msg config_notice then Some (Failure ConfigError msg)
      else outcome rest
  | EConsoleError (LStr label :: _) :: rest =>
      match diagnostic_kind label with
      | Some kind => Some (Failure kind (failure_message (first_notice rest)))
      | None => outcome rest
      end
  | _ :: rest => outcome rest
  end.

(** The requests a run has sent. *)
Fixpoint requests (t : list Event) : list RequestUrlParam :=
  match t with
  | [] => []
  | ERequestUrl req _ :: rest => req :: requests rest
  | _ :: rest => requests rest
  end.

(** A run has read or changed the vault. *)
Definition touches_vault (ev : Event) : bool :=
  match ev with
  | EReadBinary _ | EProcessConversionResult _ _ _ | ERename _ _ | EDeleteOriginalFile _ => true
  | _ => false
  end.

End Outcome.

Section Neutral.
Context {P : Platform}.

(** Events that carry no outcome: [outcome] reads past them. *)
Definition neutral (ev : Event) : bool :=
  match ev with
  | EPrepareConversion _ | EReadBinary _ | ERequestUrl _ _ | EConsoleWarn _ => true
  | ENotice msg _ => negb (String.eqb msg config_notice)
  | _ => false
  end.

(** The branch [convert] takes on a response. *)
Definition branch_of (on_error on_ok : Response -> M bool) (response : Response) : M bool :=
  if negb (status response =? 200)%Z then on_error response else on_ok response.

End Neutral.

(* ------------------------------------------------------------------ *)
(** * Envelopes and situations the properties speak about *)

(** A status in the range 200..299. *)
Definition is_2xx (status : Z) : bool := ((200 <=? status) && (status <? 300))%Z.

(** The credential of the cloud converter is missing: [!apiKey]. *)
Definition key_missing (settings : MarkerSettings) : bool :=
  match glmocrApiKey settings with
  | Some k => negb (str_truthy k)
  | None => true
  end.

Section Situations.
Context {P : Platform}.

(** [{choices: [{message: {content}}, ...]}]: the success envelope of the
    chat servers (interface [GLMOCRSuccessResponse]). *)
Definition chat_success_envelope (v : value) (content : string) : Prop :=
  exists members others fm mm,
    v = JObject members
    /\ member "choices" members = Some (JArray (JObject fm :: others))
    /\ member "message" fm = Some (JObject mm)
    /\ member "content" mm = Some (JString content).

(** [{code: 0, msg, data: {md_result}}]: the success envelope of the
    cloud API (interface [GLMOCRMaaSSuccessResponse]). *)
Definition cloud_success_envelope (v : value) (md_result : string) : Prop :=
  exists members n dm,
    v = JObject members
    /\ member "code" members = Some (JNumber n)
    /\ number_is_zero n = true
    /\ member "data" members = Some (JObject dm)
    /\ member "md_result" dm = Some (JString md_result).

(** A cloud envelope with code 0 whose text is absent or empty. *)
Definition cloud_empty_envelope (v : value) : Prop :=
  exists members n,
    v = JObject members
    /\ member "code" members = Some (JNumber n)
    /\ number_is_zero n = true
    /\ (member "data" members = None
        \/ exists dm, member "data" members = Some (JObject dm)
                      /\ (member "md_result" dm = None
                          \/ member "md_result" dm = Some (JString ""))).

(** [{code, msg}] with a non-zero code (interface
    [GLMOCRMaaSErrorResponse]). *)
Definition cloud_failure_envelope (v : value) (msg : string) : Prop :=
  exists members n,
    v = JObject members
    /\ member "code" members = Some (JNumber n)
    /\ number_is_zero n = false
    /\ member "msg" members = Some (JString msg).

(** [{error: {message, type}} | {message}] with a message (interface
    [GLMOCRErrorResponse]). *)
Definition chat_error_envelope (v : value) (msg : string) : Prop :=
  exists members,
    v = JObject members
    /\ msg <> ""
    /\ ((exists em, member "error" members = Some (JObject em)
                    /\ member "message" em = Some (JString msg))
        \/ (member "error" members = None
            /\ member "message" members = Some (JString msg))).

(** [{code, msg}] with a message, on an error status. *)
Definition cloud_error_envelope (v : value) (msg : string) : Prop :=
  exists members,
    v = JObject members /\ msg <> "" /\ member "msg" members = Some (JString msg).

(** [prepareConversion] has returned a folder. *)
Definition folder_ready (w : World) (settings : MarkerSettings) (file : TFile)
    (folderPath : string) : Prop :=
  prepareConversion w settings file = Normal (Some folderPath)
  /\ str_truthy folderPath = true.

(** The file was read and the transport answered the request with
    [response]. *)
Definition local_answered (w : World) (settings : MarkerSettings) (file : TFile)
    (folderPath : string) (response : Response) : Prop :=
  folder_ready w settings file folderPath
  /\ exists fileData,
       readBinary w file = Normal fileData
       /\ requestUrl w (Local.requestParams settings file fileData) = Normal response.

Definition cloud_answered (w : World) (settings : MarkerSettings) (file : TFile)
    (folderPath : string) (response : Response) : Prop :=
  folder_ready w settings file folderPath
  /\ exists apiKey fileData,
       glmocrApiKey settings = Some apiKey
       /\ str_truthy apiKey = true
       /\ readBinary w file = Normal fileData
       /\ requestUrl w (Cloud.requestParams apiKey file fileData) = Normal response.

Definition multipart_answered (w : World) (settings : MarkerSettings) (file : TFile)
    (folderPath : string) (response : Response) : Prop :=
  folder_ready w settings file folderPath
  /\ exists fileData req,
       readBinary w file = Normal fileData
       /\ Multipart.request_of w settings file fileData = Normal req
       /\ requestUrl w req = Normal response.

(** The formatter and the optional move and delete complete. *)
Definition persists (w : World) (settings : MarkerSettings) (file : TFile)
    (folderPath : string) (cr : ConversionResult) : Prop :=
  processConversionResult w cr folderPath file = Normal tt
  /\ (movePDFtoFolder settings = true ->
      rename w file (folderPath ++ name file) = Normal tt)
  /\ (deleteOriginal settings = true -> deleteOriginalFile w file = Normal tt).

(** The conversion result a converter builds from the extracted text. *)
Definition result_of (text : value) (label : string) (file : TFile) : ConversionResult :=
  {| success := true;
     markdown := text;
     metadata := {| model := label; source_file := name file |} |}.

End Situations.

Section Conclusions.
Context {P : Platform}.

(** The text [body] parses into a value of the given shape. *)
Definition parses_as (body : string) (shape : value -> Prop) : Prop :=
  exists v, JSON_parse body = Normal v /\ shape v.

(** A run hands [text] over under [label]: that is its outcome, the
    conversion result reaches the formatter, and the call returns [true]
    when the formatter and the optional move and delete complete. *)
Definition delivers (w : World) (settings : MarkerSettings) (file : TFile)
    (folderPath : string) (run : M bool) (text : value) (label : string) : Prop :=
  outcome (snd run) = Some (Success text label)
  /\ In (EProcessConversionResult (result_of text label file) folderPath file) (snd run)
  /\ (persists w settings file folderPath (result_of text label file) ->
      fst run = Normal true).

(** A run fails with [kind] and [message]: it returns [false], does not
    throw, and hands nothing to the formatter. *)
Definition fails_with (run : M bool) (kind : FailureKind) (message : string) : Prop :=
  fst run = Normal false
  /\ outcome (snd run) = Some (Failure kind message)
  /\ (forall cr folderPath file,
        ~ In (EProcessConversionResult cr folderPath file) (snd run)).

(** Among the events, a GET of [u] that the transport answered with
    status 200. *)
Definition probe_200 (t : list Event) (u : string) : Prop :=
  exists req resp,
    In (ERequestUrl req (Normal resp)) t
    /\ url req = u /\ method req = GET /\ status resp = 200%Z.

(** Among the events, a request that the transport failed to complete. *)
Definition probe_threw (t : list Event) : Prop :=
  exists req e, In (ERequestUrl req (Throw e)) t.

End Conclusions.

Section HttpFailures.
Context {P : Platform}.

(** The message built from the raw text of an error response:
    [`HTTP ${status} - ${text ? text.substring(0, 100) : 'No response details'}`]. *)
Definition raw_message (response : Response) : string :=
  http_status response ++ " - "
  ++ (if str_truthy (text response) then substring_to 100 (text response)
      else "No response details").

(** A run fails with an HTTP error on [response]: always of that kind;
    with the message of the error envelope when the body parses as one;
    with the raw message, which shows the status, when the body does
    not parse. *)
Definition http_failure (run : M bool) (response : Response)
    (envelope : value -> string -> Prop) : Prop :=
  (exists msg, fails_with run HttpError msg)
  /\ (forall v msg, JSON_parse (text response) = Normal v -> envelope v msg ->
                    fails_with run HttpError msg)
  /\ (forall e, JSON_parse (text response) = Throw e ->
                fails_with run HttpError (raw_message response))
  /\ Contains (string_of_Z (status response)) (raw_message response).

End HttpFailures.

Section Probing.
Context {P : Platform}.

(** A run of [testConnection] over the paths [urls]: it returns a
    boolean and never throws; it returns [true] exactly when one of the
    paths answered with status 200; it returns [false] whenever the
    transport threw; it only sends GET requests to these paths. *)
Definition probes (run : M bool) (urls : list string) : Prop :=
  (fst run = Normal true \/ fst run = Normal false)
  /\ (fst run = Normal true <-> exists u, In u urls /\ probe_200 (snd run) u)
  /\ (probe_threw (snd run) -> fst run = Normal false)
  /\ (forall req, In req (requests (snd run)) -> method req = GET /\ In (url req) urls).

(** What the local servers would answer to the check: the transport
    completes the request of [/models], and either that answer or the
    answer it gives to the request of the root path has status 200. *)
Definition local_check_passes (w : World) (endpoint : string) : Prop :=
  exists r,
    requestUrl w (Local.models_request endpoint) = Normal r
    /\ (status r = 200%Z
        \/ exists r', requestUrl w (Local.root_request endpoint) = Normal r'
                      /\ status r' = 200%Z).

(** What the cloud API would answer to the check: a key is set, and
    the transport completes the request of the models path, sent under
    that key, with status 200. *)
Definition cloud_check_passes (w : World) (settings : MarkerSettings) : Prop :=
  exists apiKey r,
    glmocrApiKey settings = Some apiKey
    /\ str_truthy apiKey = true
    /\ requestUrl w (Cloud.models_request apiKey) = Normal r
    /\ status r = 200%Z.

(** The transport throws on [req] instead of answering: a refused
    connection, a DNS failure, a timeout. *)
Definition transport_throws (w : World) (req : RequestUrlParam) : Prop :=
  exists e, requestUrl w req = Throw e.

End Probing.

Section Requests.
Context {P : Platform}.

(** A run sends at most one request, a POST to one of [urls]. *)
Definition at_most_one_post (run : M bool) (urls : list string) : Prop :=
  List.length (requests (snd run)) <= 1
  /\ (forall req, In req (requests (snd run)) -> method req = POST /\ In (url req) urls).

(** The headers of the file part. *)
Definition file_headers (filename : string) : string :=
  "Content-Disposition: form-data; name=" ++ dquote ++ "file" ++ dquote
  ++ "; filename=" ++ dquote ++ filename ++ dquote ++ CRLF
  ++ "Content-Type: application/pdf" ++ CRLF ++ CRLF.

(** The headers of the prompt part. *)
Definition prompt_headers : string :=
  "Content-Disposition: form-data; name=" ++ dquote ++ "prompt" ++ dquote ++ CRLF ++ CRLF.

(** [body] is a multipart document of two parts under [boundary]: the
    file part, whose payload is [fileData], then the prompt part, then
    the closing delimiter. *)
Definition two_part_body (boundary filename : string) (fileData body : list byte) : Prop :=
  let delimiter := TextEncoder_encode ("--" ++ boundary ++ CRLF) in
  let file_head := (delimiter ++ TextEncoder_encode (file_headers filename))%list in
  body = (file_head ++ fileData ++ TextEncoder_encode CRLF
          ++ delimiter ++ TextEncoder_encode prompt_headers
          ++ TextEncoder_encode Multipart.pdf_prompt ++ TextEncoder_encode CRLF
          ++ TextEncoder_encode ("--" ++ boundary ++ "--" ++ CRLF))%list
  /\ firstn (List.length fileData) (skipn (List.length file_head) body) = fileData.

End Requests.

(* ------------------------------------------------------------------ *)
(** * A reference platform

    An executable instance of [Platform], used to run the converters on
    concrete responses: numbers are decimal literals [m * 10^e], and
    [JSON.parse] is a reader of the JSON grammar (RFC 8259) over the code
    units U+0000..U+00FF.  The properties below hold for every platform;
    this one shows them at work. *)

Module Ref.

Definition num : Type := (Z * Z)%type.

Definition is_ws (c : ascii) : bool :=
  (Ascii.eqb c " " || Ascii.eqb c "009" || Ascii.eqb c "010" || Ascii.eqb c "013")%char.

Fixpoint skip_ws (s : list ascii) : list ascii :=
  match s with
  | c :: r => if is_ws c then skip_ws r else s
  | [] => []
  end.

(** [expect lit s]: [s] without its prefix [lit]. *)
Fixpoint expect (lit : list ascii) (s : list ascii) : option (list ascii) :=
  match lit, s with
  | [], _ => Some s
  | l :: lit', c :: r => if Ascii.eqb l c then expect lit' r else None
  | _ :: _, [] => None
  end.

Definition digit_of (c : ascii) : option Z :=
  let n := Z.of_N (N_of_ascii c) in
  if ((48 <=? n) && (n <=? 57))%Z then Some (n - 48)%Z else None.

Definition hex_of (c : ascii) : option N :=
  let n := N_of_ascii c in
  if ((48 <=? n) && (n <=? 57))%N then Some (n - 48)%N
  else if ((65 <=? n) && (n <=? 70))%N then Some (n - 55)%N
  else if ((97 <=? n) && (n <=? 102))%N then Some (n - 87)%N
  else None.

(** Digits, most significant first: the value read and how many. *)
Fixpoint digits (s : list ascii) (acc : Z) (count : Z) : Z * Z * list ascii :=
  match s with
  | c :: r =>
      match digit_of c with
      | Some d => digits r (acc * 10 + d)%Z (count + 1)%Z
      | None => (acc, count, s)
      end
  | [] => (acc, count, [])
  end.

(** [int frac? exp?] after the optional sign. *)
Definition unsigned_number (s : list ascii) : option (num * list ascii) :=
  match s with
  | [] => None
  | c :: r =>
      match digit_of c with
      | None => None
      | Some d =>
          let '(ip, r1) :=
            if (d =? 0)%Z then (0%Z, r)
            else let '(v, _, r') := digits r d 1%Z in (v, r') in
          let frac :=
            match r1 with
            | "."%char :: r2 =>
                let '(v, k, r3) := digits r2 ip 0%Z in
                if (k =? 0)%Z then None else Some (v, k, r3)
            | _ => Some (ip, 0%Z, r1)
            end in
          match frac with
          | None => None
          | Some (m, k, r3) =>
              match r3 with
              | e :: r4 =>
                  if (Ascii.eqb e "e" || Ascii.eqb e "E")%char then
                    let '(sign, r5) :=
                      match r4 with
                      | "-"%char :: r5 => ((-1)%Z, r5)
                      | "+"%char :: r5 => (1%Z, r5)
                      | _ => (1%Z, r4)
                      end in
                    let '(x, kx, r6) := digits r5 0%Z 0%Z in
                    if (kx =? 0)%Z then None
                    else Some ((m, sign * x - k)%Z, r6)
                  else Some ((m, (- k)%Z), r3)
              | [] => Some ((m, (- k)%Z), [])
              end
          end
      end
  end.

(** The characters of a string after its opening quote. *)
Fixpoint string_body (fuel : nat) (s : list ascii) (acc : string) : option (string * list ascii) :=
  match fuel with
  | O => None
  | S fuel' =>
      match s with
      | [] => None
      | c :: r =>
          if Ascii.eqb c "034"%char then Some (acc, r)
          else if Ascii.eqb c "\"%char then
            match r with
            | [] => None
            | e :: r' =>
                let simple (x : ascii) := string_body fuel' r' (acc ++ String x "") in
                if Ascii.eqb e "034"%char then simple "034"%char
                else if Ascii.eqb e "\"%char then simple "\"%char
                else if Ascii.eqb e "/"%char then simple "/"%char
                else if Ascii.eqb e "b"%char then simple "008"%char
                else if Ascii.eqb e "f"%char then simple "012"%char
                else if Ascii.eqb e "n"%char then simple "010"%char
                else if Ascii.eqb e "r"%char then simple "013"%char
                else if Ascii.eqb e "t"%char then simple "009"%char
                else if Ascii.eqb e "u"%char then
                  match r' with
                  | h1 :: h2 :: h3 :: h4 :: r'' =>
                      match hex_of h1, hex_of h2, hex_of h3, hex_of h4 with
                      | Some 0%N, Some 0%N, Some a, Some b =>
                          string_body fuel' r'' (acc ++ String (ascii_of_N (a * 16 + b)) "")
                      | _, _, _, _ => None
                      end
                  | _ => None
                  end
                else None
            end
          else if (N_of_ascii c <? 32)%N then None
          else string_body fuel' r (acc ++ String c "")
      end
  end.

Section Reader.
Variable parse_element : list ascii -> option (js num * list ascii).

Fixpoint items (fuel : nat) (s : list ascii) (acc : list (js num))
  : option (list (js num) * list ascii) :=
  match fuel with
  | O => None
  | S fuel' =>
      match parse_element s with
      | None => None
      | Some (v, r) =>
          match skip_ws r with
          | c :: r' =>
              if Ascii.eqb c ","%char then items fuel' r' (acc ++ [v])%list
              else if Ascii.eqb c "]"%char then Some ((acc ++ [v])%list, r')
              else None
          | [] => None
          end
      end
  end.

Fixpoint members (fuel : nat) (s : list ascii) (acc : list (string * js num))
  : option (list (string * js num) * list ascii) :=
  match fuel with
  | O => None
  | S fuel' =>
      match skip_ws s with
      | q :: r0 =>
          if negb (Ascii.eqb q "034"%char) then None else
          match string_body (List.length r0) r0 "" with
          | None => None
          | Some (k, r1) =>
              match skip_ws r1 with
              | c :: r2 =>
                  if negb (Ascii.eqb c ":"%char) then None else
                  match parse_element r2 with
                  | None => None
                  | Some (v, r3) =>
                      match skip_ws r3 with
                      | d :: r4 =>
                          if Ascii.eqb d ","%char then members fuel' r4 (acc ++ [(k, v)])%list
                          else if Ascii.eqb d "}"%char then Some ((acc ++ [(k, v)])%list, r4)
                          else None
                      | [] => None
                      end
                  end
              | [] => None
              end
          end
      | [] => None
      end
  end.

End Reader.

Fixpoint element (fuel : nat) (s : list ascii) : option (js num * list ascii) :=
  match fuel with
  | O => None
  | S fuel' =>
      let s := skip_ws s in
      match s with
      | [] => None
      | c :: r =>
          if Ascii.eqb c "n"%char then
            option_map (fun r' => (JNull, r')) (expect (list_ascii_of_string "ull") r)
          else if Ascii.eqb c "t"%char then
            option_map (fun r' => (JBool true, r')) (expect (list_ascii_of_string "rue") r)
          else if Ascii.eqb c "f"%char then
            option_map (fun r' => (JBool false, r')) (expect (list_ascii_of_string "alse") r)
          else if Ascii.eqb c "034"%char then
            option_map (fun '(str, r') => (JString str, r')) (string_body (List.length r) r "")
          else if Ascii.eqb c "["%char then
            match skip_ws r with
            | d :: r' =>
                if Ascii.eqb d "]"%char then Some (JArray [], r')
                else option_map (fun '(l, r'') => (JArray l, r''))
                       (items (element fuel') (List.length r) r [])
            | [] => None
            end
          else if Ascii.eqb c "{"%char then
            match skip_ws r with
            | d :: r' =>
                if Ascii.eqb d "}"%char then Some (JObject [], r')
                else option_map (fun '(l, r'') => (JObject l, r''))
                       (members (element fuel') (List.length r) r [])
            | [] => None
            end
          else if Ascii.eqb c "-"%char then
            option_map (fun '((m, e), r') => (JNumber ((- m)%Z, e), r')) (unsigned_number r)
          else
            option_map (fun '(n, r') => (JNumber n, r')) (unsigned_number s)
      end
  end.

Definition SyntaxError : Error :=
  {| message := "Unexpected token in JSON"; stack := "SyntaxError: Unexpected token in JSON" |}.

(** [JSON.parse(text)]: one value, white space around it, nothing else. *)
Definition parse (text : string) : Completion (js num) :=
  let s := list_ascii_of_string text in
  match element (S (List.length s)) s with
  | Some (v, r) =>
      match skip_ws r with
      | [] => Normal v
      | _ :: _ => Throw SyntaxError
      end
  | None => Throw SyntaxError
  end.

Definition num_to_string (n : num) : string :=
  let '(m, e) := n in
  if (e =? 0)%Z then string_of_Z m
  else string_of_Z m ++ "e" ++ string_of_Z e.

Fixpoint quote_chars (s : string) : string :=
  match s with
  | EmptyString => EmptyString
  | String c r =>
      (if Ascii.eqb c "034"%char then String "\"%char (String "034"%char "")
       else if Ascii.eqb c "\"%char then "\\"
       else if Ascii.eqb c "010"%char then "\n"
       else if Ascii.eqb c "013"%char then "\r"
       else if Ascii.eqb c "009"%char then "\t"
       else String c "") ++ quote_chars r
  end.

Definition quote (s : string) : string := dquote ++ quote_chars s ++ dquote.

Fixpoint stringify (v : js num) : string :=
  match v with
  | JUndefined | JNull => "null"
  | JBool true => "true"
  | JBool false => "false"
  | JNumber n => num_to_string n
  | JString s => quote s
  | JArray l =>
      "[" ++ (fix go (l : list (js num)) : string :=
                match l with
                | [] => ""
                | x :: rest =>
                    match rest with
                    | [] => stringify x
                    | _ :: _ => stringify x ++ "," ++ go rest
                    end
                end) l ++ "]"
  | JObject l =>
      "{" ++ (fix go (l : list (string * js num)) : string :=
                match l with
                | [] => ""
                | (k, x) :: rest =>
                    match rest with
                    | [] => quote k ++ ":" ++ stringify x
                    | _ :: _ => quote k ++ ":" ++ stringify x ++ "," ++ go rest
                    end
                end) l ++ "}"
  end.

Definition type_error (v : js num) (k : string) : Error :=
  let base := match v with JNull => "null" | _ => "undefined" end in
  {| message := "Cannot read properties of " ++ base ++ " (reading '" ++ k ++ "')";
     stack := "TypeError" |}.

#[global] Instance platform : Platform :=
  {| number := num;
     number_is_zero := fun n => (fst n =? 0)%Z;
     number_to_string := num_to_string;
     number_of_Z := fun z => (z, 0%Z);
     JSON_parse := parse;
     JSON_stringify := stringify;
     TypeError_read := type_error;
     TypeError_convert :=
       {| message := "Cannot convert object to primitive value"; stack := "TypeError" |};
     RangeError_offset := {| message := "offset is out of bounds"; stack := "RangeError" |} |}.

End Ref.

(* ------------------------------------------------------------------ *)
(** * Sample calls, on the reference platform *)

Module Demo.

Definition scan_png : TFile := {| path := "inbox/scan.png"; name := "scan.png" |}.
Definition report_pdf : TFile := {| path := "inbox/report.pdf"; name := "report.pdf" |}.

(** The bytes of the sample file: [%PDF-1.4]. *)
Definition file_bytes : list byte := [x25; x50; x44; x46; x2d; x31; x2e; x34].

Definition local_settings : MarkerSettings :=
  {| glmocrEndpoint := Some "localhost:8080"; glmocrApiKey := None;
     movePDFtoFolder := true; deleteOriginal := false |}.

Definition cloud_settings : MarkerSettings :=
  {| glmocrEndpoint := None; glmocrApiKey := Some "sk-demo";
     movePDFtoFolder := false; deleteOriginal := true |}.

Definition no_key_settings : MarkerSettings :=
  {| glmocrEndpoint := None; glmocrApiKey := None;
     movePDFtoFolder := false; deleteOriginal := false |}.

(** A host whose vault works and whose transport completes every
    request the same way. *)
Definition world (answer : Completion Response) : World :=
  {| prepareConversion := fun _ _ => Normal (Some "notes/");
     isFileSystemAdapter := true;
     readBinary := fun _ => Normal file_bytes;
     requestUrl := fun _ => answer;
     processConversionResult := fun _ _ _ => Normal tt;
     rename := fun _ _ => Normal tt;
     deleteOriginalFile := fun _ => Normal tt;
     random_base36 := "0.4fzyo82mvyr" |}.

Definition answers (status : Z) (text : string) : World :=
  world (Normal {| status := status; text := text |}).

Definition refused : Error :=
  {| message := "net::ERR_CONNECTION_REFUSED"; stack := "Error: net::ERR_CONNECTION_REFUSED" |}.

(** A host whose transport answers by path: [/models] with one status,
    every other path with another. *)
Definition by_path (models_status other_status : Z) : World :=
  {| prepareConversion := fun _ _ => Normal (Some "notes/");
     isFileSystemAdapter := true;
     readBinary := fun _ => Normal file_bytes;
     requestUrl := fun req =>
       if String.eqb (url req) "http://localhost:8080/models"
       then Normal {| status := models_status; text := "" |}
       else Normal {| status := other_status; text := "OK" |};
     processConversionResult := fun _ _ _ => Normal tt;
     rename := fun _ _ => Normal tt;
     deleteOriginalFile := fun _ => Normal tt;
     random_base36 := "0.4fzyo82mvyr" |}.

Definition q : string := dquote.

(** [{"choices":[{"message":{"content":"Hello World"}}]}] *)
Definition hello_body : string :=
  "{" ++ q ++ "choices" ++ q ++ ":[{" ++ q ++ "message" ++ q ++ ":{"
  ++ q ++ "content" ++ q ++ ":" ++ q ++ "Hello World" ++ q ++ "}}]}".

(** [{"code":0,"msg":"ok","data":{"md_result":"# Title"}}] *)
Definition cloud_body : string :=
  "{" ++ q ++ "code" ++ q ++ ":0," ++ q ++ "msg" ++ q ++ ":" ++ q ++ "ok" ++ q ++ ","
  ++ q ++ "data" ++ q ++ ":{" ++ q ++ "md_result" ++ q ++ ":" ++ q ++ "# Title" ++ q ++ "}}".

(** The same envelope with an empty [md_result]. *)
Definition cloud_empty_body : string :=
  "{" ++ q ++ "code" ++ q ++ ":0," ++ q ++ "msg" ++ q ++ ":" ++ q ++ "ok" ++ q ++ ","
  ++ q ++ "data" ++ q ++ ":{" ++ q ++ "md_result" ++ q ++ ":" ++ q ++ q ++ "}}".

(** [{"code":1,"msg":"quota exceeded"}] *)
Definition quota_body : string :=
  "{" ++ q ++ "code" ++ q ++ ":1," ++ q ++ "msg" ++ q ++ ":" ++ q ++ "quota exceeded" ++ q ++ "}".

(** [{"error":{"message":"model not loaded","type":"server_error"}}] *)
Definition error_body : string :=
  "{" ++ q ++ "error" ++ q ++ ":{" ++ q ++ "message" ++ q ++ ":" ++ q ++ "model not loaded" ++ q
  ++ "," ++ q ++ "type" ++ q ++ ":" ++ q ++ "server_error" ++ q ++ "}}".

(** The hosts of the sample calls. *)
Definition hello_world : World := answers 200 hello_body.
Definition cloud_ok_world : World := answers 200 cloud_body.
Definition cloud_empty_world : World := answers 200 cloud_empty_body.
Definition quota_world : World := answers 200 quota_body.
Definition empty_object_world : World := answers 200 "{}".
Definition html_world : World := answers 200 "<html>Bad gateway</html>".
Definition server_error_world : World := answers 500 "Internal Server Error".
Definition unauthorized_world : World := answers 401 error_body.
Definition refused_world : World := world (Throw refused).

End Demo.

(* ------------------------------------------------------------------ *)
(** * More about runs: notices, vault calls, shapes of bodies *)

(** No code unit of [s] is a dot. *)
Fixpoint dot_free (s : string) : bool :=
  match s with
  | EmptyString => true
  | String c s' => negb (Ascii.eqb c "."%char) && dot_free s'
  end.

(** A code unit of the base64 alphabet, or the padding sign. *)
Definition b64_code_unit (c : ascii) : bool :=
  match b64_index c with
  | Some _ => true
  | None => Ascii.eqb c "="%char
  end.

Fixpoint all_chars (f : ascii -> bool) (s : string) : bool :=
  match s with
  | EmptyString => true
  | String c s' => f c && all_chars f s'
  end.

(** [prepareConversion] has returned nothing to work in: [!folderPath]. *)
Definition no_folder (folderPath : option string) : bool :=
  match folderPath with
  | Some p => negb (str_truthy p)
  | None => true
  end.

Section MoreRuns.
Context {P : Platform}.

(** The texts of the notices of a run, in order. *)
Fixpoint notices (t : list Event) : list string :=
  match t with
  | [] => []
  | ENotice msg _ :: rest => msg :: notices rest
  | _ :: rest => notices rest
  end.

(** An event that hands over, moves or deletes. *)
Definition post_step (ev : Event) : bool :=
  match ev with
  | EProcessConversionResult _ _ _ | ERename _ _ | EDeleteOriginalFile _ => true
  | _ => false
  end.

(** An event that neither hands over, moves nor deletes. *)
Definition quiet (ev : Event) : bool := negb (post_step ev).

(** The formatter has taken a conversion result of this run and
    completed. *)
Definition formatted (w : World) (file : TFile) (t : list Event) (folderPath : string) : Prop :=
  exists cr,
    In (EProcessConversionResult cr folderPath file) t
    /\ processConversionResult w cr folderPath file = Normal tt.

(** The original file is moved or deleted only as the settings ask,
    only after the formatter has completed, and deleted only after the
    move, when one is asked for, has completed. *)
Definition original_guarded (w : World) (settings : MarkerSettings) (file : TFile)
    (t : list Event) : Prop :=
  (forall f p, In (ERename f p) t ->
     f = file /\ movePDFtoFolder settings = true
     /\ exists folderPath, p = folderPath ++ name file /\ formatted w file t folderPath)
  /\ (forall f, In (EDeleteOriginalFile f) t ->
        f = file /\ deleteOriginal settings = true
        /\ exists folderPath,
             formatted w file t folderPath
             /\ (movePDFtoFolder settings = true ->
                 rename w file (folderPath ++ name file) = Normal tt)).

(** [true] is returned only after the formatter and the steps asked
    for have completed and the completion notice was shown. *)
Definition true_after_persisting (w : World) (settings : MarkerSettings) (file : TFile)
    (run : M bool) : Prop :=
  fst run = Normal true ->
  exists cr folderPath,
    In (EProcessConversionResult cr folderPath file) (snd run)
    /\ persists w settings file folderPath cr
    /\ In "Conversion with GLM-OCR completed" (notices (snd run)).

(** A chat body without text: no [choices], an empty list, a first
    choice without [message], or a message whose [content] is absent or
    the empty string. *)
Definition chat_empty_envelope (v : value) : Prop :=
  exists members,
    v = JObject members
    /\ (member "choices" members = None
        \/ member "choices" members = Some (JArray [])
        \/ exists fm others,
             member "choices" members = Some (JArray (JObject fm :: others))
             /\ (member "message" fm = None
                 \/ exists mm,
                      member "message" fm = Some (JObject mm)
                      /\ (member "content" mm = None
                          \/ member "content" mm = Some (JString "")))).

(** The value under [k], [undefined] when there is none. *)
Definition member_or_undefined (k : string) (members : list (string * value)) : value :=
  match member k members with
  | Some x => x
  | None => JUndefined
  end.

(** The bytes a part contributes to the body. *)
Definition part_bytes (part : Multipart.Part) : list byte :=
  match part with
  | Multipart.PartText s => TextEncoder_encode s
  | Multipart.PartBytes b => b
  end.

(** The notices of a call of [convert] that got a folder: the notice
    of the start and one more; a third only when the completion notice
    is followed by the notice of a parse error. *)
Definition notices_of_convert (t : list Event) : Prop :=
  List.length (notices t) = 2
  \/ (List.length (notices t) = 3
      /\ In "Conversion with GLM-OCR completed" (notices t)
      /\ In "Error parsing GLM-OCR response. Check console for details." (notices t)).

End MoreRuns.

Module DemoMore.

(** [{"data":{"md_result":"text"}}]: a cloud body without [code]. *)
Definition no_code_body : string :=
  "{" ++ Demo.q ++ "data" ++ Demo.q ++ ":{" ++ Demo.q ++ "md_result" ++ Demo.q ++ ":"
  ++ Demo.q ++ "text" ++ Demo.q ++ "}}".

Definition no_code_world : World := Demo.answers 200 no_code_body.

(** [{"code":1,"msg":{"toString":null}}]: a cloud body whose [msg]
    cannot be converted to text. *)
Definition unprintable_body : string :=
  "{" ++ Demo.q ++ "code" ++ Demo.q ++ ":1," ++ Demo.q ++ "msg" ++ Demo.q ++ ":{"
  ++ Demo.q ++ "toString" ++ Demo.q ++ ":null}}".

Definition unprintable_world : World := Demo.answers 200 unprintable_body.
Definition null_world : World := Demo.answers 200 "null".
Definition created_world : World := Demo.answers 201 Demo.hello_body.

Definition disk_full : Error :=
  {| message := "ENOSPC: no space left on device"; stack := "Error: ENOSPC" |}.


(** A host whose vault cannot be read. *)
Definition unreadable : World :=
  {| prepareConversion := fun _ _ => Normal (Some "notes/");
     isFileSystemAdapter := true;
     readBinary := fun _ => Throw disk_full;
     requestUrl := fun _ => Normal {| status := 200; text := Demo.hello_body |};
     processConversionResult := fun _ _ _ => Normal tt;
     rename := fun _ _ => Normal tt;
     deleteOriginalFile := fun _ => Normal tt;
     random_base36 := "0.4fzyo82mvyr" |}.

(** A host where [prepareConversion] gives no folder. *)
Definition no_folder_world : World :=
  {| prepareConversion := fun _ _ => Normal None;
     isFileSystemAdapter := true;
     readBinary := fun _ => Normal Demo.file_bytes;
     requestUrl := fun _ => Normal {| status := 200; text := Demo.hello_body |};
     processConversionResult := fun _ _ _ => Normal tt;
     rename := fun _ _ => Normal tt;
     deleteOriginalFile := fun _ => Normal tt;
     random_base36 := "0.4fzyo82mvyr" |}.

End DemoMore.

Section Endings.
Context {P : Platform}.

(** The events of a run end with [tail], after events that carry no
    outcome and neither hand over, move nor delete. *)
Definition ends_with (run : M bool) (tail : list Event) : Prop :=
  exists pre, forallb neutral pre = true /\ snd run = (pre ++ tail)%list.

End Endings.

Section FormatterFailure.
Context {P : Platform}.


(** What the cloud converter shows when the [msg] of a refused body
    cannot be converted to text, the conversion throwing [e]: the
    diagnostic of the backend error, already written, then the console
    line and the notice of the inner [catch]. *)
Definition unprintable_message_events (msg : value) (e : Error) (response : Response)
  : list Event :=
  [ EConsoleError [ LStr "GLM-OCR API error:"; LVal msg ];
    EConsoleError [ LStr "Error parsing GLM-OCR response:"; LErr e;
                    LStr "Response text:"; LStr (text_excerpt response) ];
    ENotice "Error parsing GLM-OCR response. Check console for details." None ].

End FormatterFailure.

Section Classified.
Context {P : Platform}.

(** A run has an outcome, and a success when it returns [true]. *)
Definition classified (run : M bool) : Prop :=
  exists o,
    outcome (snd run) = Some o
    /\ (fst run = Normal true -> exists text label, o = Success text label).

(** The notices of a status branch: one; two only when the completion
    notice is followed by the notice of a parse error. *)
Definition notices_of_branch (t : list Event) : Prop :=
  List.length (notices t) = 1
  \/ (List.length (notices t) = 2
      /\ In "Conversion with GLM-OCR completed" (notices t)
      /\ In "Error parsing GLM-OCR response. Check console for details." (notices t)).

End Classified.

(* ------------------------------------------------------------------ *)
(** * The helpers on sample inputs *)

(** The test vectors of RFC 4648, section 10. *)
Example base64_rfc4648_vectors :
  map arrayBufferToBase64
    [ []; [x66]; [x66; x6f]; [x66; x6f; x6f]; [x66; x6f; x6f; x62];
      [x66; x6f; x6f; x62; x61]; [x66; x6f; x6f; x62; x61; x72] ]
  = [ ""; "Zg=="; "Zm8="; "Zm9v"; "Zm9vYg=="; "Zm9vYmE="; "Zm9vYmFy" ].
Proof. reflexivity. Qed.

Example base64_high_bytes :
  arrayBufferToBase64 [xff; xfe; x00; x3e; x3f] = "//4APj8="
  /\ base64_decode "//4APj8=" = Some [xff; xfe; x00; x3e; x3f]
  /\ base64_decode "Zg=" = None.
Proof. repeat split; reflexivity. Qed.

Example getMimeType_samples :
  map getMimeType [ "scan.png"; "Report.PDF"; "photo.final.JPeG"; "notes"; "archive.tar.gz"; "" ]
  = [ "image/png"; "application/pdf"; "image/jpeg"; "application/octet-stream";
      "application/octet-stream"; "application/octet-stream" ].
Proof. reflexivity. Qed.

Example reference_parse_samples :
  JSON_parse Demo.hello_body
  = Normal (JObject
              [ ("choices",
                 JArray [ JObject [ ("message",
                                     JObject [ ("content", JString "Hello World") ]) ] ]) ])
  /\ JSON_parse " [1, -2.50e3, true, null, {}, [], 0] "
     = Normal (JArray [ JNumber (1, 0)%Z; JNumber (-250, 1)%Z; JBool true; JNull;
                        JObject []; JArray []; JNumber (0, 0)%Z ])
  /\ JSON_parse "Internal Server Error" = Throw Ref.SyntaxError
  /\ JSON_parse "[1,]" = Throw Ref.SyntaxError
  /\ JSON_parse "{} x" = Throw Ref.SyntaxError.
Proof. repeat split; vm_compute; reflexivity. Qed.

(* ------------------------------------------------------------------ *)
(** * Base64 *)

Section ListBy3.
Variable A : Type.
Variable Q : list A -> Prop.
Hypothesis Q0 : Q [].
Hypothesis Q1 : forall a, Q [a].
Hypothesis Q2 : forall a b, Q [a; b].
Hypothesis Q3 : forall a b c l, Q l -> Q (a :: b :: c :: l).

Lemma list_ind_by3 : forall l, Q l.
Proof.
  assert (H : forall l, Q l /\ (forall a, Q (a :: l)) /\ (forall a b, Q (a :: b :: l))).
  { induction l as [|x l IH].
    - repeat split; auto.
    - destruct IH as (H0 & H1 & H2). repeat split; auto. }
  intro l. apply H.
Qed.
End ListBy3.

Lemma sextet_in (s : N) : (s < 64)%N -> In s (map N.of_nat (seq 0 64)).
Proof.
  intro H. apply in_map_iff. exists (N.to_nat s). split.
  - apply N2Nat.id.
  - apply in_seq. lia.
Qed.

Lemma b64_index_char (s : N) : (s < 64)%N -> b64_index (b64_char s) = Some s.
Proof.
  intro H. apply sextet_in in H. revert s H. apply Forall_forall.
  simpl. repeat constructor.
Qed.

Lemma b64_char_not_pad (s : N) : (s < 64)%N -> Ascii.eqb (b64_char s) "="%char = false.
Proof.
  intro H. apply sextet_in in H. revert s H. apply Forall_forall.
  simpl. repeat constructor.
Qed.

Lemma byte_of_to_N (b : byte) : byte_of_N (Byte.to_N b) = b.
Proof. unfold byte_of_N. now rewrite Byte.of_to_N. Qed.

Lemma regroup3 (a b c : N) :
  (a <= 255 -> b <= 255 -> c <= 255 ->
   let n := a * 65536 + b * 256 + c in
   n / 262144 < 64
   /\ (((n / 262144 * 64 + (n / 4096) mod 64) * 64 + (n / 64) mod 64) * 64 + n mod 64 = n)
   /\ n / 65536 = a /\ (n / 256) mod 256 = b /\ n mod 256 = c)%N.
Proof.
  intros Ha Hb Hc n. subst n. zify. Z.to_euclidean_division_equations. lia.
Qed.

Lemma regroup2 (a b : N) :
  (a <= 255 -> b <= 255 ->
   let n := a * 65536 + b * 256 in
   let m := ((n / 262144 * 64 + (n / 4096) mod 64) * 64 + (n / 64) mod 64) * 64 in
   n / 262144 < 64 /\ m / 65536 = a /\ (m / 256) mod 256 = b)%N.
Proof.
  intros Ha Hb n m. subst n m. zify. Z.to_euclidean_division_equations. lia.
Qed.

Lemma regroup1 (a : N) :
  (a <= 255 ->
   let n := a * 65536 in
   let m := (n / 262144 * 64 + (n / 4096) mod 64) * 4096 in
   n / 262144 < 64 /\ m / 65536 = a)%N.
Proof.
  intros Ha n m. subst n m. zify. Z.to_euclidean_division_equations. lia.
Qed.

Lemma mod64_lt (n : N) : (n mod 64 < 64)%N.
Proof. apply N.mod_lt. discriminate. Qed.

(** Decoding undoes encoding on every list of byte values. *)
Lemma b64_decode_encode (bs : list byte) :
  b64_decode (list_ascii_of_string (b64_encode (map Byte.to_N bs))) = Some bs.
Proof.
  induction bs as [ | a | a b | a b c bs IH ] using list_ind_by3.
  - reflexivity.
  - pose proof (Byte.to_N_bounded a) as Ha.
    destruct (regroup1 Ha) as (H1 & H2).
    cbn [map b64_encode list_ascii_of_string b64_decode].
    rewrite (b64_index_char H1), (b64_index_char (mod64_lt _)).
    cbn [Ascii.eqb Bool.eqb andb]. cbv zeta in H2. rewrite H2, byte_of_to_N. reflexivity.
  - pose proof (Byte.to_N_bounded a) as Ha. pose proof (Byte.to_N_bounded b) as Hb.
    destruct (regroup2 Ha Hb) as (H1 & H2 & H3).
    cbn [map b64_encode list_ascii_of_string b64_decode].
    rewrite (b64_index_char H1), !(b64_index_char (mod64_lt _)).
    rewrite (b64_char_not_pad (mod64_lt _)).
    cbn [Ascii.eqb Bool.eqb andb]. cbv zeta in H2, H3. rewrite H2, H3, !byte_of_to_N.
    reflexivity.
  - pose proof (Byte.to_N_bounded a) as Ha. pose proof (Byte.to_N_bounded b) as Hb.
    pose proof (Byte.to_N_bounded c) as Hc.
    destruct (regroup3 Ha Hb Hc) as (H1 & H2 & H3 & H4 & H5).
    cbn [map b64_encode list_ascii_of_string b64_decode].
    rewrite (b64_index_char H1), !(b64_index_char (mod64_lt _)).
    rewrite (b64_char_not_pad (mod64_lt _)), IH.
    cbv zeta in H2, H3, H4, H5. rewrite H2, H3, H4, H5, !byte_of_to_N.
    reflexivity.
Qed.

Lemma binary_loop (bs : list byte) (acc : string) :
  fold_left (fun binary b => binary ++ fromCharCode b) bs acc
  = acc ++ string_of_list_ascii (map ascii_of_byte bs).
Proof.
  revert acc. induction bs as [|b bs IH]; intro acc; simpl.
  - clear. induction acc; simpl; congruence.
  - rewrite IH. unfold fromCharCode.
    clear. induction acc; simpl; congruence.
Qed.

Lemma codes_of_binary (bs : list byte) :
  map N_of_ascii (list_ascii_of_string (string_of_list_ascii (map ascii_of_byte bs)))
  = map Byte.to_N bs.
Proof.
  rewrite list_ascii_of_string_of_list_ascii, map_map.
  apply map_ext. intro b. rewrite ascii_of_byte_via_N.
  apply N_ascii_embedding. pose proof (Byte.to_N_bounded b). lia.
Qed.

Lemma append_assoc (a b c : string) : (a ++ b) ++ c = a ++ b ++ c.
Proof. induction a as [|x a IH]; simpl; congruence. Qed.

Lemma strip_prefix_app (p s : string) : strip_prefix p (p ++ s) = Some s.
Proof.
  induction p as [|c p IH]; simpl; [reflexivity|].
  now rewrite Ascii.eqb_refl.
Qed.

(** C10. For every byte buffer, decoding the text [arrayBufferToBase64]
    returns with the standard base64 decoder gives back exactly the
    bytes of the buffer: the encoding loses nothing, and the data URI of
    the JSON request is its fixed head followed by that text. *)
Theorem arrayBufferToBase64_decodes (buffer : list byte) (mimeType : string) :
  base64_decode (arrayBufferToBase64 buffer) = Some buffer
  /\ strip_prefix ("data:" ++ mimeType ++ ";base64,")
       (data_uri mimeType (arrayBufferToBase64 buffer))
     = Some (arrayBufferToBase64 buffer).
Proof.
  split.
  - unfold base64_decode, arrayBufferToBase64, btoa.
    rewrite binary_loop. cbn [append].
    rewrite codes_of_binary. apply b64_decode_encode.
  - unfold data_uri.
    replace ("data:" ++ mimeType ++ ";base64," ++ arrayBufferToBase64 buffer)
      with (("data:" ++ mimeType ++ ";base64,") ++ arrayBufferToBase64 buffer)
      by now rewrite !append_assoc.
    apply strip_prefix_app.
Qed.

(* ------------------------------------------------------------------ *)
(** * The multipart body *)

Section Body.
Context {P : Platform}.

Lemma total_length_from (bodyParts : list (list byte)) (n : nat) :
  fold_left (fun totalLength part => totalLength + List.length part) bodyParts n
  = n + List.length (List.concat bodyParts).
Proof.
  revert n. induction bodyParts as [|p ps IH]; intro n; simpl.
  - lia.
  - rewrite IH, length_app. lia.
Qed.

Lemma total_length_concat (bodyParts : list (list byte)) :
  Multipart.total_length bodyParts = List.length (List.concat bodyParts).
Proof. unfold Multipart.total_length. now rewrite total_length_from. Qed.

(** Writing a part over the zeroes that follow what is written. *)
Lemma Uint8Array_set_next (written part : list byte) (k : nat) :
  Uint8Array_set (written ++ repeat x00 (List.length part + k)) part (List.length written)
  = Normal ((written ++ part) ++ repeat x00 k)%list.
Proof.
  unfold Uint8Array_set.
  rewrite length_app, repeat_length.
  destruct (Nat.ltb_spec (List.length written + (List.length part + k))
              (List.length written + List.length part)) as [H|H]; [lia|].
  f_equal.
  rewrite firstn_app, firstn_all, Nat.sub_diag, firstn_O, app_nil_r.
  rewrite skipn_app, skipn_all2 by lia.
  replace (List.length written + List.length part - List.length written)
    with (List.length part) by lia.
  rewrite repeat_app, skipn_app, skipn_all2 by (rewrite repeat_length; lia).
  rewrite repeat_length, Nat.sub_diag, skipn_O.
  simpl. now rewrite <- app_assoc.
Qed.

(** The copying loop never leaves the array and writes the parts one
    after the other. *)
Lemma fill_body_concat (bodyParts : list (list byte)) :
  Multipart.fill_body bodyParts = Normal (List.concat bodyParts).
Proof.
  unfold Multipart.fill_body. rewrite total_length_concat.
  set (step := fun (st : Completion (list byte * nat)) (part : list byte) => _).
  assert (H : forall parts written,
             fold_left step parts
               (Normal ((written ++ repeat x00 (List.length (List.concat parts)))%list,
                        List.length written))
             = Normal ((written ++ List.concat parts)%list,
                       List.length (written ++ List.concat parts)%list)).
  { induction parts as [|p ps IH]; intro written.
    - simpl. now rewrite !app_nil_r.
    - cbn [fold_left List.concat]. rewrite length_app.
      unfold step at 2. rewrite Uint8Array_set_next.
      rewrite <- length_app, IH, <- app_assoc. reflexivity. }
  specialize (H bodyParts []). simpl in H. rewrite H. reflexivity.
Qed.

Lemma TextEncoder_encode_app (s t : string) :
  TextEncoder_encode (s ++ t) = (TextEncoder_encode s ++ TextEncoder_encode t)%list.
Proof.
  unfold TextEncoder_encode.
  induction s as [|c s IH]; simpl; [reflexivity|].
  now rewrite IH, app_assoc.
Qed.

End Body.

(* ------------------------------------------------------------------ *)
(** * Runs *)

(** One step of a run: compute, or split on how an expression
    completes or on a test. *)
Ltac run_step :=
  first
    [ progress cbn [bind try_catch eval call emit ret request Notice Notice_for
                    console_error console_warn fst snd]
    | match goal with
      | |- context [match ?c with Normal _ => _ | Throw _ => _ end] => destruct c eqn:?
      | |- context [if ?b then _ else _] => destruct b eqn:?
      end ].

Section Runs.
Context {P : Platform}.

Lemma failure_message_failed (msg : string) :
  failure_message (failed_prefix ++ msg) = msg.
Proof. reflexivity. Qed.

Lemma outcome_neutral (pre t : list Event) :
  forallb neutral pre = true -> outcome (pre ++ t) = outcome t.
Proof.
  induction pre as [|ev pre IH]; simpl; intro H; [reflexivity|].
  apply andb_true_iff in H. destruct H as [Hev Hpre].
  destruct ev; simpl in Hev; try discriminate; auto.
  apply negb_true_iff in Hev. rewrite Hev. auto.
Qed.

Lemma requests_app (t1 t2 : list Event) :
  requests (t1 ++ t2) = (requests t1 ++ requests t2)%list.
Proof.
  induction t1 as [|ev t1 IH]; simpl; [reflexivity|].
  destruct ev; simpl; rewrite ?IH; reflexivity.
Qed.

(** Both status branches of the local converter return; nothing
    escapes their [catch]. *)
Lemma local_on_error_status_returns (response : Response) :
  fst (Local.on_error_status response) = Normal false.
Proof.
  unfold Local.on_error_status. repeat run_step; reflexivity.
Qed.

Lemma cloud_on_error_status_returns (response : Response) :
  fst (Cloud.on_error_status response) = Normal false.
Proof.
  unfold Cloud.on_error_status. repeat run_step; reflexivity.
Qed.

Lemma local_on_ok_status_returns w settings file folderPath response :
  exists b, fst (Local.on_ok_status w settings file folderPath response) = Normal b.
Proof.
  unfold Local.on_ok_status. repeat run_step; eexists; reflexivity.
Qed.

Lemma cloud_on_ok_status_returns w settings file folderPath response :
  exists b, fst (Cloud.on_ok_status w settings file folderPath response) = Normal b.
Proof.
  unfold Cloud.on_ok_status. repeat run_step; eexists; reflexivity.
Qed.

Lemma local_branch_returns w settings file folderPath response :
  exists b,
    fst (branch_of Local.on_error_status
           (Local.on_ok_status w settings file folderPath) response) = Normal b.
Proof.
  unfold branch_of. destruct (negb _).
  - exists false. apply local_on_error_status_returns.
  - apply local_on_ok_status_returns.
Qed.

Lemma cloud_branch_returns w settings file folderPath response :
  exists b,
    fst (branch_of Cloud.on_error_status
           (Cloud.on_ok_status w settings file folderPath) response) = Normal b.
Proof.
  unfold branch_of. destruct (negb _).
  - exists false. apply cloud_on_error_status_returns.
  - apply cloud_on_ok_status_returns.
Qed.

(** Once the transport has answered, a run of [convert] is a prefix of
    neutral events, holding the one request, followed by the run of
    the branch taken on the response. *)
Lemma local_convert_answered w settings file folderPath response :
  local_answered w settings file folderPath response ->
  let branch := branch_of Local.on_error_status
                  (Local.on_ok_status w settings file folderPath) response in
  exists pre,
    forallb neutral pre = true
    /\ List.length (requests pre) = 1
    /\ Local.convert w settings file = (fst branch, (pre ++ snd branch)%list).
Proof.
  intros ((Hprep & Hfolder) & fileData & Hread & Hreq) branch.
  destruct (local_branch_returns w settings file folderPath response) as [b Hb].
  fold branch in Hb.
  unfold Local.convert, call, request. rewrite Hprep. cbn [bind].
  rewrite Hfolder. cbn [negb].
  rewrite Hread, Hreq.
  change (if negb (status response =? 200)%Z then Local.on_error_status response
          else Local.on_ok_status w settings file folderPath response) with branch.
  destruct branch as [r t]. cbn [fst snd] in *. subst r.
  set (req := Local.requestParams settings file fileData) in *.
  destruct (isFileSystemAdapter w).
  - exists [ EPrepareConversion file; ENotice "Converting file with GLM-OCR..." (Some 10000%Z);
             EReadBinary file; ERequestUrl req (Normal response) ].
    repeat split; reflexivity.
  - exists [ EPrepareConversion file; ENotice "Converting file with GLM-OCR..." (Some 10000%Z);
             EConsoleWarn
               [ LStr "Not using FileSystemAdapter - path may not be correctly resolved" ];
             EReadBinary file; ERequestUrl req (Normal response) ].
    repeat split; reflexivity.
Qed.

Lemma cloud_convert_answered w settings file folderPath response :
  cloud_answered w settings file folderPath response ->
  let branch := branch_of Cloud.on_error_status
                  (Cloud.on_ok_status w settings file folderPath) response in
  exists pre,
    forallb neutral pre = true
    /\ List.length (requests pre) = 1
    /\ Cloud.convert w settings file = (fst branch, (pre ++ snd branch)%list).
Proof.
  intros ((Hprep & Hfolder) & apiKey & fileData & Hkey & Htruthy & Hread & Hreq) branch.
  destruct (cloud_branch_returns w settings file folderPath response) as [b Hb].
  fold branch in Hb.
  unfold Cloud.convert, call, request. rewrite Hprep. cbn [bind].
  rewrite Hfolder, Hkey, Htruthy. cbn [negb].
  rewrite Hread, Hreq.
  change (if negb (status response =? 200)%Z then Cloud.on_error_status response
          else Cloud.on_ok_status w settings file folderPath response) with branch.
  destruct branch as [r t]. cbn [fst snd] in *. subst r.
  set (req := Cloud.requestParams apiKey file fileData) in *.
  destruct (String.eqb (file_extension (name file)) "pdf").
  - exists [ EPrepareConversion file;
             ENotice "Converting PDF with GLM-OCR (cloud API)..." (Some 15000%Z);
             EReadBinary file; ERequestUrl req (Normal response) ].
    repeat split; reflexivity.
  - exists [ EPrepareConversion file;
             ENotice "Converting image with GLM-OCR (cloud API)..." (Some 10000%Z);
             EReadBinary file; ERequestUrl req (Normal response) ].
    repeat split; reflexivity.
Qed.

Lemma multipart_convert_answered w settings file folderPath response :
  multipart_answered w settings file folderPath response ->
  let branch := branch_of Local.on_error_status
                  (Local.on_ok_status w settings file folderPath) response in
  exists pre,
    forallb neutral pre = true
    /\ List.length (requests pre) = 1
    /\ Multipart.convert w settings file = (fst branch, (pre ++ snd branch)%list).
Proof.
  intros ((Hprep & Hfolder) & fileData & req & Hread & Hbuild & Hreq) branch.
  destruct (local_branch_returns w settings file folderPath response) as [b Hb].
  fold branch in Hb.
  unfold Multipart.convert, call, request. rewrite Hprep. cbn [bind].
  rewrite Hfolder. cbn [negb].
  rewrite Hread.
  unfold Multipart.request_of in Hbuild.
  destruct (String.eqb (file_extension (name file)) "pdf").
  - destruct (Multipart.multipart_body _ _ _) as [body|e]; [|discriminate].
    injection Hbuild as <-. cbn [eval bind]. rewrite Hreq.
    change (if negb (status response =? 200)%Z then Local.on_error_status response
            else Local.on_ok_status w settings file folderPath response) with branch.
    destruct branch as [r t]. cbn [fst snd] in *. subst r.
    eexists [ EPrepareConversion file;
              ENotice "Converting PDF with GLM-OCR (this may take a while)..." (Some 15000%Z);
              EReadBinary file; ERequestUrl _ (Normal response) ].
    repeat split; reflexivity.
  - injection Hbuild as <-. rewrite Hreq. cbn [bind].
    change (if negb (status response =? 200)%Z then Local.on_error_status response
            else Local.on_ok_status w settings file folderPath response) with branch.
    destruct branch as [r t]. cbn [fst snd] in *. subst r.
    eexists [ EPrepareConversion file;
              ENotice "Converting file with GLM-OCR..." (Some 10000%Z);
              EReadBinary file; ERequestUrl _ (Normal response) ].
    repeat split; reflexivity.
Qed.

(** ** Reading members *)

Lemma get_member (members : list (string * value)) (k : string) (x : value) :
  member k members = Some x -> get (JObject members) k = Normal x.
Proof. intro H. unfold get. now rewrite H. Qed.

Lemma get_absent (members : list (string * value)) (k : string) :
  member k members = None -> get (JObject members) k = Normal JUndefined.
Proof. intro H. unfold get. now rewrite H. Qed.

Lemma get_opt_member (members : list (string * value)) (k : string) (x : value) :
  member k members = Some x -> get_opt (JObject members) k = x.
Proof. intro H. unfold get_opt. now rewrite (get_member _ _ H). Qed.

Lemma get_opt_absent (members : list (string * value)) (k : string) :
  member k members = None -> get_opt (JObject members) k = JUndefined.
Proof. intro H. unfold get_opt. now rewrite (get_absent _ _ H). Qed.

Lemma str_truthy_nonempty (s : string) : s <> "" -> str_truthy s = true.
Proof. destruct s; [congruence|reflexivity]. Qed.

(** ** The branch taken on status 200 *)

Lemma local_on_ok_malformed w settings file folderPath response e :
  JSON_parse (text response) = Throw e ->
  Local.on_ok_status w settings file folderPath response
  = (Normal false,
     [ EConsoleError [ LStr "Error parsing GLM-OCR response:"; LErr e;
                       LStr "Response text:"; LStr (text_excerpt response) ];
       ENotice "Error parsing GLM-OCR response. Check console for details." None ]).
Proof.
  intros H. unfold Local.on_ok_status, eval. rewrite H. reflexivity.
Qed.

Lemma cloud_on_ok_malformed w settings file folderPath response e :
  JSON_parse (text response) = Throw e ->
  Cloud.on_ok_status w settings file folderPath response
  = (Normal false,
     [ EConsoleError [ LStr "Error parsing GLM-OCR response:"; LErr e;
                       LStr "Response text:"; LStr (text_excerpt response) ];
       ENotice "Error parsing GLM-OCR response. Check console for details." None ]).
Proof.
  intros H. unfold Cloud.on_ok_status, eval. rewrite H. reflexivity.
Qed.

(** What follows the hand-over: the formatter, then the optional move
    and delete; [true] when all of them complete. *)
Lemma local_on_ok_success w settings file folderPath response v content :
  JSON_parse (text response) = Normal v ->
  chat_success_envelope v content ->
  content <> "" ->
  let cr := result_of (JString content) "GLM-OCR (mlx-vlm)" file in
  let run := Local.on_ok_status w settings file folderPath response in
  (exists rest, snd run = EProcessConversionResult cr folderPath file :: rest)
  /\ (persists w settings file folderPath cr -> fst run = Normal true).
Proof.
  intros Hparse (members & others & fm & mm & -> & Hchoices & Hmessage & Hcontent) Hne cr run.
  subst run. unfold Local.on_ok_status, eval. rewrite Hparse. cbn [bind].
  rewrite (get_member _ _ Hchoices). cbn [bind index0_opt].
  rewrite (get_opt_member _ _ Hmessage), (get_opt_member _ _ Hcontent).
  unfold js_or. cbn [truthy]. rewrite (str_truthy_nonempty Hne).
  subst cr. unfold call, persists, result_of.
  split.
  - repeat run_step; eexists; reflexivity.
  - intros (Hp & Hmove & Hdel). rewrite Hp.
    destruct (movePDFtoFolder settings); [rewrite Hmove by reflexivity|];
      (destruct (deleteOriginal settings); [rewrite Hdel by reflexivity|]);
      reflexivity.
Qed.

Lemma cloud_on_ok_success w settings file folderPath response v content :
  JSON_parse (text response) = Normal v ->
  cloud_success_envelope v content ->
  content <> "" ->
  let cr := result_of (JString content) "GLM-OCR (cloud)" file in
  let run := Cloud.on_ok_status w settings file folderPath response in
  (exists rest, snd run = EProcessConversionResult cr folderPath file :: rest)
  /\ (persists w settings file folderPath cr -> fst run = Normal true).
Proof.
  intros Hparse (members & n & dm & -> & Hcode & Hzero & Hdata & Hmd) Hne cr run.
  subst run. unfold Cloud.on_ok_status, eval. rewrite Hparse. cbn [bind].
  rewrite (get_member _ _ Hcode). cbn [bind Cloud.strict_neq_zero]. rewrite Hzero.
  cbn [negb]. rewrite (get_member _ _ Hdata). cbn [bind].
  rewrite (get_opt_member _ _ Hmd).
  unfold js_or. cbn [truthy]. rewrite (str_truthy_nonempty Hne). cbn [negb truthy].
  rewrite (str_truthy_nonempty Hne). cbn [negb].
  subst cr. unfold call, persists, result_of.
  split.
  - repeat run_step; eexists; reflexivity.
  - intros (Hp & Hmove & Hdel). rewrite Hp.
    destruct (movePDFtoFolder settings); [rewrite Hmove by reflexivity|];
      (destruct (deleteOriginal settings); [rewrite Hdel by reflexivity|]);
      reflexivity.
Qed.

(** ** The branch taken on another status *)

Lemma local_on_error_unparsed response e :
  JSON_parse (text response) = Throw e ->
  Local.on_error_status response
  = (Normal false,
     [ EConsoleError [ LStr ("GLM-OCR error: " ++ http_status response);
                       LStr (text response) ];
       ENotice (failed_prefix ++ raw_message response) None ]).
Proof.
  intro H. unfold Local.on_error_status, eval. rewrite H. reflexivity.
Qed.

Lemma cloud_on_error_unparsed response e :
  JSON_parse (text response) = Throw e ->
  Cloud.on_error_status response
  = (Normal false,
     [ EConsoleError [ LStr ("GLM-OCR error: " ++ http_status response);
                       LStr (text response) ];
       ENotice (failed_prefix ++ raw_message response) None ]).
Proof.
  intro H. unfold Cloud.on_error_status, eval. rewrite H. reflexivity.
Qed.

Lemma local_on_error_envelope response v msg :
  JSON_parse (text response) = Normal v ->
  chat_error_envelope v msg ->
  Local.on_error_status response
  = (Normal false,
     [ EConsoleError [ LStr "GLM-OCR error response:"; LVal v ];
       ENotice (failed_prefix ++ msg) None ]).
Proof.
  intros Hparse (members & -> & Hne & Hshape).
  unfold Local.on_error_status, eval. rewrite Hparse. cbn [bind].
  destruct Hshape as [(em & Herror & Hmessage) | (Herror & Hmessage)].
  - rewrite (get_member _ _ Herror). cbn [bind].
    rewrite (get_opt_member _ _ Hmessage). cbn [truthy].
    rewrite (str_truthy_nonempty Hne), (get_member _ _ Hmessage). reflexivity.
  - rewrite (get_absent _ _ Herror), (get_member _ _ Hmessage).
    cbn [bind get_opt get truthy].
    rewrite (str_truthy_nonempty Hne). reflexivity.
Qed.

Lemma cloud_on_error_envelope response v msg :
  JSON_parse (text response) = Normal v ->
  cloud_error_envelope v msg ->
  Cloud.on_error_status response
  = (Normal false,
     [ EConsoleError [ LStr "GLM-OCR error response:"; LVal v ];
       ENotice (failed_prefix ++ msg) None ]).
Proof.
  intros Hparse (members & -> & Hne & Hmsg).
  unfold Cloud.on_error_status, eval. rewrite Hparse. cbn [bind].
  rewrite (get_member _ _ Hmsg). cbn [bind]. unfold js_or. cbn [truthy].
  rewrite (str_truthy_nonempty Hne). reflexivity.
Qed.

(** Whatever the body, the branch starts with one of its two
    diagnostics, both of the HTTP kind, and shows one failure notice;
    it writes both diagnostics when the message of the envelope cannot
    be converted to text. *)
Lemma local_on_error_shape response :
  exists label args rest msg,
    Local.on_error_status response
    = (Normal false, EConsoleError (LStr label :: args) :: rest)
    /\ diagnostic_kind label = Some HttpError
    /\ first_notice rest = failed_prefix ++ msg
    /\ (forall cr folderPath file, ~ In (EProcessConversionResult cr folderPath file) rest).
Proof.
  unfold Local.on_error_status.
  repeat run_step; cbn [app]; do 4 eexists;
    (split; [reflexivity | split; [reflexivity | split; [reflexivity|]]]);
    intros cr fp f Hin; cbn [In] in Hin; intuition discriminate.
Qed.

Lemma cloud_on_error_shape response :
  exists label args rest msg,
    Cloud.on_error_status response
    = (Normal false, EConsoleError (LStr label :: args) :: rest)
    /\ diagnostic_kind label = Some HttpError
    /\ first_notice rest = failed_prefix ++ msg
    /\ (forall cr folderPath file, ~ In (EProcessConversionResult cr folderPath file) rest).
Proof.
  unfold Cloud.on_error_status.
  repeat run_step; cbn [app]; do 4 eexists;
    (split; [reflexivity | split; [reflexivity | split; [reflexivity|]]]);
    intros cr fp f Hin; cbn [In] in Hin; intuition discriminate.
Qed.

Lemma raw_message_shows_status response :
  Contains (string_of_Z (status response)) (raw_message response).
Proof.
  exists "HTTP ". eexists. unfold raw_message, http_status. cbn [append]. reflexivity.
Qed.

Lemma not_2xx_not_200 (s : Z) : is_2xx s = false -> s <> 200%Z.
Proof. intros H ->. discriminate. Qed.

Lemma cloud_on_ok_backend_error w settings file folderPath response v msg :
  JSON_parse (text response) = Normal v ->
  cloud_failure_envelope v msg ->
  Cloud.on_ok_status w settings file folderPath response
  = (Normal false,
     [ EConsoleError [ LStr "GLM-OCR API error:"; LVal (JString msg) ];
       ENotice (failed_prefix ++ msg) None ]).
Proof.
  intros Hparse (members & n & -> & Hcode & Hzero & Hmsg).
  unfold Cloud.on_ok_status, eval. rewrite Hparse. cbn [bind].
  rewrite (get_member _ _ Hcode). cbn [bind Cloud.strict_neq_zero]. rewrite Hzero.
  cbn [negb]. rewrite (get_member _ _ Hmsg). reflexivity.
Qed.

Lemma cloud_on_ok_empty w settings file folderPath response v :
  JSON_parse (text response) = Normal v ->
  cloud_empty_envelope v ->
  Cloud.on_ok_status w settings file folderPath response
  = (Normal false,
     [ EConsoleError [ LStr "GLM-OCR response has no data:"; LVal v ];
       ENotice (failed_prefix ++ "No text extracted") None ]).
Proof.
  intros Hparse (members & n & -> & Hcode & Hzero & Htext).
  unfold Cloud.on_ok_status, eval. rewrite Hparse. cbn [bind].
  rewrite (get_member _ _ Hcode). cbn [bind Cloud.strict_neq_zero]. rewrite Hzero.
  cbn [negb].
  destruct Htext as [Hdata | (dm & Hdata & [Hmd | Hmd])].
  - rewrite (get_absent _ _ Hdata). reflexivity.
  - rewrite (get_member _ _ Hdata). cbn [bind].
    rewrite (get_opt_absent _ _ Hmd). reflexivity.
  - rewrite (get_member _ _ Hdata). cbn [bind].
    rewrite (get_opt_member _ _ Hmd). reflexivity.
Qed.

(** ** From the branch to the call *)

Lemma branch_of_200 (on_error on_ok : Response -> M bool) (response : Response) :
  status response = 200%Z -> branch_of on_error on_ok response = on_ok response.
Proof. intro H. unfold branch_of. now rewrite H. Qed.

Lemma branch_of_not_200 (on_error on_ok : Response -> M bool) (response : Response) :
  status response <> 200%Z -> branch_of on_error on_ok response = on_error response.
Proof.
  intro H. unfold branch_of.
  destruct (Z.eqb_spec (status response) 200); [contradiction|reflexivity].
Qed.

Lemma neutral_not_handover (pre : list Event) cr folderPath file :
  forallb neutral pre = true -> ~ In (EProcessConversionResult cr folderPath file) pre.
Proof.
  intros H Hin. rewrite forallb_forall in H. apply H in Hin. discriminate.
Qed.

(** A run that is neutral events followed by a hand-over delivers. *)
Lemma delivers_intro w settings file folderPath (run branch : M bool) pre text label :
  forallb neutral pre = true ->
  run = (fst branch, (pre ++ snd branch)%list) ->
  (exists rest, snd branch
                = EProcessConversionResult (result_of text label file) folderPath file :: rest) ->
  (persists w settings file folderPath (result_of text label file) ->
   fst branch = Normal true) ->
  delivers w settings file folderPath run text label.
Proof.
  intros Hpre -> (rest & Hsnd) Hfst. unfold delivers. cbn [fst snd].
  rewrite outcome_neutral by exact Hpre. rewrite Hsnd. repeat split.
  - apply in_or_app. right. now left.
  - exact Hfst.
Qed.

(** A run that is neutral events followed by a diagnostic fails with
    the kind of the diagnostic and the message of the notice that
    follows it, when nothing after it is a hand-over. *)
Lemma fails_with_first (run branch : M bool) pre label args rest kind :
  forallb neutral pre = true ->
  run = (fst branch, (pre ++ snd branch)%list) ->
  branch = (Normal false, EConsoleError (LStr label :: args) :: rest) ->
  diagnostic_kind label = Some kind ->
  (forall cr folderPath file, ~ In (EProcessConversionResult cr folderPath file) rest) ->
  fails_with run kind (failure_message (first_notice rest)).
Proof.
  intros Hpre -> -> Hkind Hrest. unfold fails_with. cbn [fst snd].
  rewrite outcome_neutral by exact Hpre. cbn [outcome]. rewrite Hkind.
  repeat split.
  intros cr fp f Hin. apply in_app_or in Hin. destruct Hin as [Hin|Hin].
  - eapply neutral_not_handover; eassumption.
  - destruct Hin as [Hin|Hin]; [discriminate|]. eapply Hrest; eassumption.
Qed.

(** A run that is neutral events followed by a diagnostic and its
    notice fails with the kind of the diagnostic. *)
Lemma fails_with_intro (run branch : M bool) pre label args notice kind :
  forallb neutral pre = true ->
  run = (fst branch, (pre ++ snd branch)%list) ->
  branch = (Normal false, [ EConsoleError (LStr label :: args); ENotice notice None ]) ->
  diagnostic_kind label = Some kind ->
  fails_with run kind (failure_message notice).
Proof.
  intros Hpre Hrun Hbranch Hkind.
  change notice with (first_notice [ ENotice notice None ]).
  eapply fails_with_first; eauto.
  intros cr fp f [Hin|[]]; discriminate.
Qed.

End Runs.

(** C1. For every document, when the transport answers with status 200
    and a body that parses as a well-formed success envelope whose text
    field is a non-empty string, [convert] hands over a conversion result
    whose markdown is that string, unchanged, under the label of the
    backend, and returns [true] once the formatter and the optional
    move and delete have completed.  This holds for the local JSON
    converter, the cloud converter and the multipart converter. *)
Theorem convert_success_verbatim {P : Platform} (w : World) (settings : MarkerSettings)
    (file : TFile) (folderPath : string) (response : Response) (content : string) :
  status response = 200%Z ->
  content <> "" ->
  (local_answered w settings file folderPath response ->
   parses_as (text response) (fun v => chat_success_envelope v content) ->
   delivers w settings file folderPath (Local.convert w settings file)
     (JString content) "GLM-OCR (mlx-vlm)")
  /\ (cloud_answered w settings file folderPath response ->
      parses_as (text response) (fun v => cloud_success_envelope v content) ->
      delivers w settings file folderPath (Cloud.convert w settings file)
        (JString content) "GLM-OCR (cloud)")
  /\ (multipart_answered w settings file folderPath response ->
      parses_as (text response) (fun v => chat_success_envelope v content) ->
      delivers w settings file folderPath (Multipart.convert w settings file)
        (JString content) "GLM-OCR (mlx-vlm)").
Proof.
  intros Hstatus Hne. split; [|split].
  - intros Hans (v & Hparse & Henv).
    destruct (local_convert_answered Hans) as (pre & Hpre & _ & Hrun).
    rewrite (branch_of_200 _ _ _ Hstatus) in Hrun.
    destruct (local_on_ok_success w settings file folderPath response Hparse Henv Hne)
      as (Hsnd & Hfst).
    eapply delivers_intro; eauto.
  - intros Hans (v & Hparse & Henv).
    destruct (cloud_convert_answered Hans) as (pre & Hpre & _ & Hrun).
    rewrite (branch_of_200 _ _ _ Hstatus) in Hrun.
    destruct (cloud_on_ok_success w settings file folderPath response Hparse Henv Hne)
      as (Hsnd & Hfst).
    eapply delivers_intro; eauto.
  - intros Hans (v & Hparse & Henv).
    destruct (multipart_convert_answered Hans) as (pre & Hpre & _ & Hrun).
    rewrite (branch_of_200 _ _ _ Hstatus) in Hrun.
    destruct (local_on_ok_success w settings file folderPath response Hparse Henv Hne)
      as (Hsnd & Hfst).
    eapply delivers_intro; eauto.
Qed.

Section HttpError.
Context {P : Platform}.

Lemma http_failure_intro (run : M bool) (on_error : Response -> M bool) pre response
    (envelope : value -> string -> Prop) :
  forallb neutral pre = true ->
  run = (fst (on_error response), (pre ++ snd (on_error response))%list) ->
  (exists label args rest msg,
      on_error response
      = (Normal false, EConsoleError (LStr label :: args) :: rest)
      /\ diagnostic_kind label = Some HttpError
      /\ first_notice rest = failed_prefix ++ msg
      /\ (forall cr folderPath file,
            ~ In (EProcessConversionResult cr folderPath file) rest)) ->
  (forall v msg, JSON_parse (text response) = Normal v -> envelope v msg ->
      on_error response
      = (Normal false,
         [ EConsoleError [ LStr "GLM-OCR error response:"; LVal v ];
           ENotice (failed_prefix ++ msg) None ])) ->
  (forall e, JSON_parse (text response) = Throw e ->
      on_error response
      = (Normal false,
         [ EConsoleError [ LStr ("GLM-OCR error: " ++ http_status response);
                           LStr (text response) ];
           ENotice (failed_prefix ++ raw_message response) None ])) ->
  http_failure run response envelope.
Proof.
  intros Hpre Hrun (label & args & rest & msg & Hshape & Hkind & Hnotice & Hrest) Henv Hraw.
  unfold http_failure. split; [|split; [|split]].
  - exists msg. rewrite <- (failure_message_failed msg), <- Hnotice.
    eapply fails_with_first; eauto.
  - intros v m Hparse Hv. rewrite <- (failure_message_failed m).
    eapply fails_with_intro; eauto; reflexivity.
  - intros e Hparse. rewrite <- (failure_message_failed (raw_message response)).
    eapply fails_with_intro; eauto; reflexivity.
  - apply raw_message_shows_status.
Qed.

End HttpError.

Section ErrorStatus.
Context {P : Platform}.

(** The converters take every status but 200 for an error, the
    statuses 201..299 included. *)
Lemma convert_error_on_other_2xx (w : World) (settings : MarkerSettings)
    (file : TFile) (folderPath : string) (response : Response) :
  status response <> 200%Z ->
  local_answered w settings file folderPath response ->
  exists msg, fails_with (Local.convert w settings file) HttpError msg.
Proof.
  intros Hstatus Hans.
  destruct (local_convert_answered Hans) as (pre & Hpre & _ & Hrun).
  rewrite (branch_of_not_200 _ _ _ Hstatus) in Hrun.
  destruct (local_on_error_shape response)
    as (label & args & rest & msg & Hshape & Hkind & Hnotice & Hrest).
  exists msg. rewrite <- (failure_message_failed msg), <- Hnotice.
  eapply fails_with_first; eauto.
Qed.

(** An error body that parses but carries no message: the message is
    [HTTP <status>]. *)
Lemma local_on_error_no_message response members :
  JSON_parse (text response) = Normal (JObject members) ->
  member "error" members = None ->
  member "message" members = None ->
  Local.on_error_status response
  = (Normal false,
     [ EConsoleError [ LStr "GLM-OCR error response:"; LVal (JObject members) ];
       ENotice (failed_prefix ++ http_status response) None ]).
Proof.
  intros Hparse Herror Hmessage.
  unfold Local.on_error_status, eval. rewrite Hparse. cbn [bind].
  rewrite (get_absent _ _ Herror), (get_absent _ _ Hmessage). reflexivity.
Qed.

Lemma cloud_on_error_no_message response members :
  JSON_parse (text response) = Normal (JObject members) ->
  member "msg" members = None ->
  Cloud.on_error_status response
  = (Normal false,
     [ EConsoleError [ LStr "GLM-OCR error response:"; LVal (JObject members) ];
       ENotice (failed_prefix ++ http_status response) None ]).
Proof.
  intros Hparse Hmsg.
  unfold Cloud.on_error_status, eval. rewrite Hparse. cbn [bind].
  rewrite (get_absent _ _ Hmsg). reflexivity.
Qed.

(** An error body that is the JSON text [null]: reading a property of
    [null] throws inside the [try], so the raw message is shown. *)
Lemma local_on_error_null response :
  JSON_parse (text response) = Normal JNull ->
  Local.on_error_status response
  = (Normal false,
     [ EConsoleError [ LStr ("GLM-OCR error: " ++ http_status response);
                       LStr (text response) ];
       ENotice (failed_prefix ++ raw_message response) None ]).
Proof.
  intro Hparse. unfold Local.on_error_status, eval. rewrite Hparse. reflexivity.
Qed.

End ErrorStatus.

(** C3. For every document, when the transport answers with a status
    outside 200..299 (401, 403 and 500 among them), [convert] returns
    [false] without throwing and fails with an HTTP error.  Its message
    is the message of the backend's error envelope when the body parses
    as one; when the body does not parse it is
    [HTTP <status> - <first 100 characters of the body>], which
    contains the status code.  This holds for the three converters. *)
Theorem convert_http_error {P : Platform} (w : World) (settings : MarkerSettings)
    (file : TFile) (folderPath : string) (response : Response) :
  is_2xx (status response) = false ->
  (local_answered w settings file folderPath response ->
   http_failure (Local.convert w settings file) response chat_error_envelope)
  /\ (cloud_answered w settings file folderPath response ->
      http_failure (Cloud.convert w settings file) response cloud_error_envelope)
  /\ (multipart_answered w settings file folderPath response ->
      http_failure (Multipart.convert w settings file) response chat_error_envelope).
Proof.
  intro Hstatus. apply not_2xx_not_200 in Hstatus. split; [|split]; intro Hans.
  - destruct (local_convert_answered Hans) as (pre & Hpre & _ & Hrun).
    rewrite (branch_of_not_200 _ _ _ Hstatus) in Hrun.
    eapply http_failure_intro; eauto using local_on_error_shape,
      local_on_error_envelope, local_on_error_unparsed.
  - destruct (cloud_convert_answered Hans) as (pre & Hpre & _ & Hrun).
    rewrite (branch_of_not_200 _ _ _ Hstatus) in Hrun.
    eapply http_failure_intro; eauto using cloud_on_error_shape,
      cloud_on_error_envelope, cloud_on_error_unparsed.
  - destruct (multipart_convert_answered Hans) as (pre & Hpre & _ & Hrun).
    rewrite (branch_of_not_200 _ _ _ Hstatus) in Hrun.
    eapply http_failure_intro; eauto using local_on_error_shape,
      local_on_error_envelope, local_on_error_unparsed.
Qed.

(** C4. For the cloud backend, when the transport answers with status
    200 and a body that parses as an envelope whose code is a number
    other than zero, [convert] returns [false] and fails with a backend
    error whose message is the [msg] of the envelope. *)
Theorem cloud_backend_error {P : Platform} (w : World) (settings : MarkerSettings)
    (file : TFile) (folderPath : string) (response : Response) (msg : string) :
  cloud_answered w settings file folderPath response ->
  status response = 200%Z ->
  parses_as (text response) (fun v => cloud_failure_envelope v msg) ->
  fails_with (Cloud.convert w settings file) BackendError msg.
Proof.
  intros Hans Hstatus (v & Hparse & Henv).
  destruct (cloud_convert_answered Hans) as (pre & Hpre & _ & Hrun).
  rewrite (branch_of_200 _ _ _ Hstatus) in Hrun.
  rewrite <- (failure_message_failed msg).
  eapply fails_with_intro; eauto using cloud_on_ok_backend_error; reflexivity.
Qed.

(** C5. For every document, when the transport answers with status 200
    and a body that is not valid JSON, [convert] returns [false] without
    throwing and fails with a malformed-response error.  This holds for
    the three converters. *)
Theorem convert_malformed_response {P : Platform} (w : World) (settings : MarkerSettings)
    (file : TFile) (folderPath : string) (response : Response) (e : Error) :
  status response = 200%Z ->
  JSON_parse (text response) = Throw e ->
  let notice := "Error parsing GLM-OCR response. Check console for details." in
  (local_answered w settings file folderPath response ->
   fails_with (Local.convert w settings file) MalformedResponse notice)
  /\ (cloud_answered w settings file folderPath response ->
      fails_with (Cloud.convert w settings file) MalformedResponse notice)
  /\ (multipart_answered w settings file folderPath response ->
      fails_with (Multipart.convert w settings file) MalformedResponse notice).
Proof.
  intros Hstatus Hparse notice. split; [|split]; intro Hans.
  - destruct (local_convert_answered Hans) as (pre & Hpre & _ & Hrun).
    rewrite (branch_of_200 _ _ _ Hstatus) in Hrun.
    change notice with (failure_message notice).
    eapply fails_with_intro; eauto using local_on_ok_malformed; reflexivity.
  - destruct (cloud_convert_answered Hans) as (pre & Hpre & _ & Hrun).
    rewrite (branch_of_200 _ _ _ Hstatus) in Hrun.
    change notice with (failure_message notice).
    eapply fails_with_intro; eauto using cloud_on_ok_malformed; reflexivity.
  - destruct (multipart_convert_answered Hans) as (pre & Hpre & _ & Hrun).
    rewrite (branch_of_200 _ _ _ Hstatus) in Hrun.
    change notice with (failure_message notice).
    eapply fails_with_intro; eauto using local_on_ok_malformed; reflexivity.
Qed.

(** X21. For the cloud backend, when the transport answers with status
    200 and a body that parses as an envelope with code 0 whose
    [data.md_result] is absent or the empty string, [convert] returns
    [false] and fails with an empty-result error, message
    [No text extracted]; nothing reaches the formatter. *)
Theorem cloud_empty_result {P : Platform} (w : World) (settings : MarkerSettings)
    (file : TFile) (folderPath : string) (response : Response) :
  cloud_answered w settings file folderPath response ->
  status response = 200%Z ->
  parses_as (text response) cloud_empty_envelope ->
  fails_with (Cloud.convert w settings file) EmptyResult "No text extracted".
Proof.
  intros Hans Hstatus (v & Hparse & Henv).
  destruct (cloud_convert_answered Hans) as (pre & Hpre & _ & Hrun).
  rewrite (branch_of_200 _ _ _ Hstatus) in Hrun.
  rewrite <- (failure_message_failed "No text extracted").
  eapply fails_with_intro; eauto using cloud_on_ok_empty; reflexivity.
Qed.

Lemma status_not_200 (resp : Response) :
  (status resp =? 200)%Z = false -> status resp <> 200%Z.
Proof. intros H E. rewrite E in H. discriminate. Qed.

Lemma status_is_200 (resp : Response) :
  (status resp =? 200)%Z = true -> status resp = 200%Z.
Proof. apply Z.eqb_eq. Qed.

(** An event of a known list of events. *)
Ltac in_cases :=
  repeat match goal with
         | H : In _ (_ :: _) |- _ => destruct H as [H|H]
         | H : In _ [] |- _ => destruct H
         | H : @eq Event _ _ |- _ => first [ discriminate H | injection H as <- <- | injection H as <- ]
         | H : @eq RequestUrlParam _ ?x |- _ => is_var x; subst x
         end.

(** Closes the four parts of [probes] on a run whose events are known. *)
Ltac probes_done :=
  unfold probes, probe_200, probe_threw; cbn [fst snd app requests];
  repeat match goal with
         | H : (status _ =? 200)%Z = false |- _ => apply status_not_200 in H
         | H : (status _ =? 200)%Z = true |- _ => apply status_is_200 in H
         end;
  split; [auto | split; [| split]];
  [ split;
    [ intro; try discriminate;
      first [ eexists; split; [now left|]; do 2 eexists;
              split; [now left|]; repeat split; assumption
            | eexists; split; [right; now left|]; do 2 eexists;
              split; [right; now left|]; repeat split; assumption ]
    | intros (? & _ & ? & ? & ? & _ & _ & ?); try reflexivity;
      in_cases; contradiction ]
  | intros (? & ? & ?); try reflexivity; in_cases
  | intros ? ?; in_cases; (split; [reflexivity | cbn; auto]) ].

Section Probes.
Context {P : Platform}.

Lemma local_testConnection_probes w settings silent :
  let endpoint := or_default (glmocrEndpoint settings) "localhost:8080" in
  probes (Local.testConnection w settings silent)
    [ "http://" ++ endpoint ++ "/models"; "http://" ++ endpoint ++ "/" ].
Proof.
  intro endpoint. unfold Local.testConnection. fold endpoint.
  repeat run_step.
  all: probes_done.
Qed.

Lemma multipart_testConnection_probes w settings silent :
  let endpoint := or_default (glmocrEndpoint settings) "localhost:8080" in
  probes (Multipart.testConnection w settings silent)
    [ "http://" ++ endpoint ++ "/models"; "http://" ++ endpoint ++ "/" ].
Proof.
  intro endpoint. unfold Multipart.testConnection. fold endpoint.
  repeat run_step.
  all: probes_done.
Qed.

Lemma cloud_testConnection_probes w settings silent :
  probes (Cloud.testConnection w settings silent) [ Cloud.models_url ].
Proof.
  unfold Cloud.testConnection, Cloud.missing_key.
  destruct (glmocrApiKey settings) as [apiKey|]; repeat run_step.
  all: probes_done.
Qed.

(** In terms of what the transport would answer: the root path is
    asked only after [/models] has answered with another status than
    200, not after the transport has thrown. *)
Lemma local_testConnection_by_answers w settings silent :
  let endpoint := or_default (glmocrEndpoint settings) "localhost:8080" in
  fst (Local.testConnection w settings silent) = Normal true
  <-> local_check_passes w endpoint.
Proof.
  intro endpoint. unfold Local.testConnection, local_check_passes. fold endpoint.
  repeat run_step;
    repeat match goal with
           | H : (status _ =? 200)%Z = false |- _ => apply status_not_200 in H
           | H : (status _ =? 200)%Z = true |- _ => apply status_is_200 in H
           end;
    (split;
     [ intro Hret; try discriminate Hret; eauto 6
     | intros (r & Hr & Hcase); try reflexivity;
       try discriminate Hr; injection Hr as <-;
       destruct Hcase as [H200 | (r' & Hr' & H200)]; try contradiction;
       try discriminate Hr'; injection Hr' as <-; contradiction ]).
Qed.

Lemma multipart_testConnection_by_answers w settings silent :
  let endpoint := or_default (glmocrEndpoint settings) "localhost:8080" in
  fst (Multipart.testConnection w settings silent) = Normal true
  <-> local_check_passes w endpoint.
Proof.
  intro endpoint. unfold Multipart.testConnection, local_check_passes. fold endpoint.
  repeat run_step;
    repeat match goal with
           | H : (status _ =? 200)%Z = false |- _ => apply status_not_200 in H
           | H : (status _ =? 200)%Z = true |- _ => apply status_is_200 in H
           end;
    (split;
     [ intro Hret; try discriminate Hret; eauto 6
     | intros (r & Hr & Hcase); try reflexivity;
       try discriminate Hr; injection Hr as <-;
       destruct Hcase as [H200 | (r' & Hr' & H200)]; try contradiction;
       try discriminate Hr'; injection Hr' as <-; contradiction ]).
Qed.

(** The cloud converter asks nothing without a key, and the models
    path only. *)
Lemma cloud_testConnection_by_answers w settings silent :
  fst (Cloud.testConnection w settings silent) = Normal true
  <-> cloud_check_passes w settings.
Proof.
  unfold Cloud.testConnection, Cloud.missing_key, cloud_check_passes.
  destruct (glmocrApiKey settings) as [apiKey|]; repeat run_step;
    repeat match goal with
           | H : (status _ =? 200)%Z = false |- _ => apply status_not_200 in H
           | H : (status _ =? 200)%Z = true |- _ => apply status_is_200 in H
           | H : negb _ = true |- _ => apply negb_true_iff in H
           | H : negb _ = false |- _ => apply negb_false_iff in H
           end;
    (split;
     [ intro Hret; try discriminate Hret; eauto 8
     | intros (k & r & Hk & Htruthy & Hr & H200); try reflexivity;
       try discriminate Hk; injection Hk as <-;
       try congruence ]).
Qed.

(** A run that returns a boolean, and [true] only when [passes],
    returns [false] when [passes] cannot hold. *)
Lemma false_unless (run : M bool) (passes : Prop) :
  (fst run = Normal true \/ fst run = Normal false) ->
  (fst run = Normal true <-> passes) ->
  ~ passes -> fst run = Normal false.
Proof. intros [Htrue|Hfalse] Hiff Hno; [apply Hiff in Htrue; contradiction | exact Hfalse]. Qed.

End Probes.

(** C6. [testConnection] never throws and returns a boolean.  The
    local converters return [true] if and only if the transport
    answers the request of [/models], and that answer or the answer to
    the request of the root path has status 200; the cloud converter,
    which has the models path only, returns [true] if and only if a key
    is set and the transport answers the request of that path with
    status 200.  All three return [false] when the transport throws on
    a request they send (a refused connection among the causes): on the
    request of the models path, or on that of the root path after
    [/models] has answered with another status.  The requests of a run
    are GETs of these paths, and the run returns [true] exactly when
    one of them was answered with status 200. *)
Theorem testConnection_true_iff_200 {P : Platform} (w : World) (settings : MarkerSettings)
    (silent : option bool) :
  let endpoint := or_default (glmocrEndpoint settings) "localhost:8080" in
  let local_run := Local.testConnection w settings silent in
  let multipart_run := Multipart.testConnection w settings silent in
  let cloud_run := Cloud.testConnection w settings silent in
  (probes local_run [ "http://" ++ endpoint ++ "/models"; "http://" ++ endpoint ++ "/" ]
   /\ probes multipart_run
        [ "http://" ++ endpoint ++ "/models"; "http://" ++ endpoint ++ "/" ]
   /\ probes cloud_run [ Cloud.models_url ])
  /\ ((fst local_run = Normal true <-> local_check_passes w endpoint)
      /\ (fst multipart_run = Normal true <-> local_check_passes w endpoint)
      /\ (fst cloud_run = Normal true <-> cloud_check_passes w settings))
  /\ (transport_throws w (Local.models_request endpoint) ->
      fst local_run = Normal false /\ fst multipart_run = Normal false)
  /\ (forall r, requestUrl w (Local.models_request endpoint) = Normal r ->
                status r <> 200%Z ->
                transport_throws w (Local.root_request endpoint) ->
                fst local_run = Normal false /\ fst multipart_run = Normal false)
  /\ (forall apiKey, glmocrApiKey settings = Some apiKey ->
                     transport_throws w (Cloud.models_request apiKey) ->
                     fst cloud_run = Normal false).
Proof.
  intros endpoint local_run multipart_run cloud_run.
  pose proof (local_testConnection_probes w settings silent) as Hlocal.
  pose proof (multipart_testConnection_probes w settings silent) as Hmultipart.
  pose proof (cloud_testConnection_probes w settings silent) as Hcloud.
  pose proof (local_testConnection_by_answers w settings silent) as Hl.
  pose proof (multipart_testConnection_by_answers w settings silent) as Hm.
  pose proof (cloud_testConnection_by_answers w settings silent) as Hc.
  cbv zeta in Hlocal, Hmultipart, Hl, Hm.
  fold endpoint in Hlocal, Hmultipart, Hl, Hm.
  fold local_run in Hlocal, Hl. fold multipart_run in Hmultipart, Hm.
  fold cloud_run in Hcloud, Hc.
  split; [auto|]. split; [auto|]. split; [|split].
  - intros (e & He).
    split; eapply false_unless; eauto; try apply Hlocal; try apply Hmultipart;
      intros (r & Hr & _); congruence.
  - intros r Hr Hstatus (e & He).
    split; eapply false_unless; eauto; try apply Hlocal; try apply Hmultipart;
      intros (r0 & Hr0 & [H200 | (r' & Hr' & _)]); congruence.
  - intros apiKey Hkey (e & He).
    eapply false_unless; eauto; try apply Hcloud.
    intros (k & r & Hk & _ & Hr & _). congruence.
Qed.

Section Layout.
Context {P : Platform}.

Lemma encode_make_parts (boundary filename : string) (fileData : list byte) :
  Multipart.encode_parts (Multipart.make_parts boundary filename fileData)
  = [ TextEncoder_encode (Multipart.file_part_head boundary filename);
      fileData; TextEncoder_encode CRLF;
      TextEncoder_encode (Multipart.prompt_part boundary);
      TextEncoder_encode (Multipart.closing_part boundary) ].
Proof. reflexivity. Qed.

(** The body [convert] builds for a PDF. *)
Lemma multipart_body_layout (boundary filename : string) (fileData : list byte) :
  exists body,
    Multipart.multipart_body boundary filename fileData = Normal body
    /\ two_part_body boundary filename fileData body.
Proof.
  unfold Multipart.multipart_body. rewrite fill_body_concat.
  eexists. split; [reflexivity|].
  unfold two_part_body, Multipart.make_parts, Multipart.encode_parts.
  cbn [fold_left app List.concat].
  unfold Multipart.file_part_head, Multipart.prompt_part, Multipart.closing_part,
    file_headers, prompt_headers.
  rewrite !app_nil_r.
  assert (Hhead :
    TextEncoder_encode
      ("--" ++ boundary ++ CRLF ++ "Content-Disposition: form-data; name=" ++ dquote
       ++ "file" ++ dquote ++ "; filename=" ++ dquote ++ filename ++ dquote ++ CRLF
       ++ "Content-Type: application/pdf" ++ CRLF ++ CRLF)
    = (TextEncoder_encode ("--" ++ boundary ++ CRLF)
       ++ TextEncoder_encode
            ("Content-Disposition: form-data; name=" ++ dquote ++ "file" ++ dquote
             ++ "; filename=" ++ dquote ++ filename ++ dquote ++ CRLF
             ++ "Content-Type: application/pdf" ++ CRLF ++ CRLF))%list).
  { rewrite <- TextEncoder_encode_app. f_equal.
    rewrite !append_assoc. reflexivity. }
  assert (Hprompt :
    TextEncoder_encode
      ("--" ++ boundary ++ CRLF ++ "Content-Disposition: form-data; name=" ++ dquote
       ++ "prompt" ++ dquote ++ CRLF ++ CRLF ++ Multipart.pdf_prompt ++ CRLF)
    = (TextEncoder_encode ("--" ++ boundary ++ CRLF)
       ++ TextEncoder_encode
            ("Content-Disposition: form-data; name=" ++ dquote ++ "prompt" ++ dquote
             ++ CRLF ++ CRLF)
       ++ TextEncoder_encode Multipart.pdf_prompt ++ TextEncoder_encode CRLF)%list).
  { rewrite <- !TextEncoder_encode_app. f_equal.
    rewrite !append_assoc. reflexivity. }
  rewrite Hhead, Hprompt. split.
  - rewrite <- !app_assoc. reflexivity.
  - rewrite <- !app_assoc.
    rewrite (app_assoc (TextEncoder_encode ("--" ++ boundary ++ CRLF))).
    rewrite skipn_app, skipn_all, Nat.sub_diag, skipn_O. cbn [app].
    rewrite firstn_app, firstn_all, Nat.sub_diag, firstn_O. apply app_nil_r.
Qed.

End Layout.

(** One step of a run whose status branch is kept closed: as
    [run_step], and a branch is split into its result and events. *)
Ltac call_step :=
  first
    [ run_step
    | match goal with
      | |- context [match ?o with Some _ => _ | None => _ end] => destruct o eqn:?
      | |- context [let (_, _) := Local.on_error_status ?r in _] =>
          destruct (Local.on_error_status r) eqn:?
      | |- context [let (_, _) := Local.on_ok_status ?w ?s ?f ?p ?r in _] =>
          destruct (Local.on_ok_status w s f p r) eqn:?
      | |- context [let (_, _) := Cloud.on_error_status ?r in _] =>
          destruct (Cloud.on_error_status r) eqn:?
      | |- context [let (_, _) := Cloud.on_ok_status ?w ?s ?f ?p ?r in _] =>
          destruct (Cloud.on_ok_status w s f p r) eqn:?
      end ].

Section Single.
Context {P : Platform}.

Lemma local_on_error_no_request response :
  requests (snd (Local.on_error_status response)) = [].
Proof. unfold Local.on_error_status. repeat run_step; reflexivity. Qed.

Lemma local_on_ok_no_request w settings file folderPath response :
  requests (snd (Local.on_ok_status w settings file folderPath response)) = [].
Proof. unfold Local.on_ok_status. repeat run_step; reflexivity. Qed.

Lemma cloud_on_error_no_request response :
  requests (snd (Cloud.on_error_status response)) = [].
Proof. unfold Cloud.on_error_status. repeat run_step; reflexivity. Qed.

Lemma cloud_on_ok_no_request w settings file folderPath response :
  requests (snd (Cloud.on_ok_status w settings file folderPath response)) = [].
Proof. unfold Cloud.on_ok_status. repeat run_step; reflexivity. Qed.

(** The requests of a branch that was split into result and events. *)
Ltac branch_requests :=
  repeat match goal with
         | H : Local.on_error_status ?r = (_, ?t) |- _ =>
             let Hn := fresh in
             pose proof (local_on_error_no_request r) as Hn;
             rewrite H in Hn; cbn [snd] in Hn; clear H
         | H : Local.on_ok_status ?w ?s ?f ?p ?r = (_, ?t) |- _ =>
             let Hn := fresh in
             pose proof (local_on_ok_no_request w s f p r) as Hn;
             rewrite H in Hn; cbn [snd] in Hn; clear H
         | H : Cloud.on_error_status ?r = (_, ?t) |- _ =>
             let Hn := fresh in
             pose proof (cloud_on_error_no_request r) as Hn;
             rewrite H in Hn; cbn [snd] in Hn; clear H
         | H : Cloud.on_ok_status ?w ?s ?f ?p ?r = (_, ?t) |- _ =>
             let Hn := fresh in
             pose proof (cloud_on_ok_no_request w s f p r) as Hn;
             rewrite H in Hn; cbn [snd] in Hn; clear H
         end.

Ltac at_most_one_done :=
  branch_requests;
  unfold at_most_one_post; cbn [fst snd app requests];
  repeat rewrite requests_app; cbn [fst snd app requests];
  repeat match goal with H : requests _ = [] |- _ => rewrite H end;
  cbn [List.length app];
  split; [lia | intros ? ?; in_cases; (split; [reflexivity | cbn; auto])].

Lemma local_convert_at_most_one w settings file :
  at_most_one_post (Local.convert w settings file)
    [ "http://" ++ or_default (glmocrEndpoint settings) "localhost:8080"
      ++ "/chat/completions" ].
Proof.
  unfold Local.convert, Local.on_exception.
  repeat call_step.
  all: at_most_one_done.
Qed.

Lemma cloud_convert_at_most_one w settings file :
  at_most_one_post (Cloud.convert w settings file) [ Cloud.layout_parsing_url ].
Proof.
  unfold Cloud.convert, Cloud.on_exception.
  repeat call_step.
  all: at_most_one_done.
Qed.

Lemma multipart_convert_at_most_one w settings file :
  let endpoint := or_default (glmocrEndpoint settings) "localhost:8080" in
  at_most_one_post (Multipart.convert w settings file)
    [ "http://" ++ endpoint ++ "/v1/chat/completions";
      "http://" ++ endpoint ++ "/chat/completions" ].
Proof.
  intro endpoint. unfold Multipart.convert, Local.on_exception. fold endpoint.
  repeat call_step.
  all: at_most_one_done.
Qed.

(** Once the folder is there and the file is read, the request is
    sent, whatever the transport does with it. *)
Lemma local_convert_one_request w settings file folderPath fileData :
  folder_ready w settings file folderPath ->
  readBinary w file = Normal fileData ->
  requests (snd (Local.convert w settings file))
  = [ Local.requestParams settings file fileData ].
Proof.
  intros (Hprep & Hfolder) Hread.
  unfold Local.convert, Local.on_exception, call. rewrite Hprep. cbn [bind].
  rewrite Hfolder, Hread. cbn [negb].
  repeat call_step.
  all: branch_requests; cbn [fst snd app requests]; repeat rewrite requests_app;
    cbn [fst snd app requests];
    repeat match goal with H : requests _ = [] |- _ => rewrite H end; reflexivity.
Qed.

Lemma cloud_convert_one_request w settings file folderPath fileData apiKey :
  folder_ready w settings file folderPath ->
  readBinary w file = Normal fileData ->
  glmocrApiKey settings = Some apiKey ->
  str_truthy apiKey = true ->
  requests (snd (Cloud.convert w settings file))
  = [ Cloud.requestParams apiKey file fileData ].
Proof.
  intros (Hprep & Hfolder) Hread Hkey Htruthy.
  unfold Cloud.convert, Cloud.on_exception, call. rewrite Hprep. cbn [bind].
  rewrite Hfolder, Hkey, Htruthy, Hread. cbn [negb].
  repeat call_step.
  all: branch_requests; cbn [fst snd app requests]; repeat rewrite requests_app;
    cbn [fst snd app requests];
    repeat match goal with H : requests _ = [] |- _ => rewrite H end; reflexivity.
Qed.

Lemma multipart_request_of_builds w settings file fileData :
  exists req, Multipart.request_of w settings file fileData = Normal req.
Proof.
  unfold Multipart.request_of.
  destruct (String.eqb _ _); [|eexists; reflexivity].
  destruct (multipart_body_layout (Multipart.make_boundary (random_base36 w))
              (name file) fileData) as (body & -> & _).
  eexists; reflexivity.
Qed.

Lemma multipart_convert_one_request w settings file folderPath fileData req :
  folder_ready w settings file folderPath ->
  readBinary w file = Normal fileData ->
  Multipart.request_of w settings file fileData = Normal req ->
  requests (snd (Multipart.convert w settings file)) = [ req ].
Proof.
  intros (Hprep & Hfolder) Hread Hreq.
  unfold Multipart.convert, Local.on_exception, call. rewrite Hprep. cbn [bind].
  rewrite Hfolder, Hread. cbn [negb].
  unfold Multipart.request_of in Hreq.
  destruct (String.eqb (file_extension (name file)) "pdf").
  - destruct (Multipart.multipart_body _ _ _) as [body|e]; [|discriminate].
    injection Hreq as <-.
    repeat call_step.
    all: branch_requests; cbn [fst snd app requests]; repeat rewrite requests_app;
      cbn [fst snd app requests];
      repeat match goal with H : requests _ = [] |- _ => rewrite H end; reflexivity.
  - injection Hreq as <-.
    repeat call_step.
    all: branch_requests; cbn [fst snd app requests]; repeat rewrite requests_app;
      cbn [fst snd app requests];
      repeat match goal with H : requests _ = [] |- _ => rewrite H end; reflexivity.
Qed.

(** Once [prepareConversion] has returned, nothing is thrown out of
    [convert]: every later failure ends in [false]. *)
Lemma convert_returns w settings file folderPath :
  prepareConversion w settings file = Normal folderPath ->
  (exists b, fst (Local.convert w settings file) = Normal b)
  /\ (exists b, fst (Cloud.convert w settings file) = Normal b)
  /\ (exists b, fst (Multipart.convert w settings file) = Normal b).
Proof.
  intro Hprep. split; [|split].
  - unfold Local.convert, Local.on_exception, call. rewrite Hprep.
    repeat call_step;
      repeat match goal with
             | H : Local.on_error_status ?r = (?c, _) |- _ =>
                 let Hn := fresh in
                 pose proof (local_on_error_status_returns r) as Hn;
                 rewrite H in Hn; cbn [fst] in Hn; subst c; clear H
             | H : Local.on_ok_status ?w ?s ?f ?p ?r = (?c, _) |- _ =>
                 let Hn := fresh in
                 destruct (local_on_ok_status_returns w s f p r) as [? Hn];
                 rewrite H in Hn; cbn [fst] in Hn; subst c; clear H
             end;
      cbn [try_catch fst]; eexists; reflexivity.
  - unfold Cloud.convert, Cloud.on_exception, call. rewrite Hprep.
    repeat call_step;
      repeat match goal with
             | H : Cloud.on_error_status ?r = (?c, _) |- _ =>
                 let Hn := fresh in
                 pose proof (cloud_on_error_status_returns r) as Hn;
                 rewrite H in Hn; cbn [fst] in Hn; subst c; clear H
             | H : Cloud.on_ok_status ?w ?s ?f ?p ?r = (?c, _) |- _ =>
                 let Hn := fresh in
                 destruct (cloud_on_ok_status_returns w s f p r) as [? Hn];
                 rewrite H in Hn; cbn [fst] in Hn; subst c; clear H
             end;
      cbn [try_catch fst]; eexists; reflexivity.
  - unfold Multipart.convert, Local.on_exception, call. rewrite Hprep.
    repeat call_step;
      repeat match goal with
             | H : Local.on_error_status ?r = (?c, _) |- _ =>
                 let Hn := fresh in
                 pose proof (local_on_error_status_returns r) as Hn;
                 rewrite H in Hn; cbn [fst] in Hn; subst c; clear H
             | H : Local.on_ok_status ?w ?s ?f ?p ?r = (?c, _) |- _ =>
                 let Hn := fresh in
                 destruct (local_on_ok_status_returns w s f p r) as [? Hn];
                 rewrite H in Hn; cbn [fst] in Hn; subst c; clear H
             end;
      cbn [try_catch fst]; eexists; reflexivity.
Qed.

End Single.

(** C9, as amended.  A call to [convert] sends at most one HTTP
    request, a POST to the fixed address of the backend, and never a
    second one, however the first one ends.  It sends exactly that one
    request once [prepareConversion] has given a folder, the file has
    been read and, for the cloud backend, the API key is set. *)
Theorem convert_single_request {P : Platform} (w : World) (settings : MarkerSettings)
    (file : TFile) :
  let endpoint := or_default (glmocrEndpoint settings) "localhost:8080" in
  (at_most_one_post (Local.convert w settings file)
     [ "http://" ++ endpoint ++ "/chat/completions" ]
   /\ at_most_one_post (Cloud.convert w settings file) [ Cloud.layout_parsing_url ]
   /\ at_most_one_post (Multipart.convert w settings file)
        [ "http://" ++ endpoint ++ "/v1/chat/completions";
          "http://" ++ endpoint ++ "/chat/completions" ])
  /\ (forall folderPath fileData,
        folder_ready w settings file folderPath ->
        readBinary w file = Normal fileData ->
        requests (snd (Local.convert w settings file))
        = [ Local.requestParams settings file fileData ]
        /\ (forall apiKey,
              glmocrApiKey settings = Some apiKey -> str_truthy apiKey = true ->
              requests (snd (Cloud.convert w settings file))
              = [ Cloud.requestParams apiKey file fileData ])
        /\ (exists req,
              Multipart.request_of w settings file fileData = Normal req
              /\ requests (snd (Multipart.convert w settings file)) = [ req ])).
Proof.
  intro endpoint. split; [split; [|split]|].
  - apply local_convert_at_most_one.
  - apply cloud_convert_at_most_one.
  - apply multipart_convert_at_most_one.
  - intros folderPath fileData Hready Hread. split; [|split].
    + eapply local_convert_one_request; eauto.
    + intros apiKey Hkey Htruthy. eapply cloud_convert_one_request; eauto.
    + destruct (multipart_request_of_builds w settings file fileData) as (req & Hreq).
      exists req. split; [exact Hreq|].
      eapply multipart_convert_one_request; eauto.
Qed.

(** C8. For the cloud backend, when the API key is missing from the
    settings, [convert] sends no HTTP request and neither reads nor
    changes the vault, and once [prepareConversion] has given a folder
    it returns [false] with a configuration error; [testConnection]
    returns [false] after at most one notice, without any request. *)
Theorem cloud_missing_key {P : Platform} (w : World) (settings : MarkerSettings)
    (file : TFile) (silent : option bool) :
  key_missing settings = true ->
  let run := Cloud.convert w settings file in
  requests (snd run) = []
  /\ existsb touches_vault (snd run) = false
  /\ (forall folderPath, folder_ready w settings file folderPath ->
                         fails_with run ConfigError config_notice)
  /\ Cloud.testConnection w settings silent
     = (Normal false,
        if not_silent silent then [ ENotice "Error: API key not configured" None ] else []).
Proof.
  intros Hkey run. subst run.
  split; [|split; [|split]].
  - unfold Cloud.convert. unfold key_missing in Hkey.
    destruct (glmocrApiKey settings) as [apiKey|]; [rewrite Hkey|];
      repeat call_step; reflexivity.
  - unfold Cloud.convert. unfold key_missing in Hkey.
    destruct (glmocrApiKey settings) as [apiKey|]; [rewrite Hkey|];
      repeat call_step; reflexivity.
  - intros folderPath (Hprep & Hfolder). unfold fails_with, Cloud.convert, call.
    rewrite Hprep. cbn [bind]. rewrite Hfolder. cbn [negb].
    unfold key_missing in Hkey.
    destruct (glmocrApiKey settings) as [apiKey|]; [rewrite Hkey|];
      destruct (String.eqb (file_extension (name file)) "pdf");
      (split; [reflexivity | split; [reflexivity|]]);
      intros cr fp f Hin; cbn -[In] in Hin; in_cases.
  - unfold Cloud.testConnection, Cloud.missing_key. unfold key_missing in Hkey.
    destruct (glmocrApiKey settings) as [apiKey|]; [rewrite Hkey|];
      destruct (not_silent silent); reflexivity.
Qed.

(** C7. For the multipart backend and every PDF of N bytes, the body of
    the one request [convert] sends is a multipart document of two
    parts: a part named [file] whose payload is exactly the N bytes of
    the file, then a part named [prompt] with the fixed prompt; every
    part starts with the same delimiter, made of the random boundary
    announced in the Content-Type header, and the body ends with the
    closing delimiter. *)
Theorem multipart_request_layout {P : Platform} (w : World) (settings : MarkerSettings)
    (file : TFile) (folderPath : string) (fileData : list byte) :
  String.eqb (file_extension (name file)) "pdf" = true ->
  folder_ready w settings file folderPath ->
  readBinary w file = Normal fileData ->
  let boundary := Multipart.make_boundary (random_base36 w) in
  let endpoint := or_default (glmocrEndpoint settings) "localhost:8080" in
  exists body,
    requests (snd (Multipart.convert w settings file))
    = [ {| url := "http://" ++ endpoint ++ "/v1/chat/completions";
           method := POST;
           throw := false;
           headers := [ ("Content-Type", "multipart/form-data; boundary=" ++ boundary) ];
           body := Some (BodyBytes body) |} ]
    /\ two_part_body boundary (name file) fileData body
    /\ List.length body
       = List.length fileData
         + List.length (TextEncoder_encode (Multipart.file_part_head boundary (name file)))
         + List.length (TextEncoder_encode (Multipart.prompt_part boundary))
         + List.length (TextEncoder_encode (Multipart.closing_part boundary)) + 2.
Proof.
  intros Hpdf Hready Hread boundary endpoint.
  destruct (multipart_body_layout boundary (name file) fileData) as (body & Hbody & Hlayout).
  exists body. split; [|split].
  - eapply multipart_convert_one_request; eauto.
    unfold Multipart.request_of. rewrite Hpdf. fold boundary. rewrite Hbody. reflexivity.
  - exact Hlayout.
  - clear Hlayout. unfold Multipart.multipart_body in Hbody.
    rewrite fill_body_concat, encode_make_parts in Hbody.
    assert (Hb : body
                 = List.concat
                     [ TextEncoder_encode (Multipart.file_part_head boundary (name file));
                       fileData; TextEncoder_encode CRLF;
                       TextEncoder_encode (Multipart.prompt_part boundary);
                       TextEncoder_encode (Multipart.closing_part boundary) ])
      by congruence.
    rewrite Hb. cbn [List.concat]. rewrite !length_app.
    change (List.length (TextEncoder_encode CRLF)) with 2. cbn [List.length]. lia.
Qed.


(* ------------------------------------------------------------------ *)
(** * The properties at work on sample calls *)

(** The scenario of C1: [scan.png], local JSON backend, status 200 and
    the body [{"choices":[{"message":{"content":"Hello World"}}]}]. *)
Lemma convert_success_verbatim_witness :
  delivers Demo.hello_world Demo.local_settings Demo.scan_png "notes/"
    (Local.convert Demo.hello_world Demo.local_settings Demo.scan_png)
    (JString "Hello World") "GLM-OCR (mlx-vlm)"
  /\ fst (Local.convert Demo.hello_world Demo.local_settings Demo.scan_png) = Normal true
  /\ delivers Demo.cloud_ok_world Demo.cloud_settings Demo.scan_png "notes/"
       (Cloud.convert Demo.cloud_ok_world Demo.cloud_settings Demo.scan_png)
       (JString "# Title") "GLM-OCR (cloud)".
Proof.
  assert (Hlocal :
    delivers Demo.hello_world Demo.local_settings Demo.scan_png "notes/"
      (Local.convert Demo.hello_world Demo.local_settings Demo.scan_png)
      (JString "Hello World") "GLM-OCR (mlx-vlm)").
  { refine (proj1 (@convert_success_verbatim Ref.platform Demo.hello_world Demo.local_settings
                     Demo.scan_png "notes/" {| status := 200; text := Demo.hello_body |}
                     "Hello World" eq_refl _) _ _).
    - discriminate.
    - split; [split; reflexivity|]. exists Demo.file_bytes. split; reflexivity.
    - eexists. split; [vm_compute; reflexivity|].
      do 4 eexists. repeat split; reflexivity. }
  split; [exact Hlocal | split].
  - destruct Hlocal as (_ & _ & Hret). apply Hret. repeat split; reflexivity.
  - refine (proj1 (proj2 (@convert_success_verbatim Ref.platform Demo.cloud_ok_world Demo.cloud_settings
                     Demo.scan_png "notes/" {| status := 200; text := Demo.cloud_body |}
                     "# Title" eq_refl _)) _ _).
    + discriminate.
    + split; [split; reflexivity|]. exists "sk-demo", Demo.file_bytes.
      repeat split; reflexivity.
    + eexists. split; [vm_compute; reflexivity|].
      do 3 eexists. repeat split; reflexivity.
Defined.

(** The scenario of C3: status 500 with the body [Internal Server Error],
    and status 401 with an error envelope. *)
Lemma convert_http_error_witness :
  fails_with (Local.convert Demo.server_error_world Demo.local_settings Demo.scan_png)
    HttpError "HTTP 500 - Internal Server Error"
  /\ Contains "500" "HTTP 500 - Internal Server Error"
  /\ fails_with (Local.convert Demo.unauthorized_world Demo.local_settings Demo.scan_png)
       HttpError "model not loaded".
Proof.
  assert (H500 :
    http_failure (Local.convert Demo.server_error_world Demo.local_settings Demo.scan_png)
      {| status := 500; text := "Internal Server Error" |} chat_error_envelope).
  { refine (proj1 (@convert_http_error Ref.platform Demo.server_error_world
                     Demo.local_settings Demo.scan_png "notes/"
                     {| status := 500; text := "Internal Server Error" |} eq_refl) _).
    split; [split; reflexivity|]. exists Demo.file_bytes. split; reflexivity. }
  assert (H401 :
    http_failure (Local.convert Demo.unauthorized_world Demo.local_settings Demo.scan_png)
      {| status := 401; text := Demo.error_body |} chat_error_envelope).
  { refine (proj1 (@convert_http_error Ref.platform Demo.unauthorized_world
                     Demo.local_settings Demo.scan_png "notes/"
                     {| status := 401; text := Demo.error_body |} eq_refl) _).
    split; [split; reflexivity|]. exists Demo.file_bytes. split; reflexivity. }
  destruct H500 as (_ & _ & Hraw & Hshows).
  destruct H401 as (_ & Henv & _ & _).
  split; [|split].
  - exact (Hraw Ref.SyntaxError eq_refl).
  - exact Hshows.
  - refine (Henv _ "model not loaded" _ _).
    + vm_compute. reflexivity.
    + eexists. split; [reflexivity|]. split; [discriminate|].
      left. eexists. split; reflexivity.
Defined.

(** The scenario of C4: the cloud backend answers 200 with
    [{"code":1,"msg":"quota exceeded"}]. *)
Lemma cloud_backend_error_witness :
  fails_with (Cloud.convert Demo.quota_world Demo.cloud_settings Demo.scan_png)
    BackendError "quota exceeded".
Proof.
  refine (@cloud_backend_error Ref.platform Demo.quota_world Demo.cloud_settings
            Demo.scan_png "notes/" {| status := 200; text := Demo.quota_body |}
            "quota exceeded" _ eq_refl _).
  - split; [split; reflexivity|]. exists "sk-demo", Demo.file_bytes.
    repeat split; reflexivity.
  - eexists. split; [vm_compute; reflexivity|].
    do 2 eexists. repeat split; reflexivity.
Defined.

(** C5 on a gateway page sent with status 200. *)
Lemma convert_malformed_response_witness :
  fails_with (Local.convert Demo.html_world Demo.local_settings Demo.scan_png)
    MalformedResponse "Error parsing GLM-OCR response. Check console for details."
  /\ fails_with (Multipart.convert Demo.html_world Demo.local_settings Demo.report_pdf)
       MalformedResponse "Error parsing GLM-OCR response. Check console for details.".
Proof.
  split.
  - refine (proj1 (@convert_malformed_response Ref.platform Demo.html_world
                     Demo.local_settings Demo.scan_png "notes/"
                     {| status := 200; text := "<html>Bad gateway</html>" |}
                     Ref.SyntaxError eq_refl eq_refl) _).
    split; [split; reflexivity|]. exists Demo.file_bytes. split; reflexivity.
  - refine (proj2 (proj2 (@convert_malformed_response Ref.platform Demo.html_world
                     Demo.local_settings Demo.report_pdf "notes/"
                     {| status := 200; text := "<html>Bad gateway</html>" |}
                     Ref.SyntaxError eq_refl eq_refl)) _).
    split; [split; reflexivity|]. exists Demo.file_bytes. eexists.
    split; [reflexivity|]. split; [vm_compute; reflexivity | reflexivity].
Defined.

(** X21 on a cloud envelope with code 0 and an empty [md_result]. *)
Lemma cloud_empty_result_witness :
  fails_with (Cloud.convert Demo.cloud_empty_world Demo.cloud_settings Demo.scan_png)
    EmptyResult "No text extracted".
Proof.
  refine (@cloud_empty_result Ref.platform Demo.cloud_empty_world Demo.cloud_settings
            Demo.scan_png "notes/" {| status := 200; text := Demo.cloud_empty_body |}
            _ eq_refl _).
  - split; [split; reflexivity|]. exists "sk-demo", Demo.file_bytes.
    repeat split; reflexivity.
  - eexists. split; [vm_compute; reflexivity|].
    do 2 eexists. split; [reflexivity|]. split; [reflexivity|]. split; [reflexivity|].
    right. eexists. split; [reflexivity|]. right. reflexivity.
Defined.

(** C2.  The local converters do not do what the claim says.  On
    status 200 and the body [{}], which parses and holds no text, the
    local JSON converter and the multipart converter hand the literal
    [No text extracted] to the formatter as the markdown and return
    [true]: a success, where the claim asks for a failure of the kind
    EmptyResult.  The cloud converter, given its envelope with code 0
    and an empty text, returns [false] with that failure and hands
    nothing over. *)
Theorem local_empty_text_handed_over :
  JSON_parse "{}" = Normal (JObject [])
  /\ (fst (Local.convert Demo.empty_object_world Demo.local_settings Demo.scan_png)
      = Normal true
      /\ outcome (snd (Local.convert Demo.empty_object_world Demo.local_settings
                         Demo.scan_png))
         = Some (Success (JString "No text extracted") "GLM-OCR (mlx-vlm)")
      /\ In (EProcessConversionResult
               (result_of (JString "No text extracted") "GLM-OCR (mlx-vlm)" Demo.scan_png)
               "notes/" Demo.scan_png)
            (snd (Local.convert Demo.empty_object_world Demo.local_settings Demo.scan_png))
      /\ ~ fails_with (Local.convert Demo.empty_object_world Demo.local_settings
                         Demo.scan_png)
             EmptyResult "No text extracted")
  /\ (fst (Multipart.convert Demo.empty_object_world Demo.local_settings Demo.report_pdf)
      = Normal true
      /\ outcome (snd (Multipart.convert Demo.empty_object_world Demo.local_settings
                         Demo.report_pdf))
         = Some (Success (JString "No text extracted") "GLM-OCR (mlx-vlm)")
      /\ ~ fails_with (Multipart.convert Demo.empty_object_world Demo.local_settings
                         Demo.report_pdf)
             EmptyResult "No text extracted")
  /\ (fst (Cloud.convert Demo.cloud_empty_world Demo.cloud_settings Demo.scan_png)
      = Normal false
      /\ outcome (snd (Cloud.convert Demo.cloud_empty_world Demo.cloud_settings
                         Demo.scan_png))
         = Some (Failure EmptyResult "No text extracted")).
Proof.
  split; [vm_compute; reflexivity|]. split; [|split].
  - assert (E : fst (Local.convert Demo.empty_object_world Demo.local_settings
                       Demo.scan_png) = Normal true) by reflexivity.
    split; [exact E|]. split; [reflexivity|]. split.
    + assert (T : exists pre rest,
                 snd (Local.convert Demo.empty_object_world Demo.local_settings
                        Demo.scan_png)
                 = (pre ++ EProcessConversionResult
                             (result_of (JString "No text extracted") "GLM-OCR (mlx-vlm)"
                                Demo.scan_png) "notes/" Demo.scan_png :: rest)%list).
      { do 2 eexists.
        instantiate (2 := [_; _; _; _]). reflexivity. }
      destruct T as (pre & rest & ->). apply in_or_app. right. now left.
    + intros (H & _). rewrite E in H. discriminate H.
  - assert (E : fst (Multipart.convert Demo.empty_object_world Demo.local_settings
                       Demo.report_pdf) = Normal true) by reflexivity.
    split; [exact E|]. split; [reflexivity|].
    intros (H & _). rewrite E in H. discriminate H.
  - split; reflexivity.
Qed.

(** C7 on [report.pdf], eight bytes long. *)
Lemma multipart_request_layout_witness :
  exists body,
    requests (snd (Multipart.convert Demo.hello_world Demo.local_settings Demo.report_pdf))
    = [ {| url := "http://localhost:8080/v1/chat/completions";
           method := POST;
           throw := false;
           headers := [ ("Content-Type",
                         "multipart/form-data; boundary=----WebKitFormBoundary4fzyo82mvyr") ];
           body := Some (BodyBytes body) |} ]
    /\ two_part_body "----WebKitFormBoundary4fzyo82mvyr" "report.pdf" Demo.file_bytes body
    /\ List.length body = 379.
Proof.
  destruct (@multipart_request_layout Ref.platform Demo.hello_world Demo.local_settings
              Demo.report_pdf "notes/" Demo.file_bytes eq_refl
              (conj eq_refl eq_refl) eq_refl)
    as (body & Hreq & Hlayout & Hlen).
  exists body. split; [exact Hreq | split; [exact Hlayout | exact Hlen]].
Defined.

(** C8 on settings without an API key. *)
Lemma cloud_missing_key_witness :
  requests (snd (Cloud.convert Demo.cloud_ok_world Demo.no_key_settings Demo.scan_png)) = []
  /\ existsb touches_vault
       (snd (Cloud.convert Demo.cloud_ok_world Demo.no_key_settings Demo.scan_png)) = false
  /\ fails_with (Cloud.convert Demo.cloud_ok_world Demo.no_key_settings Demo.scan_png)
       ConfigError config_notice
  /\ Cloud.testConnection Demo.cloud_ok_world Demo.no_key_settings (Some true)
     = (Normal false, []).
Proof.
  destruct (@cloud_missing_key Ref.platform Demo.cloud_ok_world Demo.no_key_settings
              Demo.scan_png (Some true) eq_refl)
    as (Hreq & Hvault & Hfail & Htest).
  split; [exact Hreq | split; [exact Hvault | split; [|exact Htest]]].
  apply (Hfail "notes/"). split; reflexivity.
Defined.

(** C9 as stated fails: without an API key the cloud converter sends no
    request at all, where the claim has exactly one POST. *)
Lemma convert_without_key_sends_nothing :
  key_missing Demo.no_key_settings = true
  /\ requests (snd (Cloud.convert Demo.cloud_ok_world Demo.no_key_settings Demo.scan_png))
     = []
  /\ List.length
       (requests (snd (Cloud.convert Demo.cloud_ok_world Demo.no_key_settings
                         Demo.scan_png))) <> 1.
Proof.
  assert (E : requests (snd (Cloud.convert Demo.cloud_ok_world Demo.no_key_settings
                                 Demo.scan_png)) = []) by reflexivity.
  split; [reflexivity|]. split; [exact E|].
  rewrite E. discriminate.
Qed.

(** The amended C9 on sample calls: one POST each, also when the
    connection is refused. *)
Lemma convert_single_request_witness :
  requests (snd (Local.convert Demo.refused_world Demo.local_settings Demo.scan_png))
  = [ Local.requestParams Demo.local_settings Demo.scan_png Demo.file_bytes ]
  /\ requests (snd (Cloud.convert Demo.refused_world Demo.cloud_settings Demo.scan_png))
     = [ Cloud.requestParams "sk-demo" Demo.scan_png Demo.file_bytes ]
  /\ at_most_one_post
       (Local.convert Demo.refused_world Demo.local_settings Demo.scan_png)
       [ "http://localhost:8080/chat/completions" ].
Proof.
  destruct (@convert_single_request Ref.platform Demo.refused_world Demo.local_settings
              Demo.scan_png) as ((Hmost & _ & _) & Hlocal).
  destruct (Hlocal "notes/" Demo.file_bytes (conj eq_refl eq_refl) eq_refl)
    as (Hone & _ & _).
  destruct (@convert_single_request Ref.platform Demo.refused_world Demo.cloud_settings
              Demo.scan_png) as (_ & Hcloud).
  destruct (Hcloud "notes/" Demo.file_bytes (conj eq_refl eq_refl) eq_refl)
    as (_ & Hkey & _).
  split; [exact Hone | split; [exact (Hkey "sk-demo" eq_refl eq_refl) | exact Hmost]].
Defined.

(** C6 on sample hosts: the root path answers 200 after [/models] says
    404; nothing answers 200; the connection is refused. *)
Example testConnection_samples :
  fst (Local.testConnection (Demo.by_path 404 200) Demo.local_settings None) = Normal true
  /\ fst (Local.testConnection (Demo.by_path 404 503) Demo.local_settings None)
     = Normal false
  /\ fst (Local.testConnection Demo.refused_world Demo.local_settings None) = Normal false
  /\ fst (Cloud.testConnection Demo.refused_world Demo.cloud_settings None) = Normal false
  /\ fst (Cloud.testConnection Demo.hello_world Demo.cloud_settings None) = Normal true.
Proof. repeat split; reflexivity. Qed.

(** C6 on sample hosts: the root path answers 200 after [/models] has
    said 404; the connection is refused. *)
Lemma testConnection_true_iff_200_witness :
  fst (Local.testConnection (Demo.by_path 404 200) Demo.local_settings None) = Normal true
  /\ fst (Multipart.testConnection Demo.refused_world Demo.local_settings None)
     = Normal false
  /\ fst (Cloud.testConnection Demo.refused_world Demo.cloud_settings None) = Normal false.
Proof.
  split; [|split].
  - apply (proj1 (proj2 (@testConnection_true_iff_200 Ref.platform (Demo.by_path 404 200)
                           Demo.local_settings None))).
    exists {| status := 404; text := "" |}. split; [reflexivity|].
    right. exists {| status := 200; text := "OK" |}. split; reflexivity.
  - apply (proj2 (proj2 (@testConnection_true_iff_200 Ref.platform Demo.refused_world
                           Demo.local_settings None))).
    exists Demo.refused. reflexivity.
  - apply (proj2 (proj2 (proj2 (proj2 (@testConnection_true_iff_200 Ref.platform
                                         Demo.refused_world Demo.cloud_settings None))))
             "sk-demo" eq_refl).
    exists Demo.refused. reflexivity.
Defined.

(* ------------------------------------------------------------------ *)
(** * Further properties of the helpers *)

Lemma lower_char_dot (c : ascii) :
  Ascii.eqb (lower_char c) "."%char = Ascii.eqb c "."%char.
Proof. destruct c as [[] [] [] [] [] [] [] []]; reflexivity. Qed.

Lemma lower_char_idempotent (c : ascii) : lower_char (lower_char c) = lower_char c.
Proof. destruct c as [[] [] [] [] [] [] [] []]; reflexivity. Qed.

Lemma toLowerCase_idempotent (s : string) : toLowerCase (toLowerCase s) = toLowerCase s.
Proof.
  induction s as [|c s IH]; simpl; [reflexivity|].
  now rewrite lower_char_idempotent, IH.
Qed.

Lemma toLowerCase_app (a b : string) :
  toLowerCase (a ++ b) = toLowerCase a ++ toLowerCase b.
Proof. induction a as [|c a IH]; simpl; congruence. Qed.

Lemma dot_free_toLowerCase (s : string) : dot_free (toLowerCase s) = dot_free s.
Proof.
  induction s as [|c s IH]; simpl; [reflexivity|].
  now rewrite lower_char_dot, IH.
Qed.

Lemma split_dot_pop_dot_free (s acc : string) :
  dot_free s = true -> split_dot_pop s acc = acc ++ s.
Proof.
  revert acc. induction s as [|c s IH]; intros acc H; simpl in *.
  - clear. induction acc; simpl; congruence.
  - apply andb_true_iff in H. destruct H as [Hc Hs].
    apply negb_true_iff in Hc. rewrite Hc, (IH _ Hs), append_assoc. reflexivity.
Qed.

Lemma split_dot_pop_after_dot (a e acc : string) :
  split_dot_pop (a ++ String "."%char e) acc = split_dot_pop e "".
Proof.
  revert acc. induction a as [|c a IH]; intro acc; simpl.
  - reflexivity.
  - destruct (Ascii.eqb c "."%char); apply IH.
Qed.

(** Only the text after the last dot counts, in lower case. *)
Lemma file_extension_after_dot (stem e : string) :
  dot_free e = true -> file_extension (stem ++ "." ++ e) = toLowerCase e.
Proof.
  intro H. unfold file_extension. rewrite toLowerCase_app.
  change (toLowerCase ("." ++ e)) with (String "."%char (toLowerCase e)).
  rewrite split_dot_pop_after_dot.
  apply split_dot_pop_dot_free. now rewrite dot_free_toLowerCase.
Qed.

Lemma file_extension_dot_free (s : string) :
  dot_free s = true -> file_extension s = toLowerCase s.
Proof.
  intro H. unfold file_extension.
  apply split_dot_pop_dot_free. now rewrite dot_free_toLowerCase.
Qed.

(** X1. The MIME type of a file depends on nothing but the text after
    the last dot of its name: folders and stem are ignored, and a name
    without a dot is taken as its own extension. *)
Theorem getMimeType_by_last_segment (stem e : string) :
  dot_free e = true ->
  getMimeType (stem ++ "." ++ e) = getMimeType e.
Proof.
  intro H. unfold getMimeType.
  now rewrite (file_extension_after_dot stem e H), (file_extension_dot_free e H).
Qed.

Lemma getMimeType_by_last_segment_witness :
  getMimeType ("inbox/My.Scan" ++ "." ++ "PNG") = getMimeType "PNG"
  /\ getMimeType "PNG" = "image/png".
Proof.
  split; [|reflexivity].
  apply (getMimeType_by_last_segment "inbox/My.Scan" "PNG"). reflexivity.
Defined.

Lemma file_extension_toLowerCase (filename : string) :
  file_extension (toLowerCase filename) = file_extension filename.
Proof. unfold file_extension. now rewrite toLowerCase_idempotent. Qed.

(** X2. The letter case of a file name never changes its MIME type:
    the name and its lower-case form get the same type. *)
Theorem getMimeType_ignores_case (filename : string) :
  getMimeType (toLowerCase filename) = getMimeType filename.
Proof.
  unfold getMimeType. now rewrite file_extension_toLowerCase.
Qed.

(* ------------------------------------------------------------------ *)
(** * Further properties of the base64 text *)

Lemma b64_encode_length (l : list N) :
  String.length (b64_encode l) = 4 * ((List.length l + 2) / 3).
Proof.
  induction l as [ | a | a b | a b c l IH ] using list_ind_by3; try reflexivity.
  cbn [b64_encode String.length List.length]. rewrite IH.
  replace (S (S (S (List.length l))) + 2) with (List.length l + 2 + 1 * 3) by lia.
  rewrite Nat.div_add by discriminate. lia.
Qed.

Lemma binary_codes_length (buffer : list byte) :
  List.length
    (map N_of_ascii
       (list_ascii_of_string
          (fold_left (fun binary b => binary ++ fromCharCode b) buffer "")))
  = List.length buffer.
Proof.
  rewrite binary_loop. cbn [append]. rewrite codes_of_binary. apply length_map.
Qed.

(** X3. The base64 text of a buffer has exactly four characters for
    every group of up to three bytes, that is four times the number of
    bytes divided by three and rounded up: the empty buffer gives the
    empty text. *)
Theorem arrayBufferToBase64_length (buffer : list byte) :
  String.length (arrayBufferToBase64 buffer) = 4 * ((List.length buffer + 2) / 3).
Proof.
  unfold arrayBufferToBase64, btoa.
  now rewrite b64_encode_length, binary_codes_length.
Qed.

Lemma b64_code_unit_char (s : N) : (s < 64)%N -> b64_code_unit (b64_char s) = true.
Proof.
  intro H. unfold b64_code_unit. now rewrite (b64_index_char H).
Qed.

Lemma b64_encode_code_units (bs : list byte) :
  all_chars b64_code_unit (b64_encode (map Byte.to_N bs)) = true.
Proof.
  induction bs as [ | a | a b | a b c bs IH ] using list_ind_by3.
  - reflexivity.
  - pose proof (Byte.to_N_bounded a) as Ha.
    destruct (regroup1 Ha) as (H1 & _).
    cbn [map b64_encode all_chars].
    rewrite (b64_code_unit_char H1), (b64_code_unit_char (mod64_lt _)). reflexivity.
  - pose proof (Byte.to_N_bounded a) as Ha. pose proof (Byte.to_N_bounded b) as Hb.
    destruct (regroup2 Ha Hb) as (H1 & _).
    cbn [map b64_encode all_chars].
    rewrite (b64_code_unit_char H1), !(b64_code_unit_char (mod64_lt _)). reflexivity.
  - pose proof (Byte.to_N_bounded a) as Ha. pose proof (Byte.to_N_bounded b) as Hb.
    pose proof (Byte.to_N_bounded c) as Hc.
    destruct (regroup3 Ha Hb Hc) as (H1 & _).
    cbn [map b64_encode all_chars].
    rewrite (b64_code_unit_char H1), !(b64_code_unit_char (mod64_lt _)), IH. reflexivity.
Qed.

(** X4. The base64 text of every buffer is made of the 64 characters of
    the standard alphabet and the padding sign only, so it can be
    spliced into the data URI and the JSON text as it is. *)
Theorem arrayBufferToBase64_alphabet (buffer : list byte) :
  all_chars b64_code_unit (arrayBufferToBase64 buffer) = true.
Proof.
  unfold arrayBufferToBase64, btoa.
  rewrite binary_loop. cbn [append]. rewrite codes_of_binary.
  apply b64_encode_code_units.
Qed.

(* ------------------------------------------------------------------ *)
(** * What the failure texts show of a body *)

Lemma substring_to_length (n : nat) (s : string) :
  String.length (substring_to n s) = Nat.min n (String.length s).
Proof.
  unfold substring_to. revert s. induction n as [|n IH]; intros [|c s]; simpl; auto.
Qed.

Lemma substring_to_prefix (n : nat) (s : string) :
  exists rest, s = substring_to n s ++ rest.
Proof.
  unfold substring_to. revert s. induction n as [|n IH]; intros [|c s]; simpl.
  - exists "". reflexivity.
  - exists (String c s). reflexivity.
  - exists "". reflexivity.
  - destruct (IH s) as (rest & Hrest). exists rest. now rewrite <- Hrest.
Qed.

Lemma substring_to_all (n : nat) (s : string) :
  String.length s <= n -> substring_to n s = s.
Proof.
  unfold substring_to. revert s. induction n as [|n IH]; intros [|c s] H; simpl in *;
    try reflexivity; try lia.
  rewrite IH by lia. reflexivity.
Qed.

Lemma append_length (a b : string) :
  String.length (a ++ b) = String.length a + String.length b.
Proof. induction a as [|c a IH]; simpl; auto. Qed.

Section Truncation.
Context {P : Platform}.

(** X15. When the body of an error response does not parse, the notice
    shows the status and at most the first 100 characters of the body
    (or [No response details] for an empty body); the console line for
    a status-200 body that does not parse keeps at most its first 500
    characters, followed by three dots when something was cut. *)
Theorem failure_texts_truncated (response : Response) (e : Error) :
  JSON_parse (text response) = Throw e ->
  (exists shown,
      notices (snd (Local.on_error_status response))
      = [ "GLM-OCR conversion failed: " ++ http_status response ++ " - " ++ shown ]
      /\ notices (snd (Cloud.on_error_status response))
         = [ "GLM-OCR conversion failed: " ++ http_status response ++ " - " ++ shown ]
      /\ (text response = "" -> shown = "No response details")
      /\ (text response <> "" ->
          String.length shown <= 100 /\ exists rest, text response = shown ++ rest))
  /\ String.length (text_excerpt response) <= 503
  /\ (String.length (text response) <= 500 -> text_excerpt response = text response)
  /\ (500 < String.length (text response) ->
      exists kept rest,
        text response = kept ++ rest /\ String.length kept = 500
        /\ text_excerpt response = kept ++ "...").
Proof.
  intro Hparse. split; [|split; [|split]].
  - exists (if str_truthy (text response) then substring_to 100 (text response)
            else "No response details").
    rewrite (local_on_error_unparsed _ Hparse), (cloud_on_error_unparsed _ Hparse).
    repeat split.
    + intros ->. reflexivity.
    + destruct (text response) as [|c s]; [congruence|]. cbn [str_truthy].
      rewrite substring_to_length. apply Nat.le_min_l.
    + destruct (text response) as [|c s]; [congruence|]. cbn [str_truthy].
      apply substring_to_prefix.
  - unfold text_excerpt. rewrite append_length, substring_to_length.
    destruct (Nat.ltb 500 _); cbn [String.length]; lia.
  - intro H. unfold text_excerpt.
    destruct (Nat.ltb_spec 500 (String.length (text response))) as [Hlt|Hge]; [lia|].
    rewrite (substring_to_all _ H). clear. induction (text response); simpl; congruence.
  - intro H. unfold text_excerpt.
    destruct (Nat.ltb_spec 500 (String.length (text response))) as [Hlt|Hge]; [|lia].
    destruct (substring_to_prefix 500 (text response)) as (rest & Hrest).
    exists (substring_to 500 (text response)), rest.
    repeat split; [exact Hrest|].
    rewrite substring_to_length. lia.
Qed.

End Truncation.

Lemma failure_texts_truncated_witness :
  notices (snd (Local.on_error_status
                  {| status := 500; text := "Internal Server Error" |}))
  = [ "GLM-OCR conversion failed: HTTP 500 - Internal Server Error" ]
  /\ text_excerpt {| status := 200; text := "<html>" |} = "<html>".
Proof.
  destruct (@failure_texts_truncated Ref.platform
              {| status := 500; text := "Internal Server Error" |} Ref.SyntaxError eq_refl)
    as ((shown & Hlocal & _ & _ & Hshown) & _).
  destruct (@failure_texts_truncated Ref.platform
              {| status := 200; text := "<html>" |} Ref.SyntaxError eq_refl)
    as (_ & _ & Hall & _).
  split.
  - reflexivity.
  - apply Hall. cbn. lia.
Defined.

(* ------------------------------------------------------------------ *)
(** * The loops that assemble a body *)

Section Assembling.
Context {P : Platform}.

Lemma encode_parts_map (parts : list Multipart.Part) :
  Multipart.encode_parts parts = map part_bytes parts.
Proof.
  unfold Multipart.encode_parts.
  assert (H : forall acc,
             fold_left
               (fun bodyParts part =>
                  match part with
                  | Multipart.PartText s => (bodyParts ++ [TextEncoder_encode s])%list
                  | Multipart.PartBytes b => (bodyParts ++ [b])%list
                  end) parts acc
             = (acc ++ map part_bytes parts)%list).
  { induction parts as [|p ps IH]; intro acc; simpl.
    - now rewrite app_nil_r.
    - rewrite IH. destruct p; simpl; now rewrite <- app_assoc. }
  apply (H []).
Qed.

(** X17. Whatever the parts, strings and byte arrays in any number and
    order, the three loops of the multipart branch build exactly their
    bytes one after the other: the total length is the sum of the
    lengths and no [set] goes out of range. *)
Theorem multipart_loops_concatenate (parts : list Multipart.Part) :
  Multipart.fill_body (Multipart.encode_parts parts) = Normal (flat_map part_bytes parts)
  /\ Multipart.total_length (Multipart.encode_parts parts)
     = List.length (flat_map part_bytes parts).
Proof.
  rewrite fill_body_concat, total_length_concat, encode_parts_map, flat_map_concat_map.
  split; reflexivity.
Qed.

End Assembling.

(* ------------------------------------------------------------------ *)
(** * Further properties of [convert] *)

Section EarlyExits.
Context {P : Platform}.

(** X5. When [prepareConversion] gives no folder, [convert] returns
    [false] at once: no notice, no read, no request.  When it throws,
    the exception leaves [convert], since the call stands before the
    [try]. *)
Theorem convert_without_folder (w : World) (settings : MarkerSettings) (file : TFile) :
  (forall r, prepareConversion w settings file = Normal r -> no_folder r = true ->
     Local.convert w settings file = (Normal false, [ EPrepareConversion file ])
     /\ Cloud.convert w settings file = (Normal false, [ EPrepareConversion file ])
     /\ Multipart.convert w settings file = (Normal false, [ EPrepareConversion file ]))
  /\ (forall e, prepareConversion w settings file = Throw e ->
        Local.convert w settings file = (Throw e, [ EPrepareConversion file ])
        /\ Cloud.convert w settings file = (Throw e, [ EPrepareConversion file ])
        /\ Multipart.convert w settings file = (Throw e, [ EPrepareConversion file ])).
Proof.
  split.
  - intros r Hprep Hno.
    unfold Local.convert, Cloud.convert, Multipart.convert, call. rewrite Hprep.
    cbn [bind].
    destruct r as [p|]; cbn [no_folder] in Hno; [rewrite Hno|]; repeat split; reflexivity.
  - intros e Hprep.
    unfold Local.convert, Cloud.convert, Multipart.convert, call. rewrite Hprep.
    repeat split; reflexivity.
Qed.

Lemma not_handed_over (t : list Event) :
  forallb (fun ev => negb (post_step ev)) t = true ->
  forall cr folderPath file, ~ In (EProcessConversionResult cr folderPath file) t.
Proof.
  intros H cr fp f Hin. rewrite forallb_forall in H. apply H in Hin. discriminate.
Qed.

(** X6. When the transport throws instead of answering (a refused
    connection, a DNS failure), [convert] catches it: it returns
    [false], reports a transport error whose message is the message of
    the exception, or [Network or server error] when that is empty, and
    hands nothing over. *)
Theorem convert_transport_error (w : World) (settings : MarkerSettings) (file : TFile)
    (folderPath : string) (fileData : list byte) (e : Error) :
  folder_ready w settings file folderPath ->
  readBinary w file = Normal fileData ->
  (requestUrl w (Local.requestParams settings file fileData) = Throw e ->
   fails_with (Local.convert w settings file) TransportError
     (message_or e "Network or server error"))
  /\ (forall apiKey,
        glmocrApiKey settings = Some apiKey -> str_truthy apiKey = true ->
        requestUrl w (Cloud.requestParams apiKey file fileData) = Throw e ->
        fails_with (Cloud.convert w settings file) TransportError
          (message_or e "Network or server error"))
  /\ (forall req,
        Multipart.request_of w settings file fileData = Normal req ->
        requestUrl w req = Throw e ->
        fails_with (Multipart.convert w settings file) TransportError
          (message_or e "Network or server error")).
Proof.
  intros (Hprep & Hfolder) Hread. split; [|split].
  - intro Hreq. unfold fails_with, Local.convert, Local.on_exception, call, request.
    rewrite Hprep. cbn [bind]. rewrite Hfolder, Hread, Hreq.
    destruct (isFileSystemAdapter w);
      (split; [reflexivity | split; [reflexivity|]]);
      apply not_handed_over; reflexivity.
  - intros apiKey Hkey Htruthy Hreq.
    unfold fails_with, Cloud.convert, Cloud.on_exception, call, request.
    rewrite Hprep. cbn [bind]. rewrite Hfolder, Hkey, Htruthy, Hread, Hreq.
    destruct (String.eqb (file_extension (name file)) "pdf");
      (split; [reflexivity | split; [reflexivity|]]);
      apply not_handed_over; reflexivity.
  - intros req Hbuild Hreq.
    unfold fails_with, Multipart.convert, Local.on_exception, call, request.
    rewrite Hprep. cbn [bind]. rewrite Hfolder, Hread.
    unfold Multipart.request_of in Hbuild.
    destruct (String.eqb (file_extension (name file)) "pdf").
    + destruct (Multipart.multipart_body _ _ _) as [body|e']; [|discriminate].
      injection Hbuild as <-. cbn [eval bind]. rewrite Hreq.
      (split; [reflexivity | split; [reflexivity|]]);
        apply not_handed_over; reflexivity.
    + injection Hbuild as <-. rewrite Hreq.
      (split; [reflexivity | split; [reflexivity|]]);
        apply not_handed_over; reflexivity.
Qed.

(** X7. When the vault cannot read the file, [convert] returns [false]
    with a transport error carrying the message of the exception, and
    sends no request. *)
Theorem convert_read_error (w : World) (settings : MarkerSettings) (file : TFile)
    (folderPath : string) (e : Error) :
  folder_ready w settings file folderPath ->
  readBinary w file = Throw e ->
  (fails_with (Local.convert w settings file) TransportError
     (message_or e "Network or server error")
   /\ requests (snd (Local.convert w settings file)) = [])
  /\ (key_missing settings = false ->
      fails_with (Cloud.convert w settings file) TransportError
        (message_or e "Network or server error")
      /\ requests (snd (Cloud.convert w settings file)) = [])
  /\ (fails_with (Multipart.convert w settings file) TransportError
        (message_or e "Network or server error")
      /\ requests (snd (Multipart.convert w settings file)) = []).
Proof.
  intros (Hprep & Hfolder) Hread. split; [|split].
  - unfold fails_with, Local.convert, Local.on_exception, call.
    rewrite Hprep. cbn [bind]. rewrite Hfolder, Hread.
    destruct (isFileSystemAdapter w);
      (split; [split; [reflexivity | split; [reflexivity|]] | reflexivity]);
      apply not_handed_over; reflexivity.
  - intro Hkey. unfold key_missing in Hkey.
    unfold fails_with, Cloud.convert, Cloud.on_exception, call.
    rewrite Hprep. cbn [bind]. rewrite Hfolder.
    destruct (glmocrApiKey settings) as [apiKey|]; [|discriminate].
    rewrite Hkey, Hread.
    destruct (String.eqb (file_extension (name file)) "pdf");
      (split; [split; [reflexivity | split; [reflexivity|]] | reflexivity]);
      apply not_handed_over; reflexivity.
  - unfold fails_with, Multipart.convert, Local.on_exception, call.
    rewrite Hprep. cbn [bind]. rewrite Hfolder, Hread.
    destruct (String.eqb (file_extension (name file)) "pdf");
      (split; [split; [reflexivity | split; [reflexivity|]] | reflexivity]);
      apply not_handed_over; reflexivity.
Qed.

End EarlyExits.

Section AfterTheAnswer.
Context {P : Platform}.





Lemma local_on_ok_placeholder w settings file folderPath response v :
  JSON_parse (text response) = Normal v ->
  chat_empty_envelope v ->
  let cr := result_of (JString "No text extracted") "GLM-OCR (mlx-vlm)" file in
  let run := Local.on_ok_status w settings file folderPath response in
  (exists rest, snd run = EProcessConversionResult cr folderPath file :: rest)
  /\ (persists w settings file folderPath cr -> fst run = Normal true).
Proof.
  intros Hparse (members & -> & Hshape) cr run.
  assert (Htext : forall choices,
             member "choices" members = Some choices \/
             (member "choices" members = None /\ choices = JUndefined) ->
             get (JObject members) "choices" = Normal choices).
  { intros c [H | (H & ->)]; [apply (get_member _ _ H) | apply (get_absent _ _ H)]. }
  assert (Hocr : exists choices,
             get (JObject members) "choices" = Normal choices
             /\ js_or (get_opt (get_opt (index0_opt choices) "message") "content")
                  (JString "No text extracted") = JString "No text extracted").
  { destruct Hshape as [H | [H | (fm & others & H & Hm)]].
    - exists JUndefined. split; [apply (get_absent _ _ H) | reflexivity].
    - exists (JArray []). split; [apply (get_member _ _ H) | reflexivity].
    - exists (JArray (JObject fm :: others)). split; [apply (get_member _ _ H)|].
      cbn [index0_opt].
      destruct Hm as [Hm | (mm & Hm & [Hc | Hc])].
      + rewrite (get_opt_absent _ _ Hm). reflexivity.
      + rewrite (get_opt_member _ _ Hm), (get_opt_absent _ _ Hc). reflexivity.
      + rewrite (get_opt_member _ _ Hm), (get_opt_member _ _ Hc). reflexivity. }
  destruct Hocr as (choices & Hget & Hor). clear Htext.
  subst run. unfold Local.on_ok_status, eval. rewrite Hparse. cbn [bind].
  rewrite Hget. cbn [bind]. rewrite Hor.
  subst cr. unfold call, persists, result_of.
  split.
  - repeat run_step; eexists; reflexivity.
  - intros (Hp & Hmove & Hdel). rewrite Hp.
    destruct (movePDFtoFolder settings); [rewrite Hmove by reflexivity|];
      (destruct (deleteOriginal settings); [rewrite Hdel by reflexivity|]);
      reflexivity.
Qed.

(** X11. The local JSON and multipart converters have no failure for
    a missing text: on status 200 and a body that parses to an object
    without [choices], with an empty list, or whose first message has no
    or an empty [content], they hand the literal [No text extracted] to
    the formatter as the markdown and return [true] once it is
    persisted. *)
Theorem local_placeholder_on_empty_text (w : World) (settings : MarkerSettings)
    (file : TFile) (folderPath : string) (response : Response) :
  status response = 200%Z ->
  parses_as (text response) chat_empty_envelope ->
  (local_answered w settings file folderPath response ->
   delivers w settings file folderPath (Local.convert w settings file)
     (JString "No text extracted") "GLM-OCR (mlx-vlm)")
  /\ (multipart_answered w settings file folderPath response ->
      delivers w settings file folderPath (Multipart.convert w settings file)
        (JString "No text extracted") "GLM-OCR (mlx-vlm)").
Proof.
  intros Hstatus (v & Hparse & Henv). split; intro Hans.
  - destruct (local_convert_answered Hans) as (pre & Hpre & _ & Hrun).
    rewrite (branch_of_200 _ _ _ Hstatus) in Hrun.
    destruct (@local_on_ok_placeholder w settings file folderPath response v Hparse Henv)
      as (Hsnd & Hfst).
    eapply delivers_intro; eauto.
  - destruct (multipart_convert_answered Hans) as (pre & Hpre & _ & Hrun).
    rewrite (branch_of_200 _ _ _ Hstatus) in Hrun.
    destruct (@local_on_ok_placeholder w settings file folderPath response v Hparse Henv)
      as (Hsnd & Hfst).
    eapply delivers_intro; eauto.
Qed.

Lemma cloud_on_ok_code w settings file folderPath response members shown :
  JSON_parse (text response) = Normal (JObject members) ->
  Cloud.strict_neq_zero (member_or_undefined "code" members) = true ->
  to_string (member_or_undefined "msg" members) = Normal shown ->
  Cloud.on_ok_status w settings file folderPath response
  = (Normal false,
     [ EConsoleError [ LStr "GLM-OCR API error:"; LVal (member_or_undefined "msg" members) ];
       ENotice (failed_prefix ++ shown) None ]).
Proof.
  intros Hparse Hcode Hshown.
  unfold Cloud.on_ok_status, eval. rewrite Hparse. cbn [bind].
  assert (Hget : forall k, get (JObject members) k = Normal (member_or_undefined k members)).
  { intro k. unfold get, member_or_undefined. destruct (member k members); reflexivity. }
  rewrite !Hget. cbn [bind]. rewrite Hcode. cbn [bind emit console_error].
  rewrite ?Hget. cbn [bind]. rewrite Hshown. reflexivity.
Qed.

Lemma cloud_on_ok_code_unprintable w settings file folderPath response members e :
  JSON_parse (text response) = Normal (JObject members) ->
  Cloud.strict_neq_zero (member_or_undefined "code" members) = true ->
  to_string (member_or_undefined "msg" members) = Throw e ->
  Cloud.on_ok_status w settings file folderPath response
  = (Normal false,
     unprintable_message_events (member_or_undefined "msg" members) e response).
Proof.
  intros Hparse Hcode Hshown.
  unfold Cloud.on_ok_status, eval. rewrite Hparse. cbn [bind].
  assert (Hget : forall k, get (JObject members) k = Normal (member_or_undefined k members)).
  { intro k. unfold get, member_or_undefined. destruct (member k members); reflexivity. }
  rewrite !Hget. cbn [bind]. rewrite Hcode. cbn [bind emit console_error].
  rewrite ?Hget. cbn [bind]. rewrite Hshown. reflexivity.
Qed.

(** X18. The cloud converter takes a status-200 body for a success only
    when its [code] is the number zero: an object whose [code] is
    absent, is not a number (the string ["0"] included) or is another
    number gives [false] and nothing reaches the formatter, even when
    the body carries a text.  When [msg] converts to text ([undefined]
    when there is no [msg]), the failure is a backend error with that
    text as its message.  When the conversion throws, as for an object
    with a member [toString], the inner [catch] takes over after the
    diagnostic of the backend error: its console line and the notice
    of a parse error end the run. *)
Theorem cloud_requires_code_zero (w : World) (settings : MarkerSettings) (file : TFile)
    (folderPath : string) (response : Response) (members : list (string * value)) :
  cloud_answered w settings file folderPath response ->
  status response = 200%Z ->
  JSON_parse (text response) = Normal (JObject members) ->
  Cloud.strict_neq_zero (member_or_undefined "code" members) = true ->
  fst (Cloud.convert w settings file) = Normal false
  /\ (forall cr fp f,
        ~ In (EProcessConversionResult cr fp f) (snd (Cloud.convert w settings file)))
  /\ (forall shown,
        to_string (member_or_undefined "msg" members) = Normal shown ->
        fails_with (Cloud.convert w settings file) BackendError shown)
  /\ (forall e,
        to_string (member_or_undefined "msg" members) = Throw e ->
        ends_with (Cloud.convert w settings file)
          (unprintable_message_events (member_or_undefined "msg" members) e response)).
Proof.
  intros Hans Hstatus Hparse Hcode.
  destruct (cloud_convert_answered Hans) as (pre & Hpre & _ & Hrun).
  rewrite (branch_of_200 _ _ _ Hstatus) in Hrun.
  assert (Hshown : forall shown,
             to_string (member_or_undefined "msg" members) = Normal shown ->
             fails_with (Cloud.convert w settings file) BackendError shown).
  { intros shown Hs. rewrite <- (failure_message_failed shown).
    eapply fails_with_intro; eauto using cloud_on_ok_code; reflexivity. }
  assert (Hthrown : forall e,
             to_string (member_or_undefined "msg" members) = Throw e ->
             Cloud.convert w settings file
             = (Normal false,
                (pre ++ unprintable_message_events
                          (member_or_undefined "msg" members) e response)%list)).
  { intros e He. rewrite Hrun.
    rewrite (@cloud_on_ok_code_unprintable w settings file folderPath response members e
               Hparse Hcode He). reflexivity. }
  destruct (to_string (member_or_undefined "msg" members)) as [shown|e] eqn:Hmsg.
  - destruct (Hshown shown eq_refl) as (Hfst & _ & Hnone).
    split; [exact Hfst|]. split; [exact Hnone|]. split; [exact Hshown|].
    intros e He. discriminate He.
  - pose proof (Hthrown e eq_refl) as Hconv.
    split; [rewrite Hconv; reflexivity|]. split; [|split].
    + intros cr fp f Hin. rewrite Hconv in Hin. cbn [snd] in Hin.
      apply in_app_or in Hin. destruct Hin as [Hin|Hin].
      * eapply neutral_not_handover; eassumption.
      * cbn [unprintable_message_events In] in Hin. intuition discriminate.
    + intros shown Hs. discriminate Hs.
    + intros e' He'. injection He' as <-. exists pre. split; [exact Hpre|].
      rewrite Hconv. reflexivity.
Qed.

(** X19. Only the status 200 counts as an answer: on every other
    status of the range 200..299 (201, 204, ...) [convert] returns
    [false] with an HTTP error and hands nothing over, whatever the
    body holds. *)
Theorem convert_rejects_other_2xx (w : World) (settings : MarkerSettings) (file : TFile)
    (folderPath : string) (response : Response) :
  is_2xx (status response) = true ->
  status response <> 200%Z ->
  (local_answered w settings file folderPath response ->
   exists msg, fails_with (Local.convert w settings file) HttpError msg)
  /\ (cloud_answered w settings file folderPath response ->
      exists msg, fails_with (Cloud.convert w settings file) HttpError msg)
  /\ (multipart_answered w settings file folderPath response ->
      exists msg, fails_with (Multipart.convert w settings file) HttpError msg).
Proof.
  intros _ Hstatus. split; [|split]; intro Hans.
  - destruct (local_convert_answered Hans) as (pre & Hpre & _ & Hrun).
    rewrite (branch_of_not_200 _ _ _ Hstatus) in Hrun.
    destruct (local_on_error_shape response)
      as (label & args & rest & msg & Hshape & Hkind & Hnotice & Hrest).
    exists msg. rewrite <- (failure_message_failed msg), <- Hnotice.
    eapply fails_with_first; eauto.
  - destruct (cloud_convert_answered Hans) as (pre & Hpre & _ & Hrun).
    rewrite (branch_of_not_200 _ _ _ Hstatus) in Hrun.
    destruct (cloud_on_error_shape response)
      as (label & args & rest & msg & Hshape & Hkind & Hnotice & Hrest).
    exists msg. rewrite <- (failure_message_failed msg), <- Hnotice.
    eapply fails_with_first; eauto.
  - destruct (multipart_convert_answered Hans) as (pre & Hpre & _ & Hrun).
    rewrite (branch_of_not_200 _ _ _ Hstatus) in Hrun.
    destruct (local_on_error_shape response)
      as (label & args & rest & msg & Hshape & Hkind & Hnotice & Hrest).
    exists msg. rewrite <- (failure_message_failed msg), <- Hnotice.
    eapply fails_with_first; eauto.
Qed.

Lemma local_on_ok_null w settings file folderPath response :
  JSON_parse (text response) = Normal JNull ->
  Local.on_ok_status w settings file folderPath response
  = (Normal false,
     [ EConsoleError [ LStr "Error parsing GLM-OCR response:";
                       LErr (TypeError_read JNull "choices");
                       LStr "Response text:"; LStr (text_excerpt response) ];
       ENotice "Error parsing GLM-OCR response. Check console for details." None ]).
Proof.
  intro Hparse. unfold Local.on_ok_status, eval. rewrite Hparse. reflexivity.
Qed.

Lemma cloud_on_ok_null w settings file folderPath response :
  JSON_parse (text response) = Normal JNull ->
  Cloud.on_ok_status w settings file folderPath response
  = (Normal false,
     [ EConsoleError [ LStr "Error parsing GLM-OCR response:";
                       LErr (TypeError_read JNull "code");
                       LStr "Response text:"; LStr (text_excerpt response) ];
       ENotice "Error parsing GLM-OCR response. Check console for details." None ]).
Proof.
  intro Hparse. unfold Cloud.on_ok_status, eval. rewrite Hparse. reflexivity.
Qed.

(** X20. A status-200 body that is the JSON text [null] parses, but
    reading its first property throws inside the [try]: [convert]
    returns [false] with the notice of a malformed response, as for a
    body that does not parse, and nothing leaves [convert]. *)
Theorem convert_null_body (w : World) (settings : MarkerSettings) (file : TFile)
    (folderPath : string) (response : Response) :
  status response = 200%Z ->
  JSON_parse (text response) = Normal JNull ->
  (local_answered w settings file folderPath response ->
   fails_with (Local.convert w settings file) MalformedResponse
     "Error parsing GLM-OCR response. Check console for details.")
  /\ (cloud_answered w settings file folderPath response ->
      fails_with (Cloud.convert w settings file) MalformedResponse
        "Error parsing GLM-OCR response. Check console for details.")
  /\ (multipart_answered w settings file folderPath response ->
      fails_with (Multipart.convert w settings file) MalformedResponse
        "Error parsing GLM-OCR response. Check console for details.").
Proof.
  intros Hstatus Hparse. split; [|split]; intro Hans.
  - destruct (local_convert_answered Hans) as (pre & Hpre & _ & Hrun).
    rewrite (branch_of_200 _ _ _ Hstatus) in Hrun.
    change "Error parsing GLM-OCR response. Check console for details."
      with (failure_message "Error parsing GLM-OCR response. Check console for details.").
    eapply fails_with_intro; eauto using local_on_ok_null; reflexivity.
  - destruct (cloud_convert_answered Hans) as (pre & Hpre & _ & Hrun).
    rewrite (branch_of_200 _ _ _ Hstatus) in Hrun.
    change "Error parsing GLM-OCR response. Check console for details."
      with (failure_message "Error parsing GLM-OCR response. Check console for details.").
    eapply fails_with_intro; eauto using cloud_on_ok_null; reflexivity.
  - destruct (multipart_convert_answered Hans) as (pre & Hpre & _ & Hrun).
    rewrite (branch_of_200 _ _ _ Hstatus) in Hrun.
    change "Error parsing GLM-OCR response. Check console for details."
      with (failure_message "Error parsing GLM-OCR response. Check console for details.").
    eapply fails_with_intro; eauto using local_on_ok_null; reflexivity.
Qed.

End AfterTheAnswer.

(* ------------------------------------------------------------------ *)
(** * Notices of [testConnection] and the settings button *)

Section Feedback.
Context {P : Platform}.

Lemma local_testConnection_notices w settings silent :
  List.length (notices (snd (Local.testConnection w settings silent)))
  = if not_silent silent then 1 else 0.
Proof. unfold Local.testConnection. repeat run_step; reflexivity. Qed.

Lemma cloud_testConnection_notices w settings silent :
  List.length (notices (snd (Cloud.testConnection w settings silent)))
  = if not_silent silent then 1 else 0.
Proof.
  unfold Cloud.testConnection, Cloud.missing_key.
  destruct (glmocrApiKey settings); repeat run_step; reflexivity.
Qed.

Lemma multipart_testConnection_notices w settings silent :
  List.length (notices (snd (Multipart.testConnection w settings silent)))
  = if not_silent silent then 1 else 0.
Proof. unfold Multipart.testConnection. repeat run_step; reflexivity. Qed.

(** X13. [testConnection] tells its result exactly once when it is not
    silent, whichever way it ends (status 200 on either path, another
    status, a missing key, a thrown exception), and shows no notice at
    all when it is silent. *)
Theorem testConnection_notifies_once (w : World) (settings : MarkerSettings)
    (silent : option bool) :
  List.length (notices (snd (Local.testConnection w settings silent)))
  = (if not_silent silent then 1 else 0)
  /\ List.length (notices (snd (Cloud.testConnection w settings silent)))
     = (if not_silent silent then 1 else 0)
  /\ List.length (notices (snd (Multipart.testConnection w settings silent)))
     = (if not_silent silent then 1 else 0).
Proof.
  split; [|split].
  - apply local_testConnection_notices.
  - apply cloud_testConnection_notices.
  - apply multipart_testConnection_notices.
Qed.

Lemma await_and_drop (m : M bool) :
  (fst m = Normal true \/ fst m = Normal false) ->
  (m ;; ret tt) = (Normal tt, snd m).
Proof.
  destruct m as [c t]. cbn [fst snd]. intros [-> | ->]; cbn [bind ret];
    now rewrite app_nil_r.
Qed.

(** X14. Each converter offers one setting with a test button; pressing
    it runs [testConnection] with notices on: the action never throws
    and shows exactly one notice, with the requests of that one check
    and no other effect. *)
Theorem settings_button_reports (w : World) (settings : MarkerSettings) :
  (forall d, In d (Local.getConverterSettings w) ->
     buttonAction d settings
     = (Normal tt, snd (Local.testConnection w settings (Some false)))
     /\ List.length (notices (snd (buttonAction d settings))) = 1)
  /\ (forall d, In d (Cloud.getConverterSettings w) ->
        buttonAction d settings
        = (Normal tt, snd (Cloud.testConnection w settings (Some false)))
        /\ List.length (notices (snd (buttonAction d settings))) = 1)
  /\ (forall d, In d (Multipart.getConverterSettings w) ->
        buttonAction d settings
        = (Normal tt, snd (Multipart.testConnection w settings (Some false)))
        /\ List.length (notices (snd (buttonAction d settings))) = 1).
Proof.
  split; [|split]; intros d [<- | []]; cbn [buttonAction].
  - rewrite await_and_drop by apply local_testConnection_probes.
    split; [reflexivity|]. cbn [snd]. apply local_testConnection_notices.
  - rewrite await_and_drop by apply cloud_testConnection_probes.
    split; [reflexivity|]. cbn [snd]. apply cloud_testConnection_notices.
  - rewrite await_and_drop by apply multipart_testConnection_probes.
    split; [reflexivity|]. cbn [snd]. apply multipart_testConnection_notices.
Qed.

End Feedback.

(* ------------------------------------------------------------------ *)
(** * What every run of [convert] keeps *)

Ltac unit_results := repeat match goal with a : unit |- _ => destruct a end.

(** Membership in a list of events that is known. *)
Ltac event_cases :=
  repeat match goal with
         | H : In _ (_ :: _) |- _ => destruct H as [H|H]
         | H : In _ [] |- _ => destruct H
         | H : @eq Event _ _ |- _ =>
             first [ discriminate H | injection H as <- <- <- | injection H as <- <-
                   | injection H as <- ]
         end.

Section Frames.
Context {P : Platform}.
Variables (w : World) (settings : MarkerSettings) (file : TFile).

Lemma formatted_cons ev t folderPath :
  formatted w file t folderPath -> formatted w file (ev :: t) folderPath.
Proof. intros (cr & Hin & Hp). exists cr. split; [now right | exact Hp]. Qed.

Lemma formatted_app t post folderPath :
  formatted w file t folderPath -> formatted w file (t ++ post) folderPath.
Proof.
  intros (cr & Hin & Hp). exists cr. split; [apply in_or_app; now left | exact Hp].
Qed.

Lemma guarded_quiet t :
  forallb quiet t = true -> original_guarded w settings file t.
Proof.
  intro H. rewrite forallb_forall in H.
  split; intros; match goal with Hin : In _ t |- _ => apply H in Hin; discriminate end.
Qed.

Lemma guarded_cons ev t :
  quiet ev = true ->
  original_guarded w settings file t -> original_guarded w settings file (ev :: t).
Proof.
  intros Hq (Hmove & Hdel). split.
  - intros f p [-> | Hin]; [discriminate|].
    destruct (Hmove f p Hin) as (Hf & Hs & fp & Hp & Hfmt).
    repeat split; auto. exists fp. split; [exact Hp | now apply formatted_cons].
  - intros f [-> | Hin]; [discriminate|].
    destruct (Hdel f Hin) as (Hf & Hs & fp & Hfmt & Hren).
    repeat split; auto. exists fp. split; [now apply formatted_cons | exact Hren].
Qed.

Lemma guarded_app t post :
  original_guarded w settings file t ->
  forallb quiet post = true ->
  original_guarded w settings file (t ++ post).
Proof.
  intros (Hmove & Hdel) Hq. rewrite forallb_forall in Hq. split.
  - intros f p Hin. apply in_app_or in Hin. destruct Hin as [Hin | Hin].
    + destruct (Hmove f p Hin) as (Hf & Hs & fp & Hp & Hfmt).
      repeat split; auto. exists fp. split; [exact Hp | now apply formatted_app].
    + apply Hq in Hin. discriminate.
  - intros f Hin. apply in_app_or in Hin. destruct Hin as [Hin | Hin].
    + destruct (Hdel f Hin) as (Hf & Hs & fp & Hfmt & Hren).
      repeat split; auto. exists fp. split; [now apply formatted_app | exact Hren].
    + apply Hq in Hin. discriminate.
Qed.

Lemma notices_app (t1 t2 : list Event) :
  notices (t1 ++ t2) = (notices t1 ++ notices t2)%list.
Proof.
  induction t1 as [|ev t1 IH]; simpl; [reflexivity|].
  destruct ev; simpl; rewrite ?IH; reflexivity.
Qed.

Lemma notices_cons_in ev t msg : In msg (notices t) -> In msg (notices (ev :: t)).
Proof. intro H. destruct ev; simpl; auto. Qed.

Lemma true_after_cons ev c t :
  true_after_persisting w settings file (c, t) ->
  true_after_persisting w settings file (c, ev :: t).
Proof.
  intros H Htrue. destruct (H Htrue) as (cr & fp & Hin & Hp & Hn).
  exists cr, fp. cbn [snd] in *. split; [now right | split; [exact Hp|]].
  now apply notices_cons_in.
Qed.

End Frames.

(** Closes the parts of [original_guarded] on a list of events that is
    known, from the completions recorded in the hypotheses. *)
Ltac guarded_done :=
  unit_results; unfold original_guarded, formatted; cbn [snd app];
  split; intros; event_cases;
  (split; [reflexivity | split; [assumption|]]);
  eexists; repeat split;
  first [ reflexivity
        | assumption
        | eexists; split; [left; reflexivity | assumption]
        | intro; first [assumption | congruence] ].

Section Branches.
Context {P : Platform}.
Variables (w : World) (settings : MarkerSettings) (file : TFile).

Lemma local_on_error_quiet response :
  forallb quiet (snd (Local.on_error_status response)) = true.
Proof. unfold Local.on_error_status. repeat run_step; reflexivity. Qed.

Lemma cloud_on_error_quiet response :
  forallb quiet (snd (Cloud.on_error_status response)) = true.
Proof. unfold Cloud.on_error_status. repeat run_step; reflexivity. Qed.

Lemma local_on_ok_guarded folderPath response :
  original_guarded w settings file
    (snd (Local.on_ok_status w settings file folderPath response)).
Proof.
  unfold Local.on_ok_status. repeat run_step.
  all: try (apply guarded_quiet; reflexivity).
  all: guarded_done.
Qed.

Lemma cloud_on_ok_guarded folderPath response :
  original_guarded w settings file
    (snd (Cloud.on_ok_status w settings file folderPath response)).
Proof.
  unfold Cloud.on_ok_status. repeat run_step.
  all: try (apply guarded_quiet; reflexivity).
  all: guarded_done.
Qed.

(** Closes [true_after_persisting] on a run that is known. *)
Ltac true_after_done :=
  unit_results; unfold true_after_persisting, persists; cbn [fst snd app];
  intros ?;
  first
    [ match goal with H : @eq (Completion bool) _ _ |- _ => discriminate H end
    | do 2 eexists; split; [left; reflexivity|]; split;
      [ split; [assumption | split; intro; first [assumption | congruence]]
      | cbn [notices In]; auto ] ].

Lemma local_on_ok_true_after folderPath response :
  true_after_persisting w settings file
    (Local.on_ok_status w settings file folderPath response).
Proof. unfold Local.on_ok_status. repeat run_step. all: true_after_done. Qed.

Lemma cloud_on_ok_true_after folderPath response :
  true_after_persisting w settings file
    (Cloud.on_ok_status w settings file folderPath response).
Proof. unfold Cloud.on_ok_status. repeat run_step. all: true_after_done. Qed.

Ltac classified_done :=
  unfold classified; cbn [fst snd app];
  eexists; split; [reflexivity|];
  intros ?;
  first
    [ match goal with H : @eq (Completion bool) _ _ |- _ => discriminate H end
    | do 2 eexists; reflexivity ].

Lemma local_on_error_classified response :
  classified (Local.on_error_status response).
Proof. unfold Local.on_error_status. repeat run_step. all: classified_done. Qed.

Lemma cloud_on_error_classified response :
  classified (Cloud.on_error_status response).
Proof. unfold Cloud.on_error_status. repeat run_step. all: classified_done. Qed.

Lemma local_on_ok_classified folderPath response :
  classified (Local.on_ok_status w settings file folderPath response).
Proof. unfold Local.on_ok_status. repeat run_step. all: classified_done. Qed.

Lemma cloud_on_ok_classified folderPath response :
  classified (Cloud.on_ok_status w settings file folderPath response).
Proof. unfold Cloud.on_ok_status. repeat run_step. all: classified_done. Qed.

Ltac notices_done :=
  unfold notices_of_branch; cbn [snd app notices List.length];
  first [ left; reflexivity
        | right; split; [reflexivity | split; cbn [In]; auto] ].

Lemma local_on_error_notices response :
  notices_of_branch (snd (Local.on_error_status response)).
Proof. unfold Local.on_error_status. repeat run_step. all: notices_done. Qed.

Lemma cloud_on_error_notices response :
  notices_of_branch (snd (Cloud.on_error_status response)).
Proof. unfold Cloud.on_error_status. repeat run_step. all: notices_done. Qed.

Lemma local_on_ok_notices folderPath response :
  notices_of_branch (snd (Local.on_ok_status w settings file folderPath response)).
Proof. unfold Local.on_ok_status. repeat run_step. all: notices_done. Qed.

Lemma cloud_on_ok_notices folderPath response :
  notices_of_branch (snd (Cloud.on_ok_status w settings file folderPath response)).
Proof. unfold Cloud.on_ok_status. repeat run_step. all: notices_done. Qed.

End Branches.

(** What is known of a status branch that was split into its result
    and its events: it returned, and its events keep what the branch
    lemmas state. *)
Ltac branch_facts :=
  repeat match goal with
         | H : Local.on_error_status ?r = (?c, ?l) |- _ =>
             let H1 := fresh "Hret" in
             let H2 := fresh "Hquiet" in
             let H3 := fresh "Hclass" in
             let H4 := fresh "Hnote" in
             pose proof (local_on_error_status_returns r) as H1;
             pose proof (local_on_error_quiet r) as H2;
             pose proof (local_on_error_classified r) as H3;
             pose proof (local_on_error_notices r) as H4;
             rewrite H in H1, H2, H3, H4; cbn [fst snd] in H1, H2, H4; clear H;
             first [ discriminate H1 | injection H1 as -> ]
         | H : Cloud.on_error_status ?r = (?c, ?l) |- _ =>
             let H1 := fresh "Hret" in
             let H2 := fresh "Hquiet" in
             let H3 := fresh "Hclass" in
             let H4 := fresh "Hnote" in
             pose proof (cloud_on_error_status_returns r) as H1;
             pose proof (cloud_on_error_quiet r) as H2;
             pose proof (cloud_on_error_classified r) as H3;
             pose proof (cloud_on_error_notices r) as H4;
             rewrite H in H1, H2, H3, H4; cbn [fst snd] in H1, H2, H4; clear H;
             first [ discriminate H1 | injection H1 as -> ]
         | H : Local.on_ok_status ?w ?s ?f ?p ?r = (?c, ?l) |- _ =>
             let b := fresh "b" in
             let H1 := fresh "Hret" in
             let H2 := fresh "Hguard" in
             let H3 := fresh "Hclass" in
             let H4 := fresh "Hnote" in
             let H5 := fresh "Htrue" in
             destruct (local_on_ok_status_returns w s f p r) as [b H1];
             pose proof (local_on_ok_guarded w s f p r) as H2;
             pose proof (local_on_ok_classified w s f p r) as H3;
             pose proof (local_on_ok_notices w s f p r) as H4;
             pose proof (local_on_ok_true_after w s f p r) as H5;
             rewrite H in H1, H2, H3, H4, H5; cbn [fst snd] in H1, H2, H4; clear H;
             first [ discriminate H1 | injection H1 as -> ]
         | H : Cloud.on_ok_status ?w ?s ?f ?p ?r = (?c, ?l) |- _ =>
             let b := fresh "b" in
             let H1 := fresh "Hret" in
             let H2 := fresh "Hguard" in
             let H3 := fresh "Hclass" in
             let H4 := fresh "Hnote" in
             let H5 := fresh "Htrue" in
             destruct (cloud_on_ok_status_returns w s f p r) as [b H1];
             pose proof (cloud_on_ok_guarded w s f p r) as H2;
             pose proof (cloud_on_ok_classified w s f p r) as H3;
             pose proof (cloud_on_ok_notices w s f p r) as H4;
             pose proof (cloud_on_ok_true_after w s f p r) as H5;
             rewrite H in H1, H2, H3, H4, H5; cbn [fst snd] in H1, H2, H4; clear H;
             first [ discriminate H1 | injection H1 as -> ]
         end.

Ltac guarded_run :=
  branch_facts; cbn [fst snd app];
  first
    [ apply guarded_quiet; reflexivity
    | repeat (apply guarded_cons; [reflexivity|]);
      first [ assumption | apply guarded_quiet; assumption ] ].

Section Originals.
Context {P : Platform}.

Lemma local_convert_guarded w settings file :
  original_guarded w settings file (snd (Local.convert w settings file)).
Proof.
  unfold Local.convert, Local.on_exception. repeat call_step.
  all: guarded_run.
Qed.

Lemma cloud_convert_guarded w settings file :
  original_guarded w settings file (snd (Cloud.convert w settings file)).
Proof.
  unfold Cloud.convert, Cloud.on_exception. repeat call_step.
  all: guarded_run.
Qed.

Lemma multipart_convert_guarded w settings file :
  original_guarded w settings file (snd (Multipart.convert w settings file)).
Proof.
  unfold Multipart.convert, Local.on_exception. repeat call_step.
  all: guarded_run.
Qed.

(** X8. In every run of [convert], whatever the host and the backend
    do, the original file is moved only when [movePDFtoFolder] is set,
    and then to the folder of the conversion under its own name, and
    deleted only when [deleteOriginal] is set; in both cases only after
    the formatter has taken the conversion result and completed; it is
    deleted only after the move, when one is asked for, has
    completed. *)
Theorem convert_guards_original (w : World) (settings : MarkerSettings) (file : TFile) :
  original_guarded w settings file (snd (Local.convert w settings file))
  /\ original_guarded w settings file (snd (Cloud.convert w settings file))
  /\ original_guarded w settings file (snd (Multipart.convert w settings file)).
Proof.
  split; [|split].
  - apply local_convert_guarded.
  - apply cloud_convert_guarded.
  - apply multipart_convert_guarded.
Qed.

End Originals.

Ltac true_after_run :=
  branch_facts; cbn [fst snd app];
  first
    [ intros ?; match goal with H : @eq (Completion bool) _ _ |- _ => discriminate H end
    | repeat apply true_after_cons; assumption ].

Section Returns.
Context {P : Platform}.

Lemma local_convert_true_after w settings file :
  true_after_persisting w settings file (Local.convert w settings file).
Proof.
  unfold Local.convert, Local.on_exception. repeat call_step.
  all: true_after_run.
Qed.

Lemma cloud_convert_true_after w settings file :
  true_after_persisting w settings file (Cloud.convert w settings file).
Proof.
  unfold Cloud.convert, Cloud.on_exception. repeat call_step.
  all: true_after_run.
Qed.

Lemma multipart_convert_true_after w settings file :
  true_after_persisting w settings file (Multipart.convert w settings file).
Proof.
  unfold Multipart.convert, Local.on_exception. repeat call_step.
  all: true_after_run.
Qed.

(** X9. [convert] returns [true] only when a conversion result was
    handed to the formatter, the formatter and every step the settings
    ask for (move, delete) completed, and the completion notice was
    shown: no [true] comes from any failure path. *)
Theorem convert_true_means_persisted (w : World) (settings : MarkerSettings)
    (file : TFile) :
  true_after_persisting w settings file (Local.convert w settings file)
  /\ true_after_persisting w settings file (Cloud.convert w settings file)
  /\ true_after_persisting w settings file (Multipart.convert w settings file).
Proof.
  split; [|split].
  - apply local_convert_true_after.
  - apply cloud_convert_true_after.
  - apply multipart_convert_true_after.
Qed.

End Returns.

Section ClassifiedRuns.
Context {P : Platform}.

Lemma classified_cons ev (c : Completion bool) t :
  neutral ev = true -> classified (c, t) -> classified (c, ev :: t).
Proof.
  intros Hn (o & Ho & Hs). exists o. split; [|exact Hs].
  cbn [snd] in *. change (ev :: t) with ([ev] ++ t)%list.
  rewrite outcome_neutral; [exact Ho|]. cbn [forallb]. now rewrite Hn.
Qed.

Lemma notices_of_convert_cons (msg : string) (timeout : option Z) (t : list Event) :
  notices_of_branch t -> notices_of_convert (ENotice msg timeout :: t).
Proof.
  intros [H | (H & Hc & He)]; [left | right]; cbn [notices List.length].
  - now rewrite H.
  - rewrite H. split; [reflexivity|]. split; now right.
Qed.

Lemma notices_of_convert_skip ev (t : list Event) :
  notices [ev] = [] -> notices_of_convert t -> notices_of_convert (ev :: t).
Proof.
  intros Hev H. unfold notices_of_convert in *.
  change (ev :: t) with ([ev] ++ t)%list. now rewrite notices_app, Hev.
Qed.

Lemma notices_of_branch_skip ev (t : list Event) :
  notices [ev] = [] -> notices_of_branch t -> notices_of_branch (ev :: t).
Proof.
  intros Hev H. unfold notices_of_branch in *.
  change (ev :: t) with ([ev] ++ t)%list. now rewrite notices_app, Hev.
Qed.

End ClassifiedRuns.

Ltac classified_run :=
  branch_facts; cbn [fst snd app];
  first
    [ assumption
    | repeat (apply classified_cons; [reflexivity|]); assumption
    | unfold classified; cbn [fst snd];
      eexists; split; [reflexivity|];
      intros ?; match goal with H : @eq (Completion bool) _ _ |- _ => discriminate H end ].

Ltac notices_run :=
  branch_facts; cbn [fst snd app];
  first
    [ left; reflexivity
    | repeat (apply notices_of_convert_skip; [reflexivity|]);
      apply notices_of_convert_cons;
      repeat (apply notices_of_branch_skip; [reflexivity|]);
      assumption ].

Section EveryRun.
Context {P : Platform}.

Lemma local_convert_classified w settings file folderPath :
  folder_ready w settings file folderPath ->
  classified (Local.convert w settings file)
  /\ notices_of_convert (snd (Local.convert w settings file)).
Proof.
  intros (Hprep & Hfolder).
  unfold Local.convert, Local.on_exception, call. rewrite Hprep. cbn [bind].
  rewrite Hfolder. cbn [negb].
  split; repeat call_step.
  all: first [ classified_run | notices_run ].
Qed.

Lemma cloud_convert_classified w settings file folderPath :
  folder_ready w settings file folderPath ->
  classified (Cloud.convert w settings file)
  /\ notices_of_convert (snd (Cloud.convert w settings file)).
Proof.
  intros (Hprep & Hfolder).
  unfold Cloud.convert, Cloud.on_exception, call. rewrite Hprep. cbn [bind].
  rewrite Hfolder. cbn [negb].
  split; repeat call_step.
  all: first [ classified_run | notices_run ].
Qed.

Lemma multipart_convert_classified w settings file folderPath :
  folder_ready w settings file folderPath ->
  classified (Multipart.convert w settings file)
  /\ notices_of_convert (snd (Multipart.convert w settings file)).
Proof.
  intros (Hprep & Hfolder).
  unfold Multipart.convert, Local.on_exception, call. rewrite Hprep. cbn [bind].
  rewrite Hfolder. cbn [negb].
  split; repeat call_step.
  all: first [ classified_run | notices_run ].
Qed.

(** X12. Once [prepareConversion] has given a folder, every run of
    [convert] has an outcome that can be read off its events, a
    hand-over to the formatter or a failure with its diagnostic, also
    when the vault or the transport throws; and a run that returns
    [true] is a hand-over. *)
Theorem convert_always_classified (w : World) (settings : MarkerSettings) (file : TFile)
    (folderPath : string) :
  folder_ready w settings file folderPath ->
  classified (Local.convert w settings file)
  /\ classified (Cloud.convert w settings file)
  /\ classified (Multipart.convert w settings file).
Proof.
  intro Hready. split; [|split].
  - apply (local_convert_classified Hready).
  - apply (cloud_convert_classified Hready).
  - apply (multipart_convert_classified Hready).
Qed.

(** X16. Once [prepareConversion] has given a folder, [convert] shows
    exactly two notices, or three; and three only in runs whose notices
    include both the completion notice and the notice of a parse
    error. *)
Theorem convert_notices (w : World) (settings : MarkerSettings) (file : TFile)
    (folderPath : string) :
  folder_ready w settings file folderPath ->
  notices_of_convert (snd (Local.convert w settings file))
  /\ notices_of_convert (snd (Cloud.convert w settings file))
  /\ notices_of_convert (snd (Multipart.convert w settings file)).
Proof.
  intro Hready. split; [|split].
  - apply (local_convert_classified Hready).
  - apply (cloud_convert_classified Hready).
  - apply (multipart_convert_classified Hready).
Qed.

End EveryRun.

(* ------------------------------------------------------------------ *)
(** * These properties at work on sample calls *)

(** X5 on a host without a folder. *)
Lemma convert_without_folder_witness :
  Local.convert DemoMore.no_folder_world Demo.local_settings Demo.scan_png
  = (Normal false, [ EPrepareConversion Demo.scan_png ])
  /\ Cloud.convert DemoMore.no_folder_world Demo.cloud_settings Demo.scan_png
     = (Normal false, [ EPrepareConversion Demo.scan_png ]).
Proof.
  destruct (@convert_without_folder Ref.platform DemoMore.no_folder_world
              Demo.local_settings Demo.scan_png) as (Hlocal & _).
  destruct (@convert_without_folder Ref.platform DemoMore.no_folder_world
              Demo.cloud_settings Demo.scan_png) as (Hcloud & _).
  split.
  - exact (proj1 (Hlocal None eq_refl eq_refl)).
  - exact (proj1 (proj2 (Hcloud None eq_refl eq_refl))).
Defined.

(** X6 on a refused connection. *)
Lemma convert_transport_error_witness :
  fails_with (Local.convert Demo.refused_world Demo.local_settings Demo.scan_png)
    TransportError "net::ERR_CONNECTION_REFUSED"
  /\ fails_with (Cloud.convert Demo.refused_world Demo.cloud_settings Demo.scan_png)
       TransportError "net::ERR_CONNECTION_REFUSED".
Proof.
  split.
  - exact (proj1 (@convert_transport_error Ref.platform Demo.refused_world
                    Demo.local_settings Demo.scan_png "notes/" Demo.file_bytes
                    Demo.refused (conj eq_refl eq_refl) eq_refl) eq_refl).
  - exact (proj1 (proj2 (@convert_transport_error Ref.platform Demo.refused_world
                    Demo.cloud_settings Demo.scan_png "notes/" Demo.file_bytes
                    Demo.refused (conj eq_refl eq_refl) eq_refl))
             "sk-demo" eq_refl eq_refl eq_refl).
Defined.

(** X7 on a vault that cannot be read. *)
Lemma convert_read_error_witness :
  fails_with (Local.convert DemoMore.unreadable Demo.local_settings Demo.scan_png)
    TransportError "ENOSPC: no space left on device"
  /\ requests (snd (Local.convert DemoMore.unreadable Demo.local_settings Demo.scan_png))
     = [].
Proof.
  exact (proj1 (@convert_read_error Ref.platform DemoMore.unreadable Demo.local_settings
                  Demo.scan_png "notes/" DemoMore.disk_full
                  (conj eq_refl eq_refl) eq_refl)).
Defined.


(** X11 on the body of an empty object. *)
Lemma local_placeholder_on_empty_text_witness :
  delivers Demo.empty_object_world Demo.local_settings Demo.scan_png "notes/"
    (Local.convert Demo.empty_object_world Demo.local_settings Demo.scan_png)
    (JString "No text extracted") "GLM-OCR (mlx-vlm)".
Proof.
  refine (proj1 (@local_placeholder_on_empty_text Ref.platform Demo.empty_object_world
                   Demo.local_settings Demo.scan_png "notes/"
                   {| status := 200; text := "{}" |} eq_refl _) _).
  - exists (JObject []). split; [vm_compute; reflexivity|].
    exists []. split; [reflexivity|]. left. reflexivity.
  - split; [split; reflexivity|]. exists Demo.file_bytes. split; reflexivity.
Defined.

(** X12 and X16 on a refused connection. *)
Lemma convert_always_classified_witness :
  classified (Local.convert Demo.refused_world Demo.local_settings Demo.scan_png)
  /\ classified (Cloud.convert Demo.refused_world Demo.no_key_settings Demo.scan_png).
Proof.
  split.
  - exact (proj1 (@convert_always_classified Ref.platform Demo.refused_world
                    Demo.local_settings Demo.scan_png "notes/" (conj eq_refl eq_refl))).
  - exact (proj1 (proj2 (@convert_always_classified Ref.platform Demo.refused_world
                    Demo.no_key_settings Demo.scan_png "notes/" (conj eq_refl eq_refl)))).
Defined.

Lemma convert_notices_witness :
  notices_of_convert
    (snd (Local.convert Demo.refused_world Demo.local_settings Demo.scan_png))
  /\ notices (snd (Local.convert Demo.refused_world Demo.local_settings Demo.scan_png))
     = [ "Converting file with GLM-OCR...";
         "GLM-OCR conversion failed: net::ERR_CONNECTION_REFUSED" ].
Proof.
  split; [|reflexivity].
  exact (proj1 (@convert_notices Ref.platform Demo.refused_world
                  Demo.local_settings Demo.scan_png "notes/" (conj eq_refl eq_refl))).
Defined.

(** X14 on the one setting of the cloud converter. *)
Lemma settings_button_reports_witness :
  List.length
    (notices
       (snd (buttonAction
               {| setting_id := "glmocrApiKey";
                  setting_name := "GLM-OCR API Key";
                  description :=
                    "Your Zhipu AI API key. Get it from https://open.bigmodel.cn/usercenter/apikeys";
                  setting_type := "text";
                  placeholder := "Your API key (e.g., your-api-key-here)";
                  defaultValue := "";
                  buttonText := "Test API Key";
                  buttonAction := fun settings =>
                    (Cloud.testConnection Demo.refused_world settings (Some false) ;; ret tt)%run
               |} Demo.no_key_settings)))
  = 1.
Proof.
  exact (proj2 (proj1 (proj2 (@settings_button_reports Ref.platform Demo.refused_world
                                Demo.no_key_settings)) _ (or_introl eq_refl))).
Defined.

(** X18 on a cloud body without [code], and on one whose [msg] has a
    member [toString]. *)
Lemma cloud_requires_code_zero_witness :
  fails_with (Cloud.convert DemoMore.no_code_world Demo.cloud_settings Demo.scan_png)
    BackendError "undefined"
  /\ ends_with
       (Cloud.convert DemoMore.unprintable_world Demo.cloud_settings Demo.scan_png)
       (unprintable_message_events (JObject [ ("toString", JNull) ]) TypeError_convert
          {| status := 200; text := DemoMore.unprintable_body |}).
Proof.
  split.
  - refine (proj1 (proj2 (proj2
              (@cloud_requires_code_zero Ref.platform DemoMore.no_code_world
                 Demo.cloud_settings Demo.scan_png "notes/"
                 {| status := 200; text := DemoMore.no_code_body |}
                 [ ("data", JObject [ ("md_result", JString "text") ]) ] _ eq_refl _ eq_refl)))
              "undefined" eq_refl).
    + split; [split; reflexivity|]. exists "sk-demo", Demo.file_bytes.
      repeat split; reflexivity.
    + vm_compute. reflexivity.
  - refine (proj2 (proj2 (proj2
              (@cloud_requires_code_zero Ref.platform DemoMore.unprintable_world
                 Demo.cloud_settings Demo.scan_png "notes/"
                 {| status := 200; text := DemoMore.unprintable_body |}
                 [ ("code", JNumber (1, 0)%Z); ("msg", JObject [ ("toString", JNull) ]) ]
                 _ eq_refl _ eq_refl)))
              TypeError_convert eq_refl).
    + split; [split; reflexivity|]. exists "sk-demo", Demo.file_bytes.
      repeat split; reflexivity.
    + vm_compute. reflexivity.
Defined.

(** X19 on status 201 with a well-formed body. *)
Lemma convert_rejects_other_2xx_witness :
  exists msg,
    fails_with (Local.convert DemoMore.created_world Demo.local_settings Demo.scan_png)
      HttpError msg.
Proof.
  refine (proj1 (@convert_rejects_other_2xx Ref.platform DemoMore.created_world
                   Demo.local_settings Demo.scan_png "notes/"
                   {| status := 201; text := Demo.hello_body |} eq_refl _) _).
  - discriminate.
  - split; [split; reflexivity|]. exists Demo.file_bytes. split; reflexivity.
Defined.

(** X20 on the body [null]. *)
Lemma convert_null_body_witness :
  fails_with (Local.convert DemoMore.null_world Demo.local_settings Demo.scan_png)
    MalformedResponse "Error parsing GLM-OCR response. Check console for details."
  /\ fails_with (Cloud.convert DemoMore.null_world Demo.cloud_settings Demo.scan_png)
       MalformedResponse "Error parsing GLM-OCR response. Check console for details.".
Proof.
  split.
  - refine (proj1 (@convert_null_body Ref.platform DemoMore.null_world
                     Demo.local_settings Demo.scan_png "notes/"
                     {| status := 200; text := "null" |} eq_refl _) _).
    + vm_compute. reflexivity.
    + split; [split; reflexivity|]. exists Demo.file_bytes. split; reflexivity.
  - refine (proj1 (proj2 (@convert_null_body Ref.platform DemoMore.null_world
                     Demo.cloud_settings Demo.scan_png "notes/"
                     {| status := 200; text := "null" |} eq_refl _)) _).
    + vm_compute. reflexivity.
    + split; [split; reflexivity|]. exists "sk-demo", Demo.file_bytes.
      repeat split; reflexivity.
Defined.

(** X8 on a run that moves and deletes the original. *)
Lemma convert_guards_original_witness :
  existsb (fun ev => match ev with ERename _ _ => true | _ => false end)
    (snd (Local.convert Demo.hello_world
            {| glmocrEndpoint := None; glmocrApiKey := None;
               movePDFtoFolder := true; deleteOriginal := true |} Demo.scan_png))
  = true
  /\ original_guarded Demo.hello_world
       {| glmocrEndpoint := None; glmocrApiKey := None;
          movePDFtoFolder := true; deleteOriginal := true |} Demo.scan_png
       (snd (Local.convert Demo.hello_world
               {| glmocrEndpoint := None; glmocrApiKey := None;
                  movePDFtoFolder := true; deleteOriginal := true |} Demo.scan_png)).
Proof.
  split; [reflexivity|].
  exact (proj1 (@convert_guards_original Ref.platform Demo.hello_world
                  {| glmocrEndpoint := None; glmocrApiKey := None;
                     movePDFtoFolder := true; deleteOriginal := true |} Demo.scan_png)).
Defined.

(** X9 on a run that returns [true]. *)
Lemma convert_true_means_persisted_witness :
  fst (Local.convert Demo.hello_world Demo.local_settings Demo.scan_png) = Normal true
  /\ exists cr folderPath,
       In (EProcessConversionResult cr folderPath Demo.scan_png)
         (snd (Local.convert Demo.hello_world Demo.local_settings Demo.scan_png))
       /\ persists Demo.hello_world Demo.local_settings Demo.scan_png folderPath cr
       /\ In "Conversion with GLM-OCR completed"
            (notices (snd (Local.convert Demo.hello_world Demo.local_settings
                             Demo.scan_png))).
Proof.
  split; [reflexivity|].
  exact (proj1 (@convert_true_means_persisted Ref.platform Demo.hello_world
                  Demo.local_settings Demo.scan_png) eq_refl).
Defined.
